(** * FlowRunner extensions: Airtable and Telegram services

    A shallow embedding of the stateful parts of the two services:
    the polling triggers, the OAuth2 (PKCE) credential methods and the
    dictionary (selector population) methods of [airtable/src/index.js],
    and [getChatsDictionary] of the Telegram service.

    Conventions.
    - A JS string is the sequence of its UTF-8 bytes ([string]).
    - [async] methods are run to completion: a method is a function into
      [result], [Throw e] standing for a rejected promise / thrown error.
    - The remote HTTP API is an explicit argument ([Remote]); one field
      per endpoint the code calls. Logging is not modelled. *)

From Stdlib Require Import Ascii.
From stdpp Require Import gmap strings list fin_maps pretty.

Set Warnings "-register-all".

(* ===================================================================== *)
(** ** JavaScript values, truthiness, strict equality, thrown errors      *)
(* ===================================================================== *)

Module Js.

(** Values as [JSON.parse] produces them, plus [undefined]. Numbers are
    the integers (ids, counters, expiry seconds); JSON has no NaN. *)
Inductive value : Type :=
  | VUndefined
  | VNull
  | VBool (b : bool)
  | VNum (n : Z)
  | VStr (s : string)
  | VArr (l : list value)
  | VObj (o : gmap string value).

(** [!!v] *)
Definition truthy (v : value) : bool :=
  match v with
  | VUndefined | VNull => false
  | VBool b => b
  | VNum n => negb (n =? 0)%Z
  | VStr s => negb (String.eqb s "")
  | VArr _ | VObj _ => true
  end.

(** [a || b] *)
Definition or_else (a b : value) : value := if truthy a then a else b.

(** [a === b]. Primitives compare by value. Arrays and objects compare by
    reference; every comparison in the services is between a value of a
    fresh HTTP response and a value the host handed back from an earlier
    invocation, so two such references are never the same. *)
Definition strict_equal (a b : value) : bool :=
  match a, b with
  | VUndefined, VUndefined => true
  | VNull, VNull => true
  | VBool x, VBool y => Bool.eqb x y
  | VNum x, VNum y => (x =? y)%Z
  | VStr x, VStr y => String.eqb x y
  | _, _ => false
  end.

Definition is_scalar (v : value) : bool :=
  match v with
  | VArr _ | VObj _ => false
  | _ => true
  end.

(** [obj[key]] on a plain object: a missing key reads as [undefined]. *)
Definition get (o : gmap string value) (key : string) : value :=
  default VUndefined (o !! key).

(** What a failed HTTP call rejects with: the transport error object,
    with the fields the services look at ([message], [status] and
    [body.error], which Airtable sends as a string or as
    [{message, type}]). *)
Inductive error_body : Type :=
  | ErrText (s : string)
  | ErrObject (message type : option string).

Record failure : Type := Failure {
  f_message : string;
  f_status : option Z;
  f_body_error : option error_body;
}.

Inductive error : Type :=
  | TypeError (message : string)
  | Error (message : string)
  | RequestError (f : failure)
  | ResponseError (message : string) (httpStatusCode : option Z) (type : option string).

Inductive result (A : Type) : Type :=
  | Ok (a : A)
  | Throw (e : error).
Arguments Ok {A} a.
Arguments Throw {A} e.

Definition bind {A B} (r : result A) (k : A → result B) : result B :=
  match r with
  | Ok a => k a
  | Throw e => Throw e
  end.

(** [try { body } catch (error) { handler(error) }] *)
Definition try_catch {A} (body : result A) (handler : error → result A) : result A :=
  match body with
  | Ok a => Ok a
  | Throw e => handler e
  end.

(** A string between double quotes. *)
Definition quoted (s : string) : string :=
  let q := String (Ascii.ascii_of_N 34) EmptyString in q +:+ s +:+ q.

(** [`${ x }`] of a possibly undefined string. *)
Definition template (x : option string) : string := default "undefined" x.

(** [new Map(pairs)]: entries are set in order, a later pair replaces an
    earlier one with the same key. *)
Definition Map_of (pairs : list (string * value)) : gmap string value :=
  foldl (λ m p, <[p.1 := p.2]> m) ∅ pairs.

Definition Map_has (m : gmap string value) (k : string) : bool :=
  bool_decide (is_Some (m !! k)).

Definition Map_get (m : gmap string value) (k : string) : value :=
  default VUndefined (m !! k).

(** [new Set(keys)] and [set.has(k)] *)
Definition Set_of (keys : list string) : gset string := list_to_set keys.

Definition Set_has (s : gset string) (k : string) : bool := bool_decide (k ∈ s).

End Js.

Export Js.

#[global] Instance result_ret : MRet result := λ A a, Ok a.
#[global] Instance result_bind : MBind result := λ A B k r, Js.bind r k.

(* ===================================================================== *)
(** ** [URLSearchParams]: the application/x-www-form-urlencoded format    *)
(* ===================================================================== *)

Module Form.

Definition hex_digit (n : N) : Ascii.ascii :=
  match n with
  | 0 => "0" | 1 => "1" | 2 => "2" | 3 => "3" | 4 => "4" | 5 => "5"
  | 6 => "6" | 7 => "7" | 8 => "8" | 9 => "9" | 10 => "A" | 11 => "B"
  | 12 => "C" | 13 => "D" | 14 => "E" | _ => "F"
  end%N%char.

Definition hex_value (c : Ascii.ascii) : option N :=
  let n := Ascii.N_of_ascii c in
  if (48 <=? n)%N && (n <=? 57)%N then Some (n - 48)%N
  else if (65 <=? n)%N && (n <=? 70)%N then Some (n - 55)%N
  else if (97 <=? n)%N && (n <=? 102)%N then Some (n - 87)%N
  else None.

(** Bytes the serializer leaves as they are: ASCII alphanumerics and
    [*], [-], [.], [_]. *)
Definition unreserved (c : Ascii.ascii) : bool :=
  let n := Ascii.N_of_ascii c in
  ((48 <=? n)%N && (n <=? 57)%N) || ((65 <=? n)%N && (n <=? 90)%N)
  || ((97 <=? n)%N && (n <=? 122)%N)
  || (n =? 42)%N || (n =? 45)%N || (n =? 46)%N || (n =? 95)%N.

Definition encode_byte (c : Ascii.ascii) : string :=
  if unreserved c then String c ""
  else if Ascii.eqb c " " then "+"
  else
    let n := Ascii.N_of_ascii c in
    String "%" (String (hex_digit (n / 16)) (String (hex_digit (n mod 16)) "")).

Fixpoint encode (s : string) : string :=
  match s with
  | EmptyString => EmptyString
  | String c rest => encode_byte c +:+ encode rest
  end.

Fixpoint join (sep : string) (parts : list string) : string :=
  match parts with
  | [] => ""
  | [p] => p
  | p :: rest => p +:+ sep +:+ join sep rest
  end.

(** [params.toString()] for the pairs appended to [params], in order. *)
Definition toString (params : list (string * string)) : string :=
  join "&" ((λ p, encode p.1 +:+ "=" +:+ encode p.2) <$> params).

(** The receiving side (the authorization server, the browser): the
    urlencoded parser. *)
Fixpoint decode (s : string) : string :=
  match s with
  | EmptyString => EmptyString
  | String c rest =>
      if Ascii.eqb c "+" then String " " (decode rest)
      else if Ascii.eqb c "%" then
        match rest with
        | String h1 (String h2 rest') =>
            match hex_value h1, hex_value h2 with
            | Some a, Some b => String (Ascii.ascii_of_N (16 * a + b)) (decode rest')
            | _, _ => String c (decode rest)
            end
        | _ => String c (decode rest)
        end
      else String c (decode rest)
  end.

Fixpoint split_on (sep : Ascii.ascii) (s : string) : list string :=
  match s with
  | EmptyString => [""]
  | String c rest =>
      if Ascii.eqb c sep then "" :: split_on sep rest
      else
        match split_on sep rest with
        | [] => [String c ""]
        | h :: t => String c h :: t
        end
  end.

(** Name and value of one [name=value] sequence: split at the first [=]. *)
Fixpoint break_pair (s : string) : string * string :=
  match s with
  | EmptyString => ("", "")
  | String c rest =>
      if Ascii.eqb c "=" then ("", rest)
      else let '(n, v) := break_pair rest in (String c n, v)
  end.

Definition parse (query : string) : list (string * string) :=
  (λ seq, let '(n, v) := break_pair seq in (decode n, decode v))
    <$> List.filter (λ seq, negb (String.eqb seq "")) (split_on "&" query).

(** Does the byte occur in the string? *)
Fixpoint occurs (c : Ascii.ascii) (s : string) : bool :=
  match s with
  | EmptyString => false
  | String c' rest => Ascii.eqb c' c || occurs c rest
  end.


End Form.

(* ===================================================================== *)
(** ** [./utils]                                                          *)
(* ===================================================================== *)

Module Utils.

Definition lower_byte (c : Ascii.ascii) : Ascii.ascii :=
  let n := Ascii.N_of_ascii c in
  if (65 <=? n)%N && (n <=? 90)%N then Ascii.ascii_of_N (n + 32) else c.

(** [s.toLowerCase()], on the ASCII letters. *)
Fixpoint toLowerCase (s : string) : string :=
  match s with
  | EmptyString => EmptyString
  | String c rest => String (lower_byte c) (toLowerCase rest)
  end.

Fixpoint startsWith (s p : string) : bool :=
  match p, s with
  | EmptyString, _ => true
  | String _ _, EmptyString => false
  | String a p', String b s' => Ascii.eqb a b && startsWith s' p'
  end.

(** [s.includes(needle)] *)
Fixpoint includes (s needle : string) : bool :=
  startsWith s needle ||
  match s with
  | EmptyString => false
  | String _ rest => includes rest needle
  end.

(** [item[name]] for the items the dictionaries list: the named string
    property, [None] when the item has no such property. *)
Class Props (A : Type) := prop : string → A → option string.

(** Modelled from the spec: [searchFilter] of [./utils], which [index.js]
    requires and which is not among the sources. The spec (4.3): keep the
    items where any of the named fields contains the search string as a
    case-insensitive substring. *)
Definition searchFilter {A} `{Props A}
    (items : list A) (fields : list string) (search : string) : list A :=
  List.filter
    (λ item,
       existsb
         (λ name,
            match prop name item with
            | Some text => includes (toLowerCase text) (toLowerCase search)
            | None => false
            end)
         fields)
    items.

End Utils.

(* ===================================================================== *)
(** ** The Airtable service ([airtable/src/index.js])                     *)
(* ===================================================================== *)

Module Airtable.

Import Utils.

Definition OAUTH_BASE_URL : string := "https://airtable.com/oauth2/v1".
Definition API_BASE_URL : string := "https://api.airtable.com/v0".

Definition DEFAULT_SCOPE_LIST : list string :=
  [ "schema.bases:read"; "user.email:read"; "webhook:manage";
    "schema.bases:write"; "data.records:read"; "data.records:write";
    "data.recordComments:read"; "data.recordComments:write" ].

Definition DEFAULT_SCOPE_STRING : string := Form.join " " DEFAULT_SCOPE_LIST.

Definition DEFAULT_LIMIT : Z := 100.

(** *** Remote data, in the shapes the Airtable REST API documents *)

Record Base := { base_id : string; base_name : string }.

Record Field := { fld_id : string; fld_name : string; fld_type : string }.

Record Table := { tbl_id : string; tbl_name : string; tbl_fields : list Field }.

Record AirtableRecord := {
  rec_id : string;
  rec_createdTime : string;
  rec_fields : gmap string value;
}.

Record Comment := { cmt_id : string; cmt_text : string }.

#[global] Instance Base_props : Props Base := λ name b,
  if String.eqb name "id" then Some (base_id b)
  else if String.eqb name "name" then Some (base_name b) else None.

#[global] Instance Table_props : Props Table := λ name t,
  if String.eqb name "id" then Some (tbl_id t)
  else if String.eqb name "name" then Some (tbl_name t) else None.

#[global] Instance Field_props : Props Field := λ name f,
  if String.eqb name "id" then Some (fld_id f)
  else if String.eqb name "name" then Some (fld_name f)
  else if String.eqb name "type" then Some (fld_type f) else None.

#[global] Instance Comment_props : Props Comment := λ name c,
  if String.eqb name "id" then Some (cmt_id c)
  else if String.eqb name "text" then Some (cmt_text c) else None.

(** Response bodies. *)
Record BasesBody := { bases : list Base; bases_offset : option string }.

Record RecordsBody := {
  body_records : option (list AirtableRecord);
  records_offset : option string;
}.

Record CommentsBody := { comments : list Comment; comments_offset : option string }.

(** *** The HTTP client ([Backendless.Request]) *)

Inductive response (A : Type) : Type :=
  | Resolved (body : A)
  | Rejected (f : failure).
Arguments Resolved {A} body.
Arguments Rejected {A} f.

(** The [Authorization] header. [Basic] carries [clientId:clientSecret]
    before its base64 transport encoding. *)
Inductive Authorization : Type :=
  | Bearer (token : value)
  | Basic (credentials : string).

Record Remote := {
  (** GET /meta/bases?offset= *)
  meta_bases : Authorization → option string → response BasesBody;
  (** GET /meta/bases/:baseId/tables, the [tables] of the body *)
  meta_tables : Authorization → string → response (list Table);
  (** GET /:baseId/:tableIdOrName?sort[0][field]=&sort[0][direction]= ;
      an empty body is [None] *)
  list_records :
    Authorization → string → string → option (string * string) →
    response (option RecordsBody);
  (** GET /:baseId/:tableIdOrName/:recordId/comments?pageSize=&offset= *)
  list_comments :
    Authorization → string → string → string → Z → option string →
    response CommentsBody;
  (** POST https://airtable.com/oauth2/v1/token, urlencoded body *)
  oauth_token : Authorization → string → response value;
  (** GET /meta/whoami *)
  meta_whoami : Authorization → response value;
}.

(** The service instance: the configuration set by the constructor and
    the access token of the request being served
    ([this.request.headers['oauth-access-token']]). *)
Record Service := {
  clientId : string;
  clientSecret : string;
  scopes : string;
  oauth_access_token : value;
}.

Definition constructor (config_clientId config_clientSecret : string)
    (access_token : value) : Service :=
  {| clientId := config_clientId;
     clientSecret := config_clientSecret;
     scopes := DEFAULT_SCOPE_STRING;
     oauth_access_token := access_token |}.

Definition getAccessTokenHeader (this : Service) (accessToken : value) : Authorization :=
  Bearer (or_else accessToken (oauth_access_token this)).

Definition getSecretTokenHeader (this : Service) : Authorization :=
  Basic (clientId this +:+ ":" +:+ clientSecret this).

(** [#apiRequest]: the call, with a rejection rewritten to a
    [ResponseError] when it carries an Airtable error body. *)
Definition apiRequest {A} (call : response A) : result A :=
  match call with
  | Resolved body => Ok body
  | Rejected f =>
      match f_body_error f with
      | Some (ErrText text) =>
          if String.eqb text "" then Throw (RequestError f)
          else Throw (ResponseError ("[AirtableError]: " +:+ text) (f_status f) None)
      | Some (ErrObject message type) =>
          let errorMessage :=
            match message with
            | Some m => if String.eqb m "" then type else Some m
            | None => type
            end in
          Throw (ResponseError ("[AirtableError]: " +:+ template errorMessage)
                   (f_status f) type)
      | None => Throw (RequestError f)
      end
  end.

(** [v[key]] for a response body [v]: reading a property of [undefined]
    or [null] throws, and the message names which of the two it was. *)
Definition get_prop (v : value) (key : string) : result value :=
  match v with
  | VUndefined =>
      Throw (TypeError ("Cannot read properties of undefined (reading '" +:+ key +:+ "')"))
  | VNull =>
      Throw (TypeError ("Cannot read properties of null (reading '" +:+ key +:+ "')"))
  | VObj o => Ok (get o key)
  | _ => Ok VUndefined
  end.

(** *** OAuth2 with PKCE *)

(** [codeVerifier] is the string [generateCodeVerifier()] drew for this
    call; [generateCodeChallenge] is the function of [./utils]. *)
Definition getOAuth2ConnectionURL (this : Service)
    (generateCodeChallenge : string → string) (codeVerifier : string) : string :=
  let codeChallenge := generateCodeChallenge codeVerifier in
  let params :=
    [ ("client_id", clientId this);
      ("response_type", "code");
      ("scope", scopes this);
      ("code_challenge", codeChallenge);
      ("code_challenge_method", "S256");
      ("state", codeVerifier) ] in
  OAUTH_BASE_URL +:+ "/authorize?" +:+ Form.toString params.

Record refreshToken_ResultObject := {
  token : value;
  expirationInSeconds : value;
  refreshToken_ : value;
}.

Definition refreshToken_params (refreshToken : string) : list (string * string) :=
  [ ("grant_type", "refresh_token"); ("refresh_token", refreshToken) ].

Definition refreshToken (this : Service) (net : Remote) (refreshToken : string)
    : result refreshToken_ResultObject :=
  let params := refreshToken_params refreshToken in
  try_catch
    (response ← match oauth_token net (getSecretTokenHeader this) (Form.toString params) with
                | Resolved body => Ok body
                | Rejected f => Throw (RequestError f)
                end;
     access_token ← get_prop response "access_token";
     expires_in ← get_prop response "expires_in";
     refresh_token ← get_prop response "refresh_token";
     mret {| token := access_token;
             expirationInSeconds := expires_in;
             refreshToken_ := or_else refresh_token (VStr refreshToken) |})
    (λ error, Throw error).

Record CallbackObject := {
  code : string;
  redirectURI : string;
  state : string;
}.

Definition executeCallback_params (this : Service) (callbackObject : CallbackObject)
    : list (string * string) :=
  [ ("grant_type", "authorization_code");
    ("client_secret", clientSecret this);
    ("code", code callbackObject);
    ("redirect_uri", redirectURI callbackObject);
    ("code_verifier", state callbackObject) ].

(** The request [executeCallback] posts to the token endpoint. *)
Definition executeCallback_request (this : Service) (callbackObject : CallbackObject)
    : Authorization * string :=
  (getSecretTokenHeader this, Form.toString (executeCallback_params this callbackObject)).

Definition executeCallback (this : Service) (net : Remote) (callbackObject : CallbackObject)
    : result (gmap string value) :=
  let '(header, body) := executeCallback_request this callbackObject in
  match oauth_token net header body with
  | Rejected _ => Ok ∅
  | Resolved codeExchangeResponse =>
      match
        (access_token ← get_prop codeExchangeResponse "access_token";
         match meta_whoami net (getAccessTokenHeader this access_token) with
         | Resolved userInfo => Ok userInfo
         | Rejected f => Throw (RequestError f)
         end)
      with
      | Throw _ => Ok ∅
      | Ok userInfo =>
          access_token ← get_prop codeExchangeResponse "access_token";
          expires_in ← get_prop codeExchangeResponse "expires_in";
          refresh_token ← get_prop codeExchangeResponse "refresh_token";
          email ← get_prop userInfo "email";
          mret (list_to_map
                  [ ("token", access_token);
                    ("expirationInSeconds", expires_in);
                    ("refreshToken", refresh_token);
                    ("connectionIdentityName",
                       or_else email (VStr "Unknown Airtable Account"));
                    ("connectionIdentityImageURL", VNull);
                    ("overwrite", VBool true);
                    ("userData", userInfo) ])
      end
  end.

(** *** Schema helpers *)

Definition getAllTablesSchema (this : Service) (net : Remote) (baseId : string)
    : result (list Table) :=
  apiRequest (meta_tables net (getAccessTokenHeader this VUndefined) baseId).

(** [#getTableSchema]; [None] is [undefined], the result of a [find] that
    matches nothing. *)
Definition getTableSchema (this : Service) (net : Remote) (baseId tableIdOrName : string)
    : result (option Table) :=
  tables ← getAllTablesSchema this net baseId;
  mret (List.find
          (λ table, String.eqb (tbl_id table) tableIdOrName
                    || String.eqb (tbl_name table) tableIdOrName)
          tables).

(** *** Dictionaries *)

Record DictionaryItem := {
  label : string;
  note : string;
  value_ : value;
}.

(** A [cursor] of [None] is a missing ([undefined]) cursor. *)
Record DictionaryResponse := {
  cursor : option string;
  items : list DictionaryItem;
}.

(** The [search] and [cursor] of a payload; [None] when not sent. *)
Record DictionaryPayload := {
  search : option string;
  payload_cursor : option string;
}.

(** [search ? searchFilter(page, fields, search) : page] *)
Definition filtered {A} `{Props A} (search : option string) (page : list A)
    (fields : list string) : list A :=
  match search with
  | Some text => if String.eqb text "" then page else searchFilter page fields text
  | None => page
  end.

(** [name || '[empty]'] *)
Definition label_of (name : string) : string :=
  if String.eqb name "" then "[empty]" else name.

Definition base_item (b : Base) : DictionaryItem :=
  {| label := label_of (base_name b);
     note := "ID: " +:+ base_id b;
     value_ := VStr (base_id b) |}.

Definition getBasesDictionary (this : Service) (net : Remote) (payload : DictionaryPayload)
    : result DictionaryResponse :=
  body ← apiRequest (meta_bases net (getAccessTokenHeader this VUndefined)
                       (payload_cursor payload));
  let filteredBases := filtered (search payload) (bases body) ["id"; "name"] in
  mret {| cursor := bases_offset body; items := base_item <$> filteredBases |}.

Definition table_item (t : Table) : DictionaryItem :=
  {| label := label_of (tbl_name t);
     note := "ID: " +:+ tbl_id t;
     value_ := VStr (tbl_id t) |}.

Definition getTablesDictionary (this : Service) (net : Remote)
    (payload : DictionaryPayload) (baseId : string) : result DictionaryResponse :=
  tables ← apiRequest (meta_tables net (getAccessTokenHeader this VUndefined) baseId);
  let filteredTables := filtered (search payload) tables ["id"; "name"] in
  mret {| cursor := None; items := table_item <$> filteredTables |}.

Definition field_item (f : Field) : DictionaryItem :=
  {| label := label_of (fld_name f);
     note := "ID: " +:+ fld_id f;
     value_ := VStr (fld_name f) |}.

Definition getFieldsDictionary (this : Service) (net : Remote)
    (payload : DictionaryPayload) (baseId tableIdOrName : string)
    : result DictionaryResponse :=
  tables ← apiRequest (meta_tables net (getAccessTokenHeader this VUndefined) baseId);
  let currentTable := List.find (λ table, String.eqb (tbl_id table) tableIdOrName) tables in
  match currentTable with
  | None => Throw (TypeError "Cannot read properties of undefined (reading 'fields')")
  | Some currentTable =>
      let filteredFields := filtered (search payload) (tbl_fields currentTable) ["id"; "name"] in
      mret {| cursor := None; items := field_item <$> filteredFields |}
  end.

Definition getLastModifiedColumnsDictionary (this : Service) (net : Remote)
    (payload : DictionaryPayload) (baseId tableIdOrName : string)
    : result DictionaryResponse :=
  table ← getTableSchema this net baseId tableIdOrName;
  let tableFields := default [] (tbl_fields <$> table) in
  let lastModifiedColumns :=
    List.filter (λ field, String.eqb (fld_type field) "lastModifiedTime") tableFields in
  let filteredFields := filtered (search payload) lastModifiedColumns ["id"; "name"] in
  mret {| cursor := None; items := field_item <$> filteredFields |}.

Definition comment_item (c : Comment) : DictionaryItem :=
  {| label := label_of (cmt_text c);
     note := "ID: " +:+ cmt_id c;
     value_ := VStr (cmt_id c) |}.

Definition getCommentsDictionary (this : Service) (net : Remote)
    (payload : DictionaryPayload) (baseId tableIdOrName recordId : string)
    : result DictionaryResponse :=
  body ← apiRequest (list_comments net (getAccessTokenHeader this VUndefined)
                       baseId tableIdOrName recordId DEFAULT_LIMIT (payload_cursor payload));
  let filteredComments := filtered (search payload) (comments body) ["id"; "text"] in
  mret {| cursor := comments_offset body; items := comment_item <$> filteredComments |}.

(** *** Polling triggers *)

Record TriggerData := {
  baseId : string;
  tableIdOrName : string;
  lastModifiedColumn : string;
}.

(** The state a trigger returns and the host hands back: [{ records }]. *)
Record TriggerState := { records : list AirtableRecord }.

(** [invocation.state] is [None] when null or absent. *)
Record Invocation := {
  triggerData : TriggerData;
  inv_state : option TriggerState;
  learningMode : bool;
}.

(** An element of [events] is a record or [undefined] ([None]); a [state]
    of [None] is [null]. *)
Record TriggerResult := {
  events : list (option AirtableRecord);
  new_state : option TriggerState;
}.

Definition getLatestRecords (this : Service) (net : Remote)
    (baseId tableIdOrName sortByColumn : string) : result (list AirtableRecord) :=
  result ← apiRequest (list_records net (getAccessTokenHeader this VUndefined)
                         baseId tableIdOrName (Some (sortByColumn, "desc")));
  mret (default [] (result ≫= body_records)).

Definition getCreatedColumnName (this : Service) (net : Remote)
    (baseId tableIdOrName : string) : result string :=
  tables ← apiRequest (meta_tables net (getAccessTokenHeader this VUndefined) baseId);
  let currentTable := List.find (λ table, String.eqb (tbl_id table) tableIdOrName) tables in
  match currentTable with
  | None => Throw (TypeError "Cannot read properties of undefined (reading 'fields')")
  | Some currentTable =>
      let createdColumn :=
        List.find (λ field, String.eqb (fld_type field) "createdTime")
          (tbl_fields currentTable) in
      match createdColumn with
      | None =>
          Throw (Error ("There is no a column with type " +:+ quoted "createdTime"
                        +:+ " in the " +:+ quoted tableIdOrName +:+ " table"))
      | Some createdColumn => mret (fld_name createdColumn)
      end
  end.

Definition onNewOrUpdatedRecord (this : Service) (net : Remote) (invocation : Invocation)
    : result TriggerResult :=
  let data := triggerData invocation in
  records ← getLatestRecords this net (baseId data) (tableIdOrName data)
              (lastModifiedColumn data);
  if learningMode invocation then
    let record := records !! 0%nat in
    mret {| events := [record]; new_state := None |}
  else
    match inv_state invocation with
    | None => mret {| events := []; new_state := Some {| records := records |} |}
    | Some state =>
        let prevRecords :=
          Map_of ((λ r, (rec_id r, get (rec_fields r) (lastModifiedColumn data)))
                    <$> Airtable.records state) in
        let newOrUpdatedRecords :=
          List.filter
            (λ record,
               negb (Map_has prevRecords (rec_id record))
               || negb (strict_equal
                          (get (rec_fields record) (lastModifiedColumn data))
                          (Map_get prevRecords (rec_id record))))
            records in
        mret {| events := Some <$> newOrUpdatedRecords;
                new_state := Some {| records := records |} |}
    end.

Definition onNewRecord (this : Service) (net : Remote) (invocation : Invocation)
    : result TriggerResult :=
  let data := triggerData invocation in
  createdColumn ← getCreatedColumnName this net (baseId data) (tableIdOrName data);
  records ← getLatestRecords this net (baseId data) (tableIdOrName data) createdColumn;
  if learningMode invocation then
    mret {| events := [records !! 0%nat]; new_state := None |}
  else
    match inv_state invocation with
    | None => mret {| events := []; new_state := Some {| records := records |} |}
    | Some state =>
        let prevRecords := Set_of (rec_id <$> Airtable.records state) in
        let newRecords :=
          List.filter (λ record, negb (Set_has prevRecords (rec_id record))) records in
        mret {| events := Some <$> newRecords;
                new_state := Some {| records := records |} |}
    end.

End Airtable.

(* ===================================================================== *)
(** ** The Telegram service: [getChatsDictionary]                         *)
(* ===================================================================== *)

Module Telegram.

Import Utils.

(** The [chat] of an update, with the optional fields of the Bot API. *)
Record Chat := {
  chat_id : Z;
  chat_type : string;
  title : option string;
  username : option string;
  first_name : option string;
  last_name : option string;
  member_count : option Z;
}.

(** An update, as far as the dictionary reads it: [update.message?.chat]. *)
Record Update := { message_chat : option Chat }.

(** A cursor is a number (what the method returns) or a string (what the
    payload declares). *)
Inductive Cursor : Type :=
  | CNum (n : Z)
  | CStr (s : string).

Record Payload := {
  search : option string;
  cursor : option Cursor;
}.

Record DictionaryItem := {
  value_ : string;
  label : string;
  note : string;
}.

Record DictionaryResponse := {
  next_cursor : option Cursor;
  items : list DictionaryItem;
}.

Record Rejection := {
  message : string;
  body : option (option Z * option string);
}.

Inductive response (A : Type) : Type :=
  | Resolved (result : A)
  | Rejected (r : Rejection).
Arguments Resolved {A} result.
Arguments Rejected {A} r.

(** GET /bot<token>/getUpdates?offset= , the [result] of the body. *)
Record Remote := { getUpdates : Cursor → response (list Update) }.

Definition apiRequest {A} (call : response A) : result A :=
  match call with
  | Resolved result => Ok result
  | Rejected r =>
      match body r with
      | Some (error_code, description) =>
          Throw (ResponseError
                   ("Telegram Error: [" +:+ template (pretty <$> error_code) +:+ "] "
                    +:+ template description)
                   None None)
      | None => Throw (RequestError (Failure (message r) None None))
      end
  end.

(** The white space and line terminators [trim] strips.  Strings are
    UTF-8 bytes: the one-byte ones are U+0009 to U+000D and U+0020. *)
Definition is_space (c : Ascii.ascii) : bool :=
  let n := Ascii.N_of_ascii c in ((9 <=? n)%N && (n <=? 13)%N) || (n =? 32)%N.

(** U+00A0, the one two-byte white space. *)
Definition is_space2 (c d : Ascii.ascii) : bool :=
  (Ascii.N_of_ascii c =? 194)%N && (Ascii.N_of_ascii d =? 160)%N.

(** The three-byte ones: U+1680, U+2000 to U+200A, U+2028, U+2029,
    U+202F, U+205F, U+3000 and U+FEFF. *)
Definition is_space3 (c d e : Ascii.ascii) : bool :=
  let c := Ascii.N_of_ascii c in
  let d := Ascii.N_of_ascii d in
  let e := Ascii.N_of_ascii e in
  ((c =? 225) && (d =? 154) && (e =? 128))%N
  || ((c =? 226) && (d =? 128)
      && (((128 <=? e) && (e <=? 138)) || (e =? 168) || (e =? 169) || (e =? 175)))%N
  || ((c =? 226) && (d =? 129) && (e =? 159))%N
  || ((c =? 227) && (d =? 128) && (e =? 128))%N
  || ((c =? 239) && (d =? 187) && (e =? 191))%N.

Fixpoint trimStart (s : string) : string :=
  match s with
  | EmptyString => EmptyString
  | String c rest =>
      if is_space c then trimStart rest
      else
        match rest with
        | String d rest1 =>
            if is_space2 c d then trimStart rest1
            else
              match rest1 with
              | String e rest2 => if is_space3 c d e then trimStart rest2 else s
              | EmptyString => s
              end
        | EmptyString => s
        end
  end.

(** [s] is white space from its first byte to its last. *)
Fixpoint all_space (s : string) : bool :=
  match s with
  | EmptyString => true
  | String c rest =>
      if is_space c then all_space rest
      else
        match rest with
        | String d rest1 =>
            if is_space2 c d then all_space rest1
            else
              match rest1 with
              | String e rest2 => is_space3 c d e && all_space rest2
              | EmptyString => false
              end
        | EmptyString => false
        end
  end.

Fixpoint trimEnd (s : string) : string :=
  match s with
  | EmptyString => EmptyString
  | String c rest => if all_space s then EmptyString else String c (trimEnd rest)
  end.

(** [s.trim()]. *)
Definition trim (s : string) : string := trimEnd (trimStart s).

(** [searchInText(source, search)]: [source.toLowerCase()] throws on an
    undefined source. *)
Definition searchInText (source : option string) (search : string) : result bool :=
  match source with
  | None =>
      Throw (TypeError "Cannot read properties of undefined (reading 'toLowerCase')")
  | Some text => Ok (includes (toLowerCase text) search)
  end.

(** [payload?.cursor || 0] *)
Definition cursor_or_0 (payload : option Payload) : Cursor :=
  match payload ≫= cursor with
  | Some (CNum n) => if (n =? 0)%Z then CNum 0 else CNum n
  | Some (CStr s) => if String.eqb s "" then CNum 0 else CStr s
  | None => CNum 0
  end.

(** [cursor + 1]: addition on a number, concatenation on a string. *)
Definition plus_1 (c : Cursor) : Cursor :=
  match c with
  | CNum n => CNum (n + 1)
  | CStr s => CStr (s +:+ "1")
  end.

Definition chatsSet_has (chatsSet : list (Z * DictionaryItem)) (id : Z) : bool :=
  existsb (λ entry, (entry.1 =? id)%Z) chatsSet.

(** The body of [updates.forEach]; its state is the variable [search],
    which the callback reassigns, and the map [chatsSet], in insertion
    order. *)
Definition visit (st : string * list (Z * DictionaryItem)) (update : Update)
    : result (string * list (Z * DictionaryItem)) :=
  let '(search, chatsSet) := st in
  match message_chat update with
  | None => Ok st
  | Some chat =>
      if chatsSet_has chatsSet (chat_id chat) then Ok st
      else
        let isPrivate := String.eqb (chat_type chat) "private" in
        let add search :=
          let label :=
            if isPrivate
            then template (first_name chat) +:+ " " +:+ template (last_name chat)
                 +:+ " (" +:+ chat_type chat +:+ ")"
            else template (title chat) +:+ " (" +:+ chat_type chat +:+ ")" in
          let note :=
            if isPrivate
            then "ID: " +:+ pretty (chat_id chat) +:+ ", @" +:+ template (username chat)
            else "ID: " +:+ pretty (chat_id chat) +:+
                 match member_count chat with
                 | Some n => if (n =? 0)%Z then "" else ", Members: " +:+ pretty n
                 | None => ""
                 end in
          Ok (search,
              chatsSet ++ [(chat_id chat,
                            {| value_ := pretty (chat_id chat);
                               label := label; note := note |})]) in
        if String.eqb search "" then add search
        else
          let search := trim (toLowerCase search) in
          (* chat.id === search: a number is never a string *)
          let matching : result bool :=
            if isPrivate then
              by_username ← searchInText (username chat) search;
              if by_username : bool then Ok true
              else searchInText
                     (Some (template (first_name chat) +:+ " "
                            +:+ template (last_name chat)))
                     search
            else searchInText (title chat) search in
          matched ← matching;
          if matched : bool then add search else Ok (search, chatsSet)
  end.

Fixpoint forEach {S A} (f : S → A → result S) (st : S) (l : list A) : result S :=
  match l with
  | [] => Ok st
  | x :: rest => st' ← f st x; forEach f st' rest
  end.

Definition getChatsDictionary (net : Remote) (payload : option Payload)
    : result DictionaryResponse :=
  let search := trim (toLowerCase (default "" (payload ≫= search))) in
  let cursor := cursor_or_0 payload in
  updates ← apiRequest (getUpdates net cursor);
  '(_, chatsSet) ← forEach visit (search, []) updates;
  mret {| next_cursor := Some (plus_1 cursor); items := snd <$> chatsSet |}.

End Telegram.

(* ===================================================================== *)
(** ** The caller of a paginated dictionary                               *)
(* ===================================================================== *)

Module Host.

(** The loop of a caller that wants every page (spec 4.3): call, feed the
    returned cursor to the next call, stop at a missing cursor. [None]
    when [fuel] calls did not reach a missing cursor. *)
Fixpoint paginate {C I} (fuel : nat) (call : option C → result (option C * list I))
    (cursor : option C) : option (result (list I)) :=
  match fuel with
  | O => None
  | S fuel' =>
      match call cursor with
      | Throw e => Some (Throw e)
      | Ok (None, page) => Some (Ok page)
      | Ok (Some next, page) =>
          match paginate fuel' call (Some next) with
          | Some (Ok more) => Some (Ok (page ++ more))
          | other => other
          end
      end
  end.

(** One call of the caller's loop, for each paginated dictionary. *)
Definition bases_call (this : Airtable.Service) (net : Airtable.Remote)
    (search : option string) (cursor : option string)
    : result (option string * list Airtable.DictionaryItem) :=
  r ← Airtable.getBasesDictionary this net
         {| Airtable.search := search; Airtable.payload_cursor := cursor |};
  mret (Airtable.cursor r, Airtable.items r).

Definition chats_call (net : Telegram.Remote) (search : option string)
    (cursor : option Telegram.Cursor)
    : result (option Telegram.Cursor * list Telegram.DictionaryItem) :=
  r ← Telegram.getChatsDictionary net
         (Some {| Telegram.search := search; Telegram.cursor := cursor |});
  mret (Telegram.next_cursor r, Telegram.items r).

End Host.

(* ===================================================================== *)
(** ** A paging server over a finite collection                           *)
(* ===================================================================== *)

Module Paged.

Import Airtable.

(** The continuation token for a position in the collection. Tokens are
    opaque to the service; the server only has to read back its own. *)
Fixpoint token (position : nat) : string :=
  match position with
  | O => ""
  | S n => String "o" (token n)
  end.

Definition position (offset : option string) : nat :=
  match offset with
  | None => 0
  | Some tok => String.length tok
  end.

(** The bases endpoint as the Airtable API documents it: pages of at most
    [pageSize] entries, and an [offset] in the body exactly when entries
    remain after the page. *)
Definition meta_bases (collection : list Base) (pageSize : nat)
    (offset : option string) : response BasesBody :=
  let start := position offset in
  Resolved {| bases := take pageSize (drop start collection);
              bases_offset :=
                if decide (start + pageSize < length collection)
                then Some (token (start + pageSize)) else None |}.

Definition unavailable : failure := Failure "not served" None None.

Definition remote (collection : list Base) (pageSize : nat) : Remote :=
  {| Airtable.meta_bases := λ _ offset, meta_bases collection pageSize offset;
     meta_tables := λ _ _, Rejected unavailable;
     list_records := λ _ _ _ _, Rejected unavailable;
     list_comments := λ _ _ _ _ _ _, Rejected unavailable;
     oauth_token := λ _ _, Rejected unavailable;
     meta_whoami := λ _, Rejected unavailable |}.

End Paged.

(* ===================================================================== *)
(** ** Vocabulary of the properties                                       *)
(* ===================================================================== *)

Module Detect.

Import Airtable.

(** [e[watchField]] *)
Definition watch (watchField : string) (e : AirtableRecord) : value :=
  get (rec_fields e) watchField.

Definition ids (snapshot : list AirtableRecord) : list string := rec_id <$> snapshot.

(** [s] is the entry of the snapshot that stands for the id [i]: the last
    one carrying it (ids are unique in a collection, so the only one). *)
Definition stored_for (snapshot : list AirtableRecord) (i : string) (s : AirtableRecord)
    : Prop :=
  ∃ before after,
    snapshot = before ++ s :: after ∧ rec_id s = i ∧ ∀ s', s' ∈ after → rec_id s' ≠ i.

(** New, or its watch field is not [===] to the stored one. *)
Definition changed (snapshot : list AirtableRecord) (watchField : string)
    (e : AirtableRecord) : Prop :=
  rec_id e ∉ ids snapshot
  ∨ ∃ s, stored_for snapshot (rec_id e) s
         ∧ strict_equal (watch watchField e) (watch watchField s) = false.

(** [text] contains [search], letter case aside. *)
Definition contains_ci (text search : string) : Prop :=
  ∃ before after,
    Utils.toLowerCase text = before +:+ Utils.toLowerCase search +:+ after.

(** One of the named fields of the item contains the search string. *)
Definition matches {A} `{Utils.Props A} (fields : list string) (search : string)
    (item : A) : Prop :=
  ∃ name text, name ∈ fields ∧ Utils.prop name item = Some text ∧ contains_ci text search.

(** The fetch of [onNewOrUpdatedRecord] for an invocation. *)
Definition fetch (this : Service) (net : Remote) (invocation : Invocation)
    : result (list AirtableRecord) :=
  let data := triggerData invocation in
  getLatestRecords this net (baseId data) (tableIdOrName data) (lastModifiedColumn data).

(** The two calls of [onNewRecord] for an invocation. *)
Definition fetch_created (this : Service) (net : Remote) (invocation : Invocation)
    : result (list AirtableRecord) :=
  let data := triggerData invocation in
  createdColumn ← getCreatedColumnName this net (baseId data) (tableIdOrName data);
  getLatestRecords this net (baseId data) (tableIdOrName data) createdColumn.

End Detect.

(* ===================================================================== *)
(** ** Concrete inputs                                                    *)
(* ===================================================================== *)

Module Samples.

Import Airtable.

Definition service : Service := constructor "client-1" "secret-1" (VStr "tok-1").

Definition down : failure := Failure "connect ECONNREFUSED" None None.

Definition r1 (modified : string) : AirtableRecord :=
  {| rec_id := "r1"; rec_createdTime := "t0";
     rec_fields := {[ "modified" := VStr modified ]} |}.

Definition r2 : AirtableRecord :=
  {| rec_id := "r2"; rec_createdTime := "t3";
     rec_fields := {[ "modified" := VStr "t3" ]} |}.

Definition current : list AirtableRecord := [r1 "t2"; r2].

Definition tasks : Table :=
  {| tbl_id := "tbl1"; tbl_name := "Tasks";
     tbl_fields :=
       [ {| fld_id := "fld1"; fld_name := "Created"; fld_type := "createdTime" |};
         {| fld_id := "fld2"; fld_name := "modified"; fld_type := "lastModifiedTime" |} ] |}.

Definition tokens : gmap string value :=
  list_to_map [ ("access_token", VStr "at"); ("expires_in", VNum 3600) ].

Definition rotated : gmap string value :=
  list_to_map [ ("access_token", VStr "at2"); ("expires_in", VNum 3600);
                ("refresh_token", VStr "rt2") ].

Definition userInfo : gmap string value := {[ "email" := VStr "me@example.com" ]}.

(** A remote with two bases, the given tables and records, and the given
    replies of the token endpoint and of the identity lookup. *)
Definition remote_with (tables : list Table) (current : list AirtableRecord)
    (token_reply whoami_reply : response value) : Remote :=
  {| meta_bases := λ _ _,
       Resolved {| bases := [ {| base_id := "a"; base_name := "Apples" |};
                              {| base_id := "b"; base_name := "Bananas" |} ];
                   bases_offset := None |};
     meta_tables := λ _ _, Resolved tables;
     list_records := λ _ _ _ _,
       Resolved (Some {| body_records := Some current; records_offset := None |});
     list_comments := λ _ _ _ _ _ _,
       Resolved {| comments := []; comments_offset := None |};
     oauth_token := λ _ _, token_reply;
     meta_whoami := λ _, whoami_reply |}.

Definition remote (current : list AirtableRecord) : Remote :=
  remote_with [tasks] current (Resolved (VObj tokens)) (Resolved (VObj userInfo)).

Definition callback : CallbackObject :=
  {| code := "c0de"; redirectURI := "https://host/cb"; state := "verifier-1" |}.

(** A bot that has received no update. *)
Definition quiet_bot : Telegram.Remote :=
  {| Telegram.getUpdates := λ _, Telegram.Resolved [] |}.

Definition invocation (table : string) (st : option TriggerState) (learning : bool)
    : Invocation :=
  {| triggerData := {| baseId := "a"; tableIdOrName := table;
                       lastModifiedColumn := "modified" |};
     inv_state := st;
     learningMode := learning |}.

End Samples.

(* ===================================================================== *)
(** ** The Airtable service: actions on records and tables                *)
(* ===================================================================== *)

Module Actions.

Import Utils Airtable.

(** The query of a records listing; a key that is not set is [None]. *)
Record RecordsQuery := {
  pageSize : option Z;
  maxRecords : option Z;
  filterByFormula : option string;
}.

(** The endpoints of the actions. *)
Record Api := {
  (** GET /:baseId/:tableIdOrName with a query; an empty body is [None] *)
  get_records :
    Authorization → string → string → RecordsQuery → response (option RecordsBody);
  (** POST /:baseId/:tableIdOrName, body [{ fields }] *)
  post_record :
    Authorization → string → string → gmap string value → response AirtableRecord;
  (** PATCH /:baseId/:tableIdOrName/:recordId, body [{ fields }] *)
  patch_record :
    Authorization → string → string → string → gmap string value →
    response AirtableRecord;
  (** DELETE on a URL, query string included *)
  delete_url : Authorization → string → response value;
  (** PATCH /meta/bases/:baseId/tables/:tableIdOrName *)
  patch_table : Authorization → string → string → gmap string value → response value;
}.

(** Truthiness of an optional string argument. *)
Definition given (s : option string) : bool :=
  match s with
  | Some text => negb (String.eqb text "")
  | None => false
  end.

Definition findRecords_query (searchByField searchValue : option string)
    (exactMatch : bool) (searchFormula : option string) (maxRecords : option Z)
    : RecordsQuery :=
  {| pageSize := None;
     maxRecords :=
       match maxRecords with
       | Some n => if (n =? 0)%Z then None else Some n
       | None => None
       end;
     filterByFormula :=
       if given searchFormula then searchFormula
       else
         match searchByField, searchValue with
         | Some field, Some text =>
             if String.eqb field "" then None
             else if exactMatch then Some (field +:+ " = " +:+ text)
             else Some ("SEARCH('" +:+ text +:+ "', {" +:+ field +:+ "} & "
                        +:+ quoted "" +:+ ") > 0")
         | _, _ => None
         end |}.

(** [findRecords]; the result is [result?.records], [None] when missing. *)
Definition findRecords (this : Service) (api : Api) (baseId tableIdOrName : string)
    (searchByField searchValue : option string) (exactMatch : bool)
    (searchFormula : option string) (maxRecords : option Z)
    : result (option (list AirtableRecord)) :=
  let query := findRecords_query searchByField searchValue exactMatch searchFormula
                 maxRecords in
  result ← apiRequest (get_records api (getAccessTokenHeader this VUndefined)
                         baseId tableIdOrName query);
  mret (result ≫= body_records).

(** [findRecord]: [records && records[0]]. *)
Definition findRecord (this : Service) (api : Api) (baseId tableIdOrName : string)
    (searchByField searchValue : option string) (exactMatch : bool)
    (searchFormula : option string) : result (option AirtableRecord) :=
  records ← findRecords this api baseId tableIdOrName searchByField searchValue
              exactMatch searchFormula (Some 1%Z);
  mret (records ≫= (λ l, l !! 0%nat)).

Definition createRecord (this : Service) (api : Api) (baseId tableIdOrName : string)
    (fields : gmap string value) : result AirtableRecord :=
  apiRequest (post_record api (getAccessTokenHeader this VUndefined)
                baseId tableIdOrName fields).

Definition updateRecord (this : Service) (api : Api)
    (baseId tableIdOrName recordId : string) (fields : gmap string value)
    : result AirtableRecord :=
  apiRequest (patch_record api (getAccessTokenHeader this VUndefined)
                baseId tableIdOrName recordId fields).

(** [{ ...result, isNew }] *)
Record Upserted := {
  upserted : AirtableRecord;
  isNew : bool;
}.

(** The property names every plain object inherits from
    [Object.prototype]. *)
Definition Object_prototype : list string :=
  [ "constructor"; "__defineGetter__"; "__defineSetter__"; "hasOwnProperty";
    "__lookupGetter__"; "__lookupSetter__"; "isPrototypeOf";
    "propertyIsEnumerable"; "toString"; "valueOf"; "__proto__"; "toLocaleString" ].

(** [key in obj] on a plain object: an own or an inherited property. *)
Definition has_property (o : gmap string value) (key : string) : bool :=
  bool_decide (is_Some (o !! key)) || bool_decide (key ∈ Object_prototype).

(** What [obj[key]] finds on a plain object: an own property, else a
    member of [Object.prototype], else nothing. *)
Inductive Property : Type :=
  | Own (v : value)
  | Inherited (name : string)
  | Missing.

Definition read (o : gmap string value) (key : string) : Property :=
  match o !! key with
  | Some v => Own v
  | None => if bool_decide (key ∈ Object_prototype) then Inherited key else Missing
  end.

(** [p === undefined] *)
Definition is_undefined (p : Property) : bool :=
  match p with
  | Own VUndefined | Missing => true
  | _ => false
  end.

(** [`${ JSON.stringify(p) }`]. [JSON_stringify] is the platform's
    [JSON.stringify] on a defined value; on [undefined] and on a function
    it returns [undefined], which a template prints as such. The inherited
    members are functions, but for [__proto__], which is the prototype
    itself: an object with no enumerable property. *)
Definition stringified (JSON_stringify : value → string) (p : Property) : string :=
  match p with
  | Own VUndefined | Missing => "undefined"
  | Own v => JSON_stringify v
  | Inherited name => if String.eqb name "__proto__" then "{}" else "undefined"
  end.

(** [createOrUpdateRecord]. The [null] arguments of the inner
    [findRecords] call are passed as not given: with a formula they are
    not looked at. *)
Definition createOrUpdateRecord (this : Service) (api : Api)
    (JSON_stringify : value → string) (baseId tableIdOrName : string)
    (lookupField : string) (secondaryLookupField : option string)
    (fields : gmap string value) : result Upserted :=
  let lookupValue1 := read fields lookupField in
  let lookupValue2 := read fields (template secondaryLookupField) in
  if String.eqb lookupField "" then Throw (Error "Lookup field is required")
  else if is_undefined lookupValue1 then
    Throw (Error ("Fields object must contain value by the lookupField="
                  +:+ quoted lookupField))
  else
    let searchValue1 := stringified JSON_stringify lookupValue1 in
    let searchFormula :=
      if given secondaryLookupField
      then "AND({" +:+ lookupField +:+ "} = " +:+ searchValue1 +:+ ", {"
           +:+ template secondaryLookupField +:+ "} = "
           +:+ stringified JSON_stringify lookupValue2 +:+ ")"
      else lookupField +:+ " = " +:+ searchValue1 in
    records ← findRecords this api baseId tableIdOrName None None false
                (Some searchFormula) (Some 2%Z);
    match records with
    | None =>
        Throw (TypeError "Cannot read properties of undefined (reading 'length')")
    | Some [found] =>
        result ← updateRecord this api baseId tableIdOrName (rec_id found) fields;
        mret {| upserted := result; isNew := false |}
    | Some _ =>
        result ← createRecord this api baseId tableIdOrName fields;
        mret {| upserted := result; isNew := true |}
    end.

(** The [recordIds] argument: an array of ids, or anything else. *)
Inductive RecordIds : Type :=
  | IdArray (ids : list string)
  | NotArray (v : value).

Definition deleteRecords_queryString (recordIds : list string) : string :=
  Form.join "&" ((λ id, "records[]=" +:+ id) <$> recordIds).

Definition deleteRecords (this : Service) (api : Api) (baseId tableIdOrName : string)
    (recordIds : RecordIds) : result value :=
  let recordIds :=
    match recordIds with
    | IdArray ids => ids
    | NotArray _ => []
    end in
  if (length recordIds =? 0)%nat
  then Throw (Error "No record IDs provided for deletion.")
  else
    let queryString := deleteRecords_queryString recordIds in
    result ← apiRequest (delete_url api (getAccessTokenHeader this VUndefined)
                           (API_BASE_URL +:+ "/" +:+ baseId +:+ "/" +:+ tableIdOrName
                            +:+ "?" +:+ queryString));
    get_prop result "records".

Definition deleteComment (this : Service) (api : Api)
    (baseId tableIdOrName recordId : string) (commentId : option string)
    : result value :=
  if given commentId then
    apiRequest (delete_url api (getAccessTokenHeader this VUndefined)
                  (API_BASE_URL +:+ "/" +:+ baseId +:+ "/" +:+ tableIdOrName +:+ "/"
                   +:+ recordId +:+ "/comments/" +:+ template commentId))
  else Throw (Error "No comment ID provided for deletion.").

Definition updateTable_body (newName newDescription : option string)
    : gmap string value :=
  let body := ∅ in
  let body := if given newName then <["name" := VStr (template newName)]> body else body in
  if given newDescription
  then <["description" := VStr (template newDescription)]> body else body.

(** [updateTable]; [delete result.fields] throws on [undefined] and
    [null] and does nothing on a value without that property. *)
Definition updateTable (this : Service) (api : Api) (baseId tableIdOrName : string)
    (newName newDescription : option string) : result value :=
  let body := updateTable_body newName newDescription in
  result ← apiRequest (patch_table api (getAccessTokenHeader this VUndefined)
                         baseId tableIdOrName body);
  match result with
  | VUndefined | VNull => Throw (TypeError "Cannot convert undefined or null to object")
  | VObj o => mret (VObj (delete "fields" o))
  | other => mret other
  end.

(** The body of [tableFields.forEach] in the sample loader. *)
Definition fill_field (fields : gmap string value) (field : Field) : gmap string value :=
  if has_property fields (fld_name field) then fields
  else <[fld_name field := VNull]> fields.

(** [onNewOrUpdatedRecord_SampleResultLoader]; a result of [None] is the
    empty object [{}] returned when the table has no record. *)
Definition onNewOrUpdatedRecord_SampleResultLoader (this : Service)
    (net : Airtable.Remote) (api : Api) (baseId tableIdOrName : string)
    : result (option AirtableRecord) :=
  result ← apiRequest (get_records api (getAccessTokenHeader this VUndefined)
                         baseId tableIdOrName
                         {| pageSize := Some 1%Z; maxRecords := None;
                            filterByFormula := None |});
  let record := default [] (result ≫= body_records) !! 0%nat in
  match record with
  | None => mret None
  | Some record =>
      table ← getTableSchema this net baseId tableIdOrName;
      let tableFields := default [] (tbl_fields <$> table) in
      mret (Some {| rec_id := rec_id record;
                    rec_createdTime := rec_createdTime record;
                    rec_fields := foldl fill_field (rec_fields record) tableFields |})
  end.

End Actions.

(* ===================================================================== *)
(** ** The Telegram service: requests, actions and the message trigger    *)
(* ===================================================================== *)

Module Bot.

Definition API_BASE_URL : string := "https://api.telegram.org".

Definition is_nullish (v : value) : bool :=
  match v with
  | VUndefined | VNull => true
  | _ => false
  end.

(** [cleanupObject(data)]: [undefined] for a missing object, else the
    object without the keys that hold [undefined] or [null]. *)
Definition cleanupObject (data : option (gmap string value))
    : option (gmap string value) :=
  match data with
  | None => None
  | Some data => Some (filter (λ entry, is_nullish entry.2 = false) data)
  end.

(** What [Backendless.Request[method](url).query(query).send(body)]
    sends. *)
Record Request := {
  req_method : string;
  req_url : string;
  req_query : option (gmap string value);
  req_body : option (gmap string value);
}.

Record Api := { send : Request → Telegram.response value }.

(** [#apiRequest({ url, method, body, query })] with its two
    normalizations: the method defaults to [get], the query is cleaned. *)
Definition request (url : string) (method : option string)
    (body query : option (gmap string value)) : Request :=
  {| req_method := if Actions.given method then Js.template method else "get";
     req_url := url;
     req_query := cleanupObject query;
     req_body := body |}.

Definition apiRequest (api : Api) (url : string) (method : option string)
    (body query : option (gmap string value)) : result value :=
  Telegram.apiRequest (send api (request url method body query)).

Definition endpoint (botToken name : string) : string :=
  API_BASE_URL +:+ "/bot" +:+ botToken +:+ "/" +:+ name.

(** [if (x) data.key = x] *)
Definition set_if_truthy (key : string) (x : value) (data : gmap string value)
    : gmap string value :=
  if truthy x then <[key := x]> data else data.

(** [if (x !== undefined) data.key = x] *)
Definition set_if_defined (key : string) (x : value) (data : gmap string value)
    : gmap string value :=
  match x with
  | VUndefined => data
  | _ => <[key := x]> data
  end.

Definition sendMessage_data
    (chatId text parseMode disableWebPagePreview disableNotification
       replyToMessageId : value) : gmap string value :=
  set_if_truthy "reply_to_message_id" replyToMessageId
    (set_if_truthy "disable_notification" disableNotification
       (set_if_truthy "disable_web_page_preview" disableWebPagePreview
          (set_if_truthy "parse_mode" parseMode
             (<["text" := text]> (<["chat_id" := chatId]> ∅))))).

Definition sendMessage (botToken : string) (api : Api)
    (chatId text parseMode disableWebPagePreview disableNotification
       replyToMessageId : value) : result value :=
  apiRequest api (endpoint botToken "sendMessage") (Some "post")
    (Some (sendMessage_data chatId text parseMode disableWebPagePreview
             disableNotification replyToMessageId))
    None.

Definition editMessageText_data
    (chatId messageId text parseMode disableWebPagePreview : value)
    : gmap string value :=
  set_if_defined "disable_web_page_preview" disableWebPagePreview
    (set_if_truthy "parse_mode" parseMode
       (<["text" := text]> (<["message_id" := messageId]> (<["chat_id" := chatId]> ∅)))).

Definition editMessageText (botToken : string) (api : Api)
    (chatId messageId text parseMode disableWebPagePreview : value) : result value :=
  apiRequest api (endpoint botToken "editMessageText") (Some "post")
    (Some (editMessageText_data chatId messageId text parseMode disableWebPagePreview))
    None.

(** [getUpdates(offset, limit = 100, timeout = 0)]: a default applies to
    an argument that is [undefined]. *)
Definition getUpdates_params (offset limit timeout : value) : gmap string value :=
  let limit := match limit with VUndefined => VNum 100 | _ => limit end in
  let timeout := match timeout with VUndefined => VNum 0 | _ => timeout end in
  set_if_defined "timeout" timeout
    (set_if_defined "limit" limit (set_if_defined "offset" offset ∅)).

Definition getUpdates (botToken : string) (api : Api) (offset limit timeout : value)
    : result value :=
  apiRequest api (endpoint botToken "getUpdates") None None
    (Some (getUpdates_params offset limit timeout)).

Definition getChat (botToken : string) (api : Api) (chatId : value) : result value :=
  apiRequest api (endpoint botToken "getChat") None None
    (Some (<["chat_id" := chatId]> ∅)).

(** *** The message trigger *)

Definition SHAPE_EVENT : string := "SHAPE_EVENT".
Definition FILTER_TRIGGER : string := "FILTER_TRIGGER".

(** A registered trigger: its id and the [chatId] of its data. *)
Record Trigger := {
  trigger_id : string;
  data_chatId : option string;
}.

(** The invocation [handleTriggerSelectMatched] passes on: the triggers
    and [eventData.message.chat.id], which comes as a number. *)
Record Matching := {
  triggers : list Trigger;
  eventData_message_chat_id : Z;
}.

Inductive Payload : Type :=
  | WebhookBody (body : gmap string value)
  | Invocation (matching : Matching).

Record ShapedEvent := {
  name : string;
  data : Payload;
}.

(** What [onMessage] returns: the shaped events, the ids to activate, or
    [undefined] for another call type. *)
Inductive Outcome : Type :=
  | Events (events : list ShapedEvent)
  | Ids (ids : list string)
  | Undefined.

Definition activates (chat_id : Z) (trigger : Trigger) : bool :=
  if Actions.given (data_chatId trigger)
  then String.eqb (Js.template (data_chatId trigger)) (pretty chat_id)
  else true.

Definition onMessage (callType : string) (payload : Payload) : result Outcome :=
  if String.eqb callType SHAPE_EVENT then
    mret (Events [ {| name := "onMessage"; data := payload |} ])
  else if String.eqb callType FILTER_TRIGGER then
    match payload with
    | Invocation matching =>
        let triggersToActivate :=
          trigger_id <$> List.filter (activates (eventData_message_chat_id matching))
                           (triggers matching) in
        mret (Ids triggersToActivate)
    | WebhookBody _ =>
        Throw (TypeError "Cannot read properties of undefined (reading 'filter')")
    end
  else mret Undefined.

End Bot.

(* ===================================================================== *)
(** ** More vocabulary and concrete inputs                                *)
(* ===================================================================== *)

Module More.

Import Airtable.

(** Every byte is one the urlencoded format leaves as it is. *)
Fixpoint plain (s : string) : bool :=
  match s with
  | EmptyString => true
  | String c rest => Form.unreserved c && plain rest
  end.

(** The chats of a list of updates, in order. *)
Definition chats (updates : list Telegram.Update) : list Telegram.Chat :=
  omap Telegram.message_chat updates.

(** What a visit keeps true of the map of chats: its keys are distinct,
    and each entry was made from a chat seen so far. *)
Definition chats_listed (seen : list Telegram.Chat)
    (chatsSet : list (Z * Telegram.DictionaryItem)) : Prop :=
  NoDup chatsSet.*1
  ∧ ∀ id item, (id, item) ∈ chatsSet →
      Telegram.value_ item = pretty id
      ∧ ∃ chat, chat ∈ seen ∧ Telegram.chat_id chat = id.

(** No search is made: the search string is missing, or blank. *)
Definition blank (search : option string) : Prop :=
  Telegram.trim (Utils.toLowerCase (default "" search)) = "".



(** U+00A0 and U+3000, as UTF-8. *)
Definition nbsp : string :=
  String (Ascii.ascii_of_N 194) (String (Ascii.ascii_of_N 160) EmptyString).

Definition ideographic_space : string :=
  String (Ascii.ascii_of_N 227)
    (String (Ascii.ascii_of_N 128) (String (Ascii.ascii_of_N 128) EmptyString)).

Definition tags : value := VArr [VStr "x"].

Definition tagged : AirtableRecord :=
  {| rec_id := "r3"; rec_createdTime := "t0"; rec_fields := {[ "modified" := tags ]} |}.

Definition throttled : failure :=
  Failure "Too Many Requests" (Some 429%Z)
    (Some (ErrObject (Some "Rate limit exceeded") (Some "RATE_LIMIT"))).

(** A remote whose records request is rejected. *)
Definition failing (f : failure) : Remote :=
  {| meta_bases := λ _ _, Rejected f;
     meta_tables := λ _ _, Resolved [Samples.tasks];
     list_records := λ _ _ _ _, Rejected f;
     list_comments := λ _ _ _ _ _ _, Rejected f;
     oauth_token := λ _ _, Rejected f;
     meta_whoami := λ _, Rejected f |}.

Definition notes : Table :=
  {| tbl_id := "tbl2"; tbl_name := "Notes";
     tbl_fields := [ {| fld_id := "fld9"; fld_name := "Text"; fld_type := "multilineText" |} ] |}.

Definition alice : Telegram.Chat :=
  {| Telegram.chat_id := 7; Telegram.chat_type := "private";
     Telegram.title := None; Telegram.username := None;
     Telegram.first_name := Some "Alice"; Telegram.last_name := None;
     Telegram.member_count := None |}.

Definition team : Telegram.Chat :=
  {| Telegram.chat_id := (-100)%Z; Telegram.chat_type := "group";
     Telegram.title := Some "Team"; Telegram.username := None;
     Telegram.first_name := None; Telegram.last_name := None;
     Telegram.member_count := None |}.

Definition bot (updates : list Telegram.Update) : Telegram.Remote :=
  {| Telegram.getUpdates := λ _, Telegram.Resolved updates |}.

Definition from (chat : Telegram.Chat) : Telegram.Update :=
  {| Telegram.message_chat := Some chat |}.

(** A records API over one stored list: a listing returns it, a create or
    an update echoes the fields. *)
Definition api (stored : list AirtableRecord) (patched : value) : Actions.Api :=
  {| Actions.get_records := λ _ _ _ _,
       Resolved (Some {| body_records := Some stored; records_offset := None |});
     Actions.post_record := λ _ _ _ fields,
       Resolved {| rec_id := "recNew"; rec_createdTime := "t9"; rec_fields := fields |};
     Actions.patch_record := λ _ _ _ recordId fields,
       Resolved {| rec_id := recordId; rec_createdTime := "t0"; rec_fields := fields |};
     Actions.delete_url := λ _ _, Resolved (VObj {[ "records" := VArr [] ]});
     Actions.patch_table := λ _ _ _ _, Resolved patched |}.

End More.

(* ===================================================================== *)
(** ** Properties                                                         *)
(* ===================================================================== *)

Import Airtable Detect.

(** Unfolding of the sequencing of calls. *)
Lemma bind_Ok {A B} (r : result A) (k : A → result B) (a : A) :
  r = Ok a → (r ≫= k) = k a.
Proof. intros ->. reflexivity. Qed.

Lemma bind_Throw {A B} (r : result A) (k : A → result B) (e : error) :
  r = Throw e → (r ≫= k) = Throw e.
Proof. intros ->. reflexivity. Qed.

Lemma onNewOrUpdatedRecord_fetched this net invocation fetched :
  fetch this net invocation = Ok fetched →
  onNewOrUpdatedRecord this net invocation =
    if learningMode invocation then
      Ok {| events := [fetched !! 0%nat]; new_state := None |}
    else
      match inv_state invocation with
      | None => Ok {| events := []; new_state := Some {| records := fetched |} |}
      | Some state =>
          let col := lastModifiedColumn (triggerData invocation) in
          let prevRecords :=
            Map_of ((λ r, (rec_id r, watch col r)) <$> records state) in
          Ok {| events :=
                  Some <$> List.filter
                    (λ record,
                       negb (Map_has prevRecords (rec_id record))
                       || negb (strict_equal (watch col record)
                                  (Map_get prevRecords (rec_id record))))
                    fetched;
                new_state := Some {| records := fetched |} |}
      end.
Proof.
  unfold fetch, onNewOrUpdatedRecord. intros Hfetch.
  rewrite (bind_Ok _ _ _ Hfetch). reflexivity.
Qed.

Lemma onNewRecord_fetched this net invocation fetched :
  fetch_created this net invocation = Ok fetched →
  onNewRecord this net invocation =
    if learningMode invocation then
      Ok {| events := [fetched !! 0%nat]; new_state := None |}
    else
      match inv_state invocation with
      | None => Ok {| events := []; new_state := Some {| records := fetched |} |}
      | Some state =>
          let prevRecords := Set_of (rec_id <$> records state) in
          Ok {| events :=
                  Some <$> List.filter
                    (λ record, negb (Set_has prevRecords (rec_id record))) fetched;
                new_state := Some {| records := fetched |} |}
      end.
Proof.
  unfold fetch_created, onNewRecord. intros Hfetch.
  destruct (getCreatedColumnName _ _ _ _) as [createdColumn|e]; [|discriminate].
  cbn in Hfetch |- *. rewrite Hfetch. reflexivity.
Qed.

(** C2. Bootstrap: with no state and learning mode off, both polling
    triggers return no events and a state holding exactly the fetched
    records, whatever was fetched. *)
Theorem bootstrap_invariant this net invocation fetched :
  learningMode invocation = false →
  inv_state invocation = None →
  (fetch this net invocation = Ok fetched →
   onNewOrUpdatedRecord this net invocation
   = Ok {| events := []; new_state := Some {| records := fetched |} |})
  ∧ (fetch_created this net invocation = Ok fetched →
     onNewRecord this net invocation
     = Ok {| events := []; new_state := Some {| records := fetched |} |}).
Proof.
  intros Hlearn Hstate. split; intros Hfetch.
  - rewrite (onNewOrUpdatedRecord_fetched _ _ _ _ Hfetch), Hlearn, Hstate. reflexivity.
  - rewrite (onNewRecord_fetched _ _ _ _ Hfetch), Hlearn, Hstate. reflexivity.
Qed.

Lemma bootstrap_invariant_witness :
  onNewOrUpdatedRecord Samples.service (Samples.remote Samples.current)
    (Samples.invocation "tbl1" None false)
  = Ok {| events := []; new_state := Some {| records := Samples.current |} |}
  ∧ onNewRecord Samples.service (Samples.remote Samples.current)
      (Samples.invocation "tbl1" None false)
    = Ok {| events := []; new_state := Some {| records := Samples.current |} |}.
Proof.
  destruct (bootstrap_invariant Samples.service (Samples.remote Samples.current)
              (Samples.invocation "tbl1" None false) Samples.current
              eq_refl eq_refl) as [Hupd Hnew].
  split; [apply Hupd | apply Hnew]; reflexivity.
Defined.

(** C3 as amended. Learning mode: both polling triggers return a state of
    null and a one-element [events] list, whose element is the first
    fetched record when there is one and [undefined] when the fetch is
    empty. *)
Theorem learning_mode_result this net invocation fetched :
  learningMode invocation = true →
  (fetch this net invocation = Ok fetched →
   onNewOrUpdatedRecord this net invocation
   = Ok {| events := [head fetched]; new_state := None |})
  ∧ (fetch_created this net invocation = Ok fetched →
     onNewRecord this net invocation
     = Ok {| events := [head fetched]; new_state := None |}).
Proof.
  intros Hlearn. rewrite head_lookup. split; intros Hfetch.
  - rewrite (onNewOrUpdatedRecord_fetched _ _ _ _ Hfetch), Hlearn. reflexivity.
  - rewrite (onNewRecord_fetched _ _ _ _ Hfetch), Hlearn. reflexivity.
Qed.

Lemma learning_mode_result_witness :
  onNewOrUpdatedRecord Samples.service (Samples.remote Samples.current)
    (Samples.invocation "tbl1" None true)
  = Ok {| events := [Some (Samples.r1 "t2")]; new_state := None |}
  ∧ onNewRecord Samples.service (Samples.remote Samples.current)
      (Samples.invocation "tbl1" None true)
    = Ok {| events := [Some (Samples.r1 "t2")]; new_state := None |}.
Proof.
  destruct (learning_mode_result Samples.service (Samples.remote Samples.current)
              (Samples.invocation "tbl1" None true) Samples.current eq_refl)
    as [Hupd Hnew].
  split; [apply Hupd | apply Hnew]; reflexivity.
Defined.

(** C3 as stated fails: on an empty fetch, learning mode returns the
    one-element list [[undefined]], not the empty list. *)
Lemma learning_mode_empty_fetch_counterexample :
  fetch Samples.service (Samples.remote []) (Samples.invocation "tbl1" None true) = Ok []
  ∧ ∃ r, onNewOrUpdatedRecord Samples.service (Samples.remote [])
           (Samples.invocation "tbl1" None true) = Ok r
         ∧ events r = [None]
         ∧ events r ≠ [].
Proof.
  split; [reflexivity|].
  eexists. split; [reflexivity|]. split; [reflexivity|]. discriminate.
Qed.

(** C4. Learning mode does not read the snapshot: two learning-mode
    invocations with the same trigger data, whatever their states, get the
    same result from [onNewOrUpdatedRecord], and a returned state is
    null. *)
Theorem learning_mode_purity this net inv1 inv2 :
  triggerData inv1 = triggerData inv2 →
  learningMode inv1 = true →
  learningMode inv2 = true →
  onNewOrUpdatedRecord this net inv1 = onNewOrUpdatedRecord this net inv2
  ∧ ∀ r, onNewOrUpdatedRecord this net inv1 = Ok r → new_state r = None.
Proof.
  intros Hdata Hl1 Hl2. unfold onNewOrUpdatedRecord.
  rewrite Hdata, Hl1, Hl2.
  destruct (getLatestRecords _ _ _ _ _) as [fetched|e]; cbn.
  - split; [reflexivity|]. intros r [= <-]. reflexivity.
  - split; [reflexivity|]. discriminate.
Qed.

Lemma learning_mode_purity_witness :
  onNewOrUpdatedRecord Samples.service (Samples.remote Samples.current)
    (Samples.invocation "tbl1" None true)
  = onNewOrUpdatedRecord Samples.service (Samples.remote Samples.current)
      (Samples.invocation "tbl1" (Some {| records := [Samples.r1 "t1"] |}) true)
  ∧ ∀ r, onNewOrUpdatedRecord Samples.service (Samples.remote Samples.current)
           (Samples.invocation "tbl1" None true) = Ok r →
         new_state r = None.
Proof.
  apply (learning_mode_purity Samples.service (Samples.remote Samples.current)
           (Samples.invocation "tbl1" None true)
           (Samples.invocation "tbl1" (Some {| records := [Samples.r1 "t1"] |}) true));
    reflexivity.
Defined.

(** *** The map of the previous snapshot *)

Lemma Map_of_snoc pairs p : Map_of (pairs ++ [p]) = <[p.1 := p.2]> (Map_of pairs).
Proof. unfold Map_of. rewrite foldl_app. reflexivity. Qed.

Lemma stored_for_snoc_eq snapshot x s :
  stored_for (snapshot ++ [x]) (rec_id x) s ↔ s = x.
Proof.
  split.
  - intros (before & after & Heq & _ & Hafter).
    destruct after as [|y after _] using rev_ind.
    + apply app_inj_tail in Heq as [_ ->]. reflexivity.
    + rewrite app_comm_cons, app_assoc in Heq.
      apply app_inj_tail in Heq as [_ ->].
      exfalso. apply (Hafter y); [|reflexivity].
      apply elem_of_app. right. apply list_elem_of_singleton. reflexivity.
  - intros ->. exists snapshot, []. split_and!; [reflexivity..|].
    intros s' Hs'. inversion Hs'.
Qed.

Lemma stored_for_snoc_ne snapshot x i s :
  rec_id x ≠ i →
  stored_for (snapshot ++ [x]) i s ↔ stored_for snapshot i s.
Proof.
  intros Hne. split.
  - intros (before & after & Heq & Hid & Hafter).
    destruct after as [|y after _] using rev_ind.
    + apply app_inj_tail in Heq as [_ ->]. congruence.
    + rewrite app_comm_cons, app_assoc in Heq.
      apply app_inj_tail in Heq as [-> ->].
      exists before, after. split_and!; [reflexivity|assumption|].
      intros s' Hs'. apply Hafter, elem_of_app. left. assumption.
  - intros (before & after & -> & Hid & Hafter).
    exists before, (after ++ [x]). split_and!.
    + rewrite <- app_assoc. reflexivity.
    + assumption.
    + intros s' [Hs'|Hs']%elem_of_app; [apply Hafter; assumption|].
      apply list_elem_of_singleton in Hs' as ->. assumption.
Qed.

Lemma Map_of_snapshot_lookup (snapshot : list AirtableRecord) col i :
  match Map_of ((λ r, (rec_id r, watch col r)) <$> snapshot) !! i with
  | None => i ∉ ids snapshot
  | Some v => i ∈ ids snapshot ∧ ∀ s, stored_for snapshot i s → v = watch col s
  end
  ∧ (i ∈ ids snapshot → ∃ s, stored_for snapshot i s).
Proof.
  induction snapshot as [|x snapshot IH] using rev_ind.
  - unfold Map_of, ids. cbn. rewrite lookup_empty.
    split; intros H; inversion H.
  - unfold ids in *. rewrite !fmap_app, !list_fmap_singleton, Map_of_snoc.
    cbn [fst snd].
    destruct (decide (rec_id x = i)) as [<-|Hne].
    + rewrite lookup_insert_eq. split_and!.
      * apply elem_of_app. right. apply list_elem_of_singleton. reflexivity.
      * intros s ->%stored_for_snoc_eq. reflexivity.
      * intros _. exists x. apply stored_for_snoc_eq. reflexivity.
    + rewrite lookup_insert_ne by assumption.
      destruct IH as [IHlook IHex].
      assert (Hmem : i ∈ rec_id <$> snapshot ↔ i ∈ (rec_id <$> snapshot) ++ [rec_id x]).
      { rewrite elem_of_app, list_elem_of_singleton. intuition congruence. }
      split.
      * destruct (Map_of _ !! i) as [v|].
        -- destruct IHlook as [Hin Hv]. split; [apply Hmem, Hin|].
           intros s Hs%stored_for_snoc_ne; [|assumption]. apply Hv, Hs.
        -- rewrite <- Hmem. assumption.
      * intros Hin%Hmem. destruct (IHex Hin) as [s Hs].
        exists s. apply stored_for_snoc_ne; assumption.
Qed.

Lemma strict_equal_scalar v w :
  is_scalar v = true → strict_equal v w = false ↔ v ≠ w.
Proof.
  intros Hv. destruct v, w; cbn in *; try discriminate;
    try (split; [intros _; discriminate | reflexivity]);
    try (split; [discriminate | intros H; exfalso; apply H; reflexivity]).
  - destruct b, b0; cbn; split; congruence.
  - rewrite Z.eqb_neq. split; congruence.
  - rewrite String.eqb_neq. split; congruence.
Qed.

(** The test of [onNewOrUpdatedRecord]'s filter says [changed]. *)
Lemma is_event_changed (snapshot : list AirtableRecord) col e :
  let prevRecords := Map_of ((λ r, (rec_id r, watch col r)) <$> snapshot) in
  negb (Map_has prevRecords (rec_id e))
  || negb (strict_equal (watch col e) (Map_get prevRecords (rec_id e))) = true
  ↔ changed snapshot col e.
Proof.
  intros prevRecords. unfold Map_has, Map_get, changed.
  destruct (Map_of_snapshot_lookup snapshot col (rec_id e)) as [Hlook Hex].
  fold prevRecords in Hlook.
  destruct (prevRecords !! rec_id e) as [v|] eqn:Hv; cbn.
  - destruct Hlook as [Hin Hstored].
    rewrite negb_true_iff. split.
    + intros Hne. right. destruct (Hex Hin) as [s Hs].
      exists s. split; [assumption|]. rewrite <- (Hstored s Hs). assumption.
    + intros [Hnot | (s & Hs & Hne)]; [contradiction|].
      rewrite (Hstored s Hs). assumption.
  - split; [intros _; left; assumption | reflexivity].
Qed.

(** C1. Incremental change detection: with a previous snapshot present
    (learning mode off), [onNewOrUpdatedRecord] returns as events the
    fetched list filtered, in order, by a test that holds exactly of the
    records whose id is absent from the snapshot or whose watch field is
    not [===] to the value stored for that id; the returned state is the
    fetched list itself. On a scalar watch value, not [===] is: differs. *)
Theorem incremental_change_detection this net invocation snapshot fetched :
  learningMode invocation = false →
  inv_state invocation = Some {| records := snapshot |} →
  fetch this net invocation = Ok fetched →
  let watchField := lastModifiedColumn (triggerData invocation) in
  ∃ is_event : AirtableRecord → bool,
    (∀ e, is_event e = true ↔ changed snapshot watchField e)
    ∧ onNewOrUpdatedRecord this net invocation
      = Ok {| events := Some <$> List.filter is_event fetched;
              new_state := Some {| records := fetched |} |}
    ∧ ∀ e, is_scalar (watch watchField e) = true →
           Some e ∈ Some <$> List.filter is_event fetched
           ↔ e ∈ fetched
             ∧ (rec_id e ∉ ids snapshot
                ∨ ∃ s, stored_for snapshot (rec_id e) s
                       ∧ watch watchField e ≠ watch watchField s).
Proof.
  intros Hlearn Hstate Hfetch watchField.
  set (prevRecords := Map_of ((λ r, (rec_id r, watch watchField r)) <$> snapshot)).
  exists (λ record,
            negb (Map_has prevRecords (rec_id record))
            || negb (strict_equal (watch watchField record)
                       (Map_get prevRecords (rec_id record)))).
  split_and!.
  - intros e. apply is_event_changed.
  - rewrite (onNewOrUpdatedRecord_fetched _ _ _ _ Hfetch), Hlearn, Hstate. reflexivity.
  - intros e Hscalar. rewrite list_elem_of_fmap.
    split.
    + intros (e' & [= <-] & Hin). apply list_elem_of_In, filter_In in Hin as [Hin Hev].
      split; [apply list_elem_of_In, Hin|].
      apply is_event_changed in Hev as [Hnew | (s & Hs & Hne)]; [left; assumption|].
      right. exists s. split; [assumption|]. apply strict_equal_scalar; assumption.
    + intros [Hin Hch]. exists e. split; [reflexivity|].
      apply list_elem_of_In, filter_In. split; [apply list_elem_of_In, Hin|].
      apply is_event_changed. destruct Hch as [Hnew | (s & Hs & Hne)]; [left; assumption|].
      right. exists s. split; [assumption|]. apply strict_equal_scalar; assumption.
Qed.

Lemma incremental_change_detection_witness :
  ∃ is_event : AirtableRecord → bool,
    (∀ e, is_event e = true ↔ changed [Samples.r1 "t1"] "modified" e)
    ∧ onNewOrUpdatedRecord Samples.service (Samples.remote Samples.current)
        (Samples.invocation "tbl1" (Some {| records := [Samples.r1 "t1"] |}) false)
      = Ok {| events := Some <$> List.filter is_event Samples.current;
              new_state := Some {| records := Samples.current |} |}
    ∧ ∀ e, is_scalar (watch "modified" e) = true →
           Some e ∈ Some <$> List.filter is_event Samples.current
           ↔ e ∈ Samples.current
             ∧ (rec_id e ∉ ids [Samples.r1 "t1"]
                ∨ ∃ s, stored_for [Samples.r1 "t1"] (rec_id e) s
                       ∧ watch "modified" e ≠ watch "modified" s).
Proof.
  exact (incremental_change_detection Samples.service (Samples.remote Samples.current)
           (Samples.invocation "tbl1" (Some {| records := [Samples.r1 "t1"] |}) false)
           [Samples.r1 "t1"] Samples.current eq_refl eq_refl eq_refl).
Defined.

(** The scenario of the spec: [r1] changed and [r2] new are both events,
    in the order of the fetch, and the new snapshot is the fetch. *)
Example incremental_scenario :
  onNewOrUpdatedRecord Samples.service (Samples.remote Samples.current)
    (Samples.invocation "tbl1" (Some {| records := [Samples.r1 "t1"] |}) false)
  = Ok {| events := [Some (Samples.r1 "t2"); Some Samples.r2];
          new_state := Some {| records := Samples.current |} |}.
Proof. reflexivity. Qed.

(** A second poll with nothing changed yields no events. *)
Example idempotent_scenario :
  onNewOrUpdatedRecord Samples.service (Samples.remote Samples.current)
    (Samples.invocation "tbl1" (Some {| records := Samples.current |}) false)
  = Ok {| events := []; new_state := Some {| records := Samples.current |} |}.
Proof. reflexivity. Qed.

(** The creation-only trigger tests membership of the id alone. *)
Lemma onNewRecord_incremental this net invocation snapshot fetched :
  learningMode invocation = false →
  inv_state invocation = Some {| records := snapshot |} →
  fetch_created this net invocation = Ok fetched →
  onNewRecord this net invocation
  = Ok {| events :=
            Some <$> List.filter (λ e, bool_decide (rec_id e ∉ ids snapshot)) fetched;
          new_state := Some {| records := fetched |} |}.
Proof.
  intros Hlearn Hstate Hfetch.
  rewrite (onNewRecord_fetched _ _ _ _ Hfetch), Hlearn, Hstate. cbn.
  do 3 f_equal. apply filter_ext. intros e. unfold Set_has, Set_of, ids.
  destruct (decide (rec_id e ∈ rec_id <$> snapshot)) as [Hin|Hout].
  - rewrite bool_decide_eq_true_2 by (apply elem_of_list_to_set, Hin).
    rewrite bool_decide_eq_false_2 by tauto. reflexivity.
  - rewrite bool_decide_eq_false_2 by (rewrite elem_of_list_to_set; exact Hout).
    rewrite bool_decide_eq_true_2 by exact Hout. reflexivity.
Qed.

(** *** Credentials *)

(** C5. [executeCallback] swallows a failure of either call: when the
    token POST is rejected, or when it resolves and the identity lookup is
    rejected, the method returns the empty object and does not throw; when
    both resolve with objects, it returns the credential fields. *)
Theorem executeCallback_swallows_failures this net callbackObject :
  (∀ f, oauth_token net (getSecretTokenHeader this)
          (Form.toString (executeCallback_params this callbackObject)) = Rejected f →
        executeCallback this net callbackObject = Ok ∅)
  ∧ (∀ tokens f,
       oauth_token net (getSecretTokenHeader this)
         (Form.toString (executeCallback_params this callbackObject)) = Resolved tokens →
       meta_whoami net (getAccessTokenHeader this
                          (match tokens with
                           | VObj o => get o "access_token"
                           | _ => VUndefined
                           end)) = Rejected f →
       executeCallback this net callbackObject = Ok ∅)
  ∧ (∀ tokens userInfo,
       oauth_token net (getSecretTokenHeader this)
         (Form.toString (executeCallback_params this callbackObject))
       = Resolved (VObj tokens) →
       meta_whoami net (getAccessTokenHeader this (get tokens "access_token"))
       = Resolved (VObj userInfo) →
       ∃ credential,
         executeCallback this net callbackObject = Ok credential
         ∧ credential !! "token" = Some (get tokens "access_token")
         ∧ credential !! "expirationInSeconds" = Some (get tokens "expires_in")
         ∧ credential !! "refreshToken" = Some (get tokens "refresh_token")
         ∧ credential !! "connectionIdentityName"
           = Some (or_else (get userInfo "email") (VStr "Unknown Airtable Account"))).
Proof.
  unfold executeCallback, executeCallback_request. split_and!.
  - intros f ->. reflexivity.
  - intros tokens f -> Hwho.
    destruct tokens; cbn; try reflexivity; rewrite Hwho; reflexivity.
  - intros tokens userInfo -> Hwho. cbn. rewrite Hwho. cbn.
    eexists. split; [reflexivity|]. split_and!; reflexivity.
Qed.

Lemma executeCallback_swallows_failures_witness :
  executeCallback Samples.service
    (Samples.remote_with [] [] (Rejected Samples.down) (Resolved (VObj Samples.userInfo)))
    Samples.callback = Ok ∅
  ∧ executeCallback Samples.service
      (Samples.remote_with [] [] (Resolved (VObj Samples.tokens)) (Rejected Samples.down))
      Samples.callback = Ok ∅
  ∧ ∃ credential,
      executeCallback Samples.service (Samples.remote []) Samples.callback = Ok credential
      ∧ credential !! "token" = Some (VStr "at")
      ∧ credential !! "expirationInSeconds" = Some (VNum 3600)
      ∧ credential !! "refreshToken" = Some VUndefined
      ∧ credential !! "connectionIdentityName" = Some (VStr "me@example.com").
Proof.
  split_and!.
  - apply (executeCallback_swallows_failures Samples.service
             (Samples.remote_with [] [] (Rejected Samples.down)
                (Resolved (VObj Samples.userInfo)))
             Samples.callback) with (f := Samples.down).
    reflexivity.
  - apply (executeCallback_swallows_failures Samples.service
             (Samples.remote_with [] [] (Resolved (VObj Samples.tokens))
                (Rejected Samples.down))
             Samples.callback) with (tokens := VObj Samples.tokens) (f := Samples.down);
      reflexivity.
  - apply (executeCallback_swallows_failures Samples.service (Samples.remote [])
             Samples.callback) with (tokens := Samples.tokens) (userInfo := Samples.userInfo);
      reflexivity.
Defined.

(** C6. [refreshToken]: when the token endpoint resolves, the result
    carries the response's [refresh_token] if there is one and the input
    refresh token otherwise; when the endpoint rejects, the rejection is
    thrown to the caller. *)
Theorem refreshToken_semantics this net (refreshToken : string) :
  (∀ body,
     oauth_token net (getSecretTokenHeader this)
       (Form.toString (refreshToken_params refreshToken)) = Resolved (VObj body) →
     ∃ r, Airtable.refreshToken this net refreshToken = Ok r
          ∧ token r = get body "access_token"
          ∧ expirationInSeconds r = get body "expires_in"
          ∧ (∀ fresh, body !! "refresh_token" = Some (VStr fresh) → fresh ≠ "" →
                      refreshToken_ r = VStr fresh)
          ∧ (body !! "refresh_token" = None ∨ body !! "refresh_token" = Some VNull →
             refreshToken_ r = VStr refreshToken))
  ∧ (∀ f,
       oauth_token net (getSecretTokenHeader this)
         (Form.toString (refreshToken_params refreshToken)) = Rejected f →
       Airtable.refreshToken this net refreshToken = Throw (RequestError f)).
Proof.
  unfold Airtable.refreshToken. split.
  - intros body ->. cbn. eexists. split; [reflexivity|]. cbn.
    split_and!; try reflexivity.
    + intros fresh Hfresh Hne. unfold get, or_else. rewrite Hfresh. cbn.
      apply String.eqb_neq in Hne. rewrite Hne. reflexivity.
    + intros [Habs|Hnull]; unfold get, or_else; [rewrite Habs | rewrite Hnull];
        reflexivity.
  - intros f ->. reflexivity.
Qed.

Lemma refreshToken_semantics_witness :
  (∃ r, Airtable.refreshToken Samples.service
          (Samples.remote_with [] [] (Resolved (VObj Samples.rotated))
             (Rejected Samples.down)) "rt1" = Ok r
        ∧ refreshToken_ r = VStr "rt2")
  ∧ (∃ r, Airtable.refreshToken Samples.service (Samples.remote []) "rt1" = Ok r
          ∧ refreshToken_ r = VStr "rt1")
  ∧ Airtable.refreshToken Samples.service
      (Samples.remote_with [] [] (Rejected Samples.down) (Rejected Samples.down)) "rt1"
    = Throw (RequestError Samples.down).
Proof.
  split_and!.
  - destruct (proj1 (refreshToken_semantics Samples.service
                       (Samples.remote_with [] [] (Resolved (VObj Samples.rotated))
                          (Rejected Samples.down)) "rt1")
                Samples.rotated eq_refl) as (r & Hr & _ & _ & Hfresh & _).
    exists r. split; [exact Hr|]. apply Hfresh; [reflexivity|discriminate].
  - destruct (proj1 (refreshToken_semantics Samples.service (Samples.remote []) "rt1")
                Samples.tokens eq_refl) as (r & Hr & _ & _ & _ & Hkeep).
    exists r. split; [exact Hr|]. apply Hkeep. left. reflexivity.
  - apply (proj2 (refreshToken_semantics Samples.service
                    (Samples.remote_with [] [] (Rejected Samples.down)
                       (Rejected Samples.down)) "rt1")).
    reflexivity.
Defined.

(** *** Table lookup *)

Lemma find_by_id_misses (tables : list Table) name :
  (∀ t, t ∈ tables → tbl_id t ≠ name) →
  List.find (λ table, String.eqb (tbl_id table) name) tables = None.
Proof.
  induction tables as [|t tables IH]; intros Hids; [reflexivity|].
  cbn. destruct (String.eqb_spec (tbl_id t) name) as [Heq|_].
  - exfalso. apply (Hids t); [left|assumption].
  - apply IH. intros t' Ht'. apply Hids. right. assumption.
Qed.

Lemma find_by_id_or_name_hits (tables : list Table) name t :
  t ∈ tables → tbl_name t = name →
  (∀ t', t' ∈ tables → tbl_id t' ≠ name) →
  ∃ t', List.find (λ table, String.eqb (tbl_id table) name
                            || String.eqb (tbl_name table) name) tables = Some t'
        ∧ tbl_name t' = name.
Proof.
  intros Hin Hname Hids.
  destruct (List.find _ tables) as [t'|] eqn:Hfind.
  - exists t'. split; [reflexivity|].
    apply find_some in Hfind as [Hin' Hmatch].
    apply orb_true_iff in Hmatch as [Hid|Hnm].
    + apply String.eqb_eq in Hid. exfalso.
      apply (Hids t'); [apply list_elem_of_In, Hin'|assumption].
    + apply String.eqb_eq, Hnm.
  - exfalso. apply list_elem_of_In in Hin.
    pose proof (find_none _ _ Hfind t Hin) as Hmiss. cbn in Hmiss.
    rewrite <- Hname, String.eqb_refl, orb_true_r in Hmiss. discriminate.
Qed.

(** C10. The table of [getFieldsDictionary] and of the created-column
    lookup of [onNewRecord] is found by id alone: given a table name that
    is no table's id, both find nothing and fail on reading [fields] of
    [undefined], whereas [#getTableSchema], which
    [getLastModifiedColumnsDictionary] uses, finds the table of that
    name. *)
Theorem table_lookup_by_id_only this net payload base name tables t :
  meta_tables net (getAccessTokenHeader this VUndefined) base = Resolved tables →
  t ∈ tables →
  tbl_name t = name →
  (∀ t', t' ∈ tables → tbl_id t' ≠ name) →
  getFieldsDictionary this net payload base name
  = Throw (TypeError "Cannot read properties of undefined (reading 'fields')")
  ∧ getCreatedColumnName this net base name
    = Throw (TypeError "Cannot read properties of undefined (reading 'fields')")
  ∧ (∀ invocation,
       baseId (triggerData invocation) = base →
       tableIdOrName (triggerData invocation) = name →
       onNewRecord this net invocation
       = Throw (TypeError "Cannot read properties of undefined (reading 'fields')"))
  ∧ (∃ t', getTableSchema this net base name = Ok (Some t') ∧ tbl_name t' = name)
  ∧ ∃ r, getLastModifiedColumnsDictionary this net payload base name = Ok r.
Proof.
  intros Hnet Hin Hname Hids.
  pose proof (find_by_id_misses tables name Hids) as Hmiss.
  destruct (find_by_id_or_name_hits tables name t Hin Hname Hids) as (t' & Hhit & Hname').
  assert (Hcreated : getCreatedColumnName this net base name
            = Throw (TypeError "Cannot read properties of undefined (reading 'fields')")).
  { unfold getCreatedColumnName. rewrite Hnet. cbn. rewrite Hmiss. reflexivity. }
  split_and!.
  - unfold getFieldsDictionary. rewrite Hnet. cbn. rewrite Hmiss. reflexivity.
  - exact Hcreated.
  - intros invocation Hbase Htable. unfold onNewRecord.
    rewrite Hbase, Htable, Hcreated. reflexivity.
  - exists t'. split; [|exact Hname'].
    unfold getTableSchema, getAllTablesSchema. rewrite Hnet. cbn. rewrite Hhit. reflexivity.
  - unfold getLastModifiedColumnsDictionary, getTableSchema, getAllTablesSchema.
    rewrite Hnet. cbn. eexists. reflexivity.
Qed.

Lemma table_lookup_by_id_only_witness :
  getFieldsDictionary Samples.service (Samples.remote [])
    {| search := None; payload_cursor := None |} "a" "Tasks"
  = Throw (TypeError "Cannot read properties of undefined (reading 'fields')")
  ∧ getCreatedColumnName Samples.service (Samples.remote []) "a" "Tasks"
    = Throw (TypeError "Cannot read properties of undefined (reading 'fields')")
  ∧ (∀ invocation,
       baseId (triggerData invocation) = "a" →
       tableIdOrName (triggerData invocation) = "Tasks" →
       onNewRecord Samples.service (Samples.remote []) invocation
       = Throw (TypeError "Cannot read properties of undefined (reading 'fields')"))
  ∧ (∃ t', getTableSchema Samples.service (Samples.remote []) "a" "Tasks" = Ok (Some t')
           ∧ tbl_name t' = "Tasks")
  ∧ ∃ r, getLastModifiedColumnsDictionary Samples.service (Samples.remote [])
           {| search := None; payload_cursor := None |} "a" "Tasks" = Ok r.
Proof.
  apply (table_lookup_by_id_only Samples.service (Samples.remote [])
           {| search := None; payload_cursor := None |} "a" "Tasks"
           [Samples.tasks] Samples.tasks).
  - reflexivity.
  - apply list_elem_of_singleton. reflexivity.
  - reflexivity.
  - intros t' ->%list_elem_of_singleton. discriminate.
Defined.

(** With the id, the same two paths succeed. *)
Example table_lookup_by_id :
  getCreatedColumnName Samples.service (Samples.remote []) "a" "tbl1" = Ok "Created"
  ∧ getFieldsDictionary Samples.service (Samples.remote [])
      {| search := None; payload_cursor := None |} "a" "tbl1"
    = Ok {| cursor := None;
            items := [ {| label := "Created"; note := "ID: fld1";
                          value_ := VStr "Created" |};
                       {| label := "modified"; note := "ID: fld2";
                          value_ := VStr "modified" |} ] |}.
Proof. split; reflexivity. Qed.

(** *** The urlencoded format round-trips *)

Example toString_sample :
  Form.toString [("scope", "a:b c"); ("x y", "*~")] = "scope=a%3Ab+c&x+y=*%7E".
Proof. reflexivity. Qed.

Example parse_sample :
  Form.parse "scope=a%3Ab+c&x+y=*%7E&&z" = [("scope", "a:b c"); ("x y", "*~"); ("z", "")].
Proof. reflexivity. Qed.

Ltac each_byte c := destruct c as [[] [] [] [] [] [] [] []].



Lemma occurs_app c a b : Form.occurs c (a +:+ b) = Form.occurs c a || Form.occurs c b.
Proof.
  induction a as [|x a IH]; [reflexivity|].
  simpl. rewrite IH, orb_assoc. reflexivity.
Qed.



Lemma split_on_free sep s :
  Form.occurs sep s = false → Form.split_on sep s = [s].
Proof.
  induction s as [|c s IH]; [reflexivity|].
  simpl. intros [Hc Hs]%orb_false_iff. rewrite Hc, (IH Hs). reflexivity.
Qed.

Lemma split_on_app sep a b :
  Form.occurs sep a = false →
  Form.split_on sep (a +:+ String sep b) = a :: Form.split_on sep b.
Proof.
  induction a as [|c a IH].
  - intros _. simpl. rewrite Ascii.eqb_refl. reflexivity.
  - simpl. intros [Hc Ha]%orb_false_iff. rewrite Hc, (IH Ha). reflexivity.
Qed.

Lemma split_on_join sep parts :
  parts ≠ [] →
  Forall (λ p, Form.occurs sep p = false) parts →
  Form.split_on sep (Form.join (String sep "") parts) = parts.
Proof.
  induction parts as [|p parts IH]; [congruence|].
  intros _ Hfree. apply Forall_cons in Hfree as [Hp Hparts].
  destruct parts as [|q parts].
  - simpl. apply split_on_free, Hp.
  - change (Form.join (String sep "") (p :: q :: parts))
      with (p +:+ String sep (Form.join (String sep "") (q :: parts))).
    rewrite (split_on_app _ _ _ Hp), IH; [reflexivity|discriminate|assumption].
Qed.

Lemma break_pair_app n v :
  Form.occurs "=" n = false → Form.break_pair (n +:+ "=" +:+ v) = (n, v).
Proof.
  induction n as [|c n IH].
  - intros _. reflexivity.
  - simpl. intros [Hc Hn]%orb_false_iff. rewrite Hc, (IH Hn). reflexivity.
Qed.





(** The URL itself, for the sample service. *)
Example authorization_url :
  getOAuth2ConnectionURL Samples.service (λ v, "S256:" +:+ v) "verifier-1"
  = "https://airtable.com/oauth2/v1/authorize?client_id=client-1&response_type=code&scope=schema.bases%3Aread+user.email%3Aread+webhook%3Amanage+schema.bases%3Awrite+data.records%3Aread+data.records%3Awrite+data.recordComments%3Aread+data.recordComments%3Awrite&code_challenge=S256%3Averifier-1&code_challenge_method=S256&state=verifier-1".
Proof. reflexivity. Qed.

(** *** Local filtering of the fetched page *)

Lemma startsWith_spec s p :
  Utils.startsWith s p = true ↔ ∃ after, s = p +:+ after.
Proof.
  revert s. induction p as [|a p IH]; intros s.
  - destruct s; cbn; split; eauto.
  - destruct s as [|b s]; simpl.
    + split; [discriminate|]. intros [after [=]].
    + rewrite andb_true_iff, Ascii.eqb_eq. split.
      * intros [-> [after ->]%IH]. exists after. reflexivity.
      * intros [after [= -> ->]]. split; [reflexivity|]. apply IH. eauto.
Qed.

Lemma includes_spec s needle :
  Utils.includes s needle = true ↔ ∃ before after, s = before +:+ needle +:+ after.
Proof.
  induction s as [|c s IH].
  - change (Utils.includes "" needle) with (Utils.startsWith "" needle || false).
    rewrite orb_false_r, startsWith_spec. split.
    + intros [after ->]. exists "", after. reflexivity.
    + intros (before & after & Heq). destruct before; [|discriminate].
      exists after. exact Heq.
  - change (Utils.includes (String c s) needle)
      with (Utils.startsWith (String c s) needle || Utils.includes s needle).
    rewrite orb_true_iff, startsWith_spec, IH. split.
    + intros [[after ->] | (before & after & ->)].
      * exists "", after. reflexivity.
      * exists (String c before), after. reflexivity.
    + intros (before & after & Heq). destruct before as [|c' before].
      * left. exists after. exact Heq.
      * right. injection Heq as -> ->. eauto.
Qed.

(** The modelled [searchFilter] keeps, in order, the items that match. *)
Lemma searchFilter_spec {A} `{Utils.Props A} (page : list A) fields search :
  ∃ keep : A → bool,
    (∀ item, keep item = true ↔ matches fields search item)
    ∧ Utils.searchFilter page fields search = List.filter keep page.
Proof.
  eexists. split; [|reflexivity].
  intros item. cbn beta. rewrite existsb_exists. unfold matches, contains_ci. split.
  - intros (name & Hin & Hmatch).
    destruct (Utils.prop name item) as [text|] eqn:Hprop; [|discriminate].
    exists name, text. split_and!; [apply list_elem_of_In, Hin|exact Hprop|].
    apply includes_spec, Hmatch.
  - intros (name & text & Hin & Hprop & Hsub).
    exists name. split; [apply list_elem_of_In, Hin|].
    rewrite Hprop. apply includes_spec, Hsub.
Qed.

Lemma getBasesDictionary_resolved this net payload body :
  meta_bases net (getAccessTokenHeader this VUndefined) (payload_cursor payload)
  = Resolved body →
  getBasesDictionary this net payload
  = Ok {| cursor := bases_offset body;
          items := base_item <$> filtered (search payload) (bases body) ["id"; "name"] |}.
Proof. unfold getBasesDictionary. intros ->. reflexivity. Qed.

Lemma getTablesDictionary_resolved this net payload base tables :
  meta_tables net (getAccessTokenHeader this VUndefined) base = Resolved tables →
  getTablesDictionary this net payload base
  = Ok {| cursor := None;
          items := table_item <$> filtered (search payload) tables ["id"; "name"] |}.
Proof. unfold getTablesDictionary. intros ->. reflexivity. Qed.

(** C9. A dictionary filters the one page it fetched: with a non-empty
    search string, [getBasesDictionary] and [getTablesDictionary] return
    the items of exactly those entries of the page, in order, of which one
    of the fields [id], [name] contains the search string as a
    case-insensitive substring; with an empty or absent search string,
    the items of every entry of the page. *)
Theorem local_page_filtering this net cur base (page : list Base) offset
    (tables : list Table) :
  meta_bases net (getAccessTokenHeader this VUndefined) cur
  = Resolved {| bases := page; bases_offset := offset |} →
  meta_tables net (getAccessTokenHeader this VUndefined) base = Resolved tables →
  (∀ text, text ≠ "" →
     (∃ keep : Base → bool,
        (∀ b, keep b = true ↔ matches ["id"; "name"] text b)
        ∧ getBasesDictionary this net {| search := Some text; payload_cursor := cur |}
          = Ok {| cursor := offset; items := base_item <$> List.filter keep page |})
     ∧ (∃ keep : Table → bool,
          (∀ t, keep t = true ↔ matches ["id"; "name"] text t)
          ∧ getTablesDictionary this net {| search := Some text; payload_cursor := cur |} base
            = Ok {| cursor := None; items := table_item <$> List.filter keep tables |}))
  ∧ (∀ absent, absent = None ∨ absent = Some "" →
       getBasesDictionary this net {| search := absent; payload_cursor := cur |}
       = Ok {| cursor := offset; items := base_item <$> page |}
       ∧ getTablesDictionary this net {| search := absent; payload_cursor := cur |} base
         = Ok {| cursor := None; items := table_item <$> tables |}).
Proof.
  intros Hbases Htables. split.
  - intros text Hne. apply String.eqb_neq in Hne.
    rewrite (getBasesDictionary_resolved this net
               {| search := Some text; payload_cursor := cur |} _ Hbases).
    rewrite (getTablesDictionary_resolved _ _ _ _ _ Htables).
    unfold filtered. cbn [search bases bases_offset]. rewrite Hne. split.
    + destruct (searchFilter_spec page ["id"; "name"] text) as (keep & Hkeep & ->).
      exists keep. split; [exact Hkeep|reflexivity].
    + destruct (searchFilter_spec tables ["id"; "name"] text) as (keep & Hkeep & ->).
      exists keep. split; [exact Hkeep|reflexivity].
  - intros absent Habsent.
    rewrite (getBasesDictionary_resolved this net
               {| search := absent; payload_cursor := cur |} _ Hbases).
    rewrite (getTablesDictionary_resolved _ _ _ _ _ Htables).
    destruct Habsent as [-> | ->]; split; reflexivity.
Qed.

Lemma local_page_filtering_witness :
  (∃ keep : Base → bool,
     (∀ b, keep b = true ↔ matches ["id"; "name"] "an" b)
     ∧ getBasesDictionary Samples.service (Samples.remote [])
         {| search := Some "an"; payload_cursor := None |}
       = Ok {| cursor := None;
               items := base_item <$> List.filter keep
                          [ {| base_id := "a"; base_name := "Apples" |};
                            {| base_id := "b"; base_name := "Bananas" |} ] |})
  ∧ getTablesDictionary Samples.service (Samples.remote [])
      {| search := Some ""; payload_cursor := None |} "a"
    = Ok {| cursor := None; items := [table_item Samples.tasks] |}.
Proof.
  destruct (local_page_filtering Samples.service (Samples.remote []) None "a"
              [ {| base_id := "a"; base_name := "Apples" |};
                {| base_id := "b"; base_name := "Bananas" |} ]
              None [Samples.tasks] eq_refl eq_refl) as [Hsearch Hall].
  split.
  - apply (Hsearch "an"). discriminate.
  - apply (Hall (Some "")). right. reflexivity.
Defined.

(** The scenario of the spec. *)
Example search_scenario :
  Utils.searchFilter
    [ {| base_id := "a"; base_name := "Apples" |};
      {| base_id := "b"; base_name := "Bananas" |} ] ["name"] "an"
  = [ {| base_id := "b"; base_name := "Bananas" |} ]
  ∧ getBasesDictionary Samples.service (Samples.remote [])
      {| search := Some "AN"; payload_cursor := None |}
    = Ok {| cursor := None;
            items := [ {| label := "Bananas"; note := "ID: b"; value_ := VStr "b" |} ] |}.
Proof. split; reflexivity. Qed.

(** *** Pagination *)

(** [getChatsDictionary] always returns a cursor: the one it was called
    with (or 0), plus 1. *)
Lemma getChatsDictionary_cursor net payload r :
  Telegram.getChatsDictionary net payload = Ok r →
  Telegram.next_cursor r = Some (Telegram.plus_1 (Telegram.cursor_or_0 payload)).
Proof.
  unfold Telegram.getChatsDictionary.
  destruct (Telegram.apiRequest _) as [updates|e]; [|discriminate]. cbn.
  destruct (Telegram.forEach _ _ _) as [[search chatsSet]|e]; [|discriminate]. cbn.
  intros [= <-]. reflexivity.
Qed.

(** Whatever the bot received, a caller that follows the cursors of
    [getChatsDictionary] never completes its loop: it runs out of calls or
    a call throws. *)
Lemma chats_pagination_never_completes net search fuel cursor pages :
  Host.paginate fuel (Host.chats_call net search) cursor ≠ Some (Ok pages).
Proof.
  revert cursor pages. induction fuel as [|fuel IH]; intros cursor pages; [discriminate|].
  cbn [Host.paginate]. unfold Host.chats_call at 1.
  destruct (Telegram.getChatsDictionary net _) as [r|e] eqn:Hcall; cbn; [|discriminate].
  rewrite (getChatsDictionary_cursor _ _ _ Hcall).
  destruct (Host.paginate fuel _ _) as [[more|e]|] eqn:Hrest; try discriminate.
  exfalso. exact (IH _ _ Hrest).
Qed.

(** C8, on [getChatsDictionary]: pagination does not terminate. For a bot
    without updates (an empty collection) the first call returns no items
    and the cursor 1, and a caller feeding each cursor to the next call
    never gets a missing cursor, however many calls it makes. *)
Theorem getChatsDictionary_pagination_never_ends :
  Telegram.getChatsDictionary Samples.quiet_bot None
  = Ok {| Telegram.next_cursor := Some (Telegram.CNum 1); Telegram.items := [] |}
  ∧ Telegram.getChatsDictionary Samples.quiet_bot
      (Some {| Telegram.search := None; Telegram.cursor := Some (Telegram.CNum 1) |})
    = Ok {| Telegram.next_cursor := Some (Telegram.CNum 2); Telegram.items := [] |}
  ∧ ∀ fuel cursor,
      Host.paginate fuel (Host.chats_call Samples.quiet_bot None) cursor = None.
Proof.
  split_and!; [reflexivity..|].
  intros fuel. induction fuel as [|fuel IH]; intros cursor; [reflexivity|].
  cbn [Host.paginate]. unfold Host.chats_call at 1. cbn. rewrite IH. reflexivity.
Qed.

(** The label, note and value of a listed chat, and the search on it. *)
Example getChatsDictionary_items :
  Telegram.getChatsDictionary
    {| Telegram.getUpdates := λ _,
         Telegram.Resolved
           [ {| Telegram.message_chat :=
                  Some {| Telegram.chat_id := (-1001234567890)%Z;
                          Telegram.chat_type := "supergroup";
                          Telegram.title := Some "Test Group";
                          Telegram.username := None;
                          Telegram.first_name := None;
                          Telegram.last_name := None;
                          Telegram.member_count := Some 42%Z |} |};
             {| Telegram.message_chat := None |} ] |}
    (Some {| Telegram.search := Some " GROUP "; Telegram.cursor := None |})
  = Ok {| Telegram.next_cursor := Some (Telegram.CNum 1);
          Telegram.items :=
            [ {| Telegram.value_ := "-1001234567890";
                 Telegram.label := "Test Group (supergroup)";
                 Telegram.note := "ID: -1001234567890, Members: 42" |} ] |}.
Proof. reflexivity. Qed.

Lemma filtered_app {A} `{Utils.Props A} search (a b : list A) fields :
  filtered search (a ++ b) fields = filtered search a fields ++ filtered search b fields.
Proof.
  unfold filtered, Utils.searchFilter.
  destruct search as [text|]; [|reflexivity].
  destruct (String.eqb text ""); [reflexivity|]. apply List.filter_app.
Qed.

Lemma token_position n : Paged.position (Some (Paged.token n)) = n.
Proof. induction n as [|n IH]; [reflexivity|]. cbn in *. rewrite IH. reflexivity. Qed.

Lemma bases_call_paged this collection pageSize search cursor :
  Host.bases_call this (Paged.remote collection pageSize) search cursor
  = Ok (if decide (Paged.position cursor + pageSize < length collection)
        then Some (Paged.token (Paged.position cursor + pageSize)) else None,
        base_item <$> filtered search
                        (take pageSize (drop (Paged.position cursor) collection))
                        ["id"; "name"]).
Proof. reflexivity. Qed.

Lemma bases_pagination_from this collection pageSize search n :
  0 < pageSize →
  ∀ cursor,
    length collection - Paged.position cursor ≤ n →
    ∃ fuel,
      Host.paginate fuel (Host.bases_call this (Paged.remote collection pageSize) search)
        cursor
      = Some (Ok (base_item <$> filtered search
                                  (drop (Paged.position cursor) collection)
                                  ["id"; "name"])).
Proof.
  intros Hsize. induction n as [|n IH]; intros cursor Hleft.
  - exists 1%nat. cbn [Host.paginate]. rewrite bases_call_paged.
    rewrite decide_False by lia.
    rewrite take_ge by (rewrite length_drop; lia). reflexivity.
  - destruct (decide (Paged.position cursor + pageSize < length collection)) as [Hmore|Hlast].
    + destruct (IH (Some (Paged.token (Paged.position cursor + pageSize)))) as [fuel Hfuel].
      { rewrite token_position. lia. }
      exists (S fuel). cbn [Host.paginate]. rewrite bases_call_paged.
      rewrite decide_True by exact Hmore. rewrite Hfuel, token_position.
      rewrite <- fmap_app, <- filtered_app, <- drop_drop, take_drop. reflexivity.
    + exists 1%nat. cbn [Host.paginate]. rewrite bases_call_paged.
      rewrite decide_False by exact Hlast.
      rewrite take_ge by (rewrite length_drop; lia). reflexivity.
Qed.

(** X11. The sibling [getBasesDictionary] ends: against a server that pages a
    finite collection, following the cursors reaches a missing cursor,
    and the pages add up to the filtered collection. *)
Theorem getBasesDictionary_pagination_terminates this collection pageSize search :
  0 < pageSize →
  ∃ fuel,
    Host.paginate fuel (Host.bases_call this (Paged.remote collection pageSize) search) None
    = Some (Ok (base_item <$> filtered search collection ["id"; "name"])).
Proof.
  intros Hsize.
  destruct (bases_pagination_from this collection pageSize search (length collection)
              Hsize None) as [fuel Hfuel]; [cbn; lia|].
  exists fuel. exact Hfuel.
Qed.

Lemma getBasesDictionary_pagination_terminates_witness :
  ∃ fuel,
    Host.paginate fuel
      (Host.bases_call Samples.service
         (Paged.remote [ {| base_id := "a"; base_name := "Apples" |};
                         {| base_id := "b"; base_name := "Bananas" |};
                         {| base_id := "c"; base_name := "Cherries" |} ] 2) None) None
    = Some (Ok (base_item <$> [ {| base_id := "a"; base_name := "Apples" |};
                                {| base_id := "b"; base_name := "Bananas" |};
                                {| base_id := "c"; base_name := "Cherries" |} ])).
Proof.
  apply (getBasesDictionary_pagination_terminates Samples.service
           [ {| base_id := "a"; base_name := "Apples" |};
             {| base_id := "b"; base_name := "Bananas" |};
             {| base_id := "c"; base_name := "Cherries" |} ] 2 None).
  lia.
Defined.

Example bases_two_pages :
  Host.paginate 2
    (Host.bases_call Samples.service
       (Paged.remote [ {| base_id := "a"; base_name := "Apples" |};
                       {| base_id := "b"; base_name := "Bananas" |};
                       {| base_id := "c"; base_name := "Cherries" |} ] 2) (Some "an")) None
  = Some (Ok [ {| label := "Bananas"; note := "ID: b"; value_ := VStr "b" |} ]).
Proof. reflexivity. Qed.

(* ===================================================================== *)
(** ** Further properties of the polling triggers                         *)
(* ===================================================================== *)

Lemma onNewRecord_incremental_witness :
  onNewRecord Samples.service (Samples.remote Samples.current)
    (Samples.invocation "tbl1" (Some {| records := [Samples.r1 "t1"] |}) false)
  = Ok {| events :=
            Some <$> List.filter (λ e, bool_decide (rec_id e ∉ ids [Samples.r1 "t1"]))
                       Samples.current;
          new_state := Some {| records := Samples.current |} |}.
Proof.
  apply (onNewRecord_incremental Samples.service (Samples.remote Samples.current)
           (Samples.invocation "tbl1" (Some {| records := [Samples.r1 "t1"] |}) false)
           [Samples.r1 "t1"] Samples.current); reflexivity.
Defined.

Lemma filter_none {A} (p : A → bool) (l : list A) :
  (∀ x, x ∈ l → p x = false) → List.filter p l = [].
Proof.
  induction l as [|x l IH]; intros Hp; [reflexivity|].
  cbn. rewrite (Hp x) by left. apply IH. intros y Hy. apply Hp. right. exact Hy.
Qed.

Lemma filter_sublist_of {A} (p q : A → bool) (l : list A) :
  (∀ x, x ∈ l → p x = true → q x = true) →
  List.filter p l `sublist_of` List.filter q l.
Proof.
  induction l as [|x l IH]; intros Hpq; [constructor|].
  assert (IH' : List.filter p l `sublist_of` List.filter q l).
  { apply IH. intros y Hy. apply Hpq. right. exact Hy. }
  cbn. destruct (p x) eqn:Hp.
  - rewrite (Hpq x) by (left || exact Hp). apply sublist_skip, IH'.
  - destruct (q x); [apply sublist_cons|]; exact IH'.
Qed.

Lemma stored_for_unique snapshot e s :
  NoDup (ids snapshot) → e ∈ snapshot → stored_for snapshot (rec_id e) s → s = e.
Proof.
  intros Hnodup Hin (before & after & -> & Hid & _).
  unfold ids in Hnodup. rewrite fmap_app, fmap_cons in Hnodup.
  apply NoDup_app in Hnodup as (_ & Hsep & Hrest).
  apply NoDup_cons in Hrest as [Hfresh _].
  apply elem_of_app in Hin as [Hin|Hin].
  - exfalso. apply (Hsep (rec_id e)).
    + apply list_elem_of_fmap. eauto.
    + rewrite <- Hid. left.
  - apply elem_of_cons in Hin as [->|Hin]; [reflexivity|].
    exfalso. apply Hfresh. rewrite Hid. apply list_elem_of_fmap. eauto.
Qed.

Lemma strict_equal_refl v : is_scalar v = true → strict_equal v v = true.
Proof.
  destruct v; cbn; try discriminate; intros _; try reflexivity.
  - destruct b; reflexivity.
  - apply Z.eqb_refl.
  - apply String.eqb_refl.
Qed.

(** X2. A poll that follows a poll with nothing changed in between reports
    nothing: feed the state [onNewOrUpdatedRecord] returned into the next
    invocation, with the same fetch, and the events are empty and the state
    is the same. The ids of the fetch are distinct and its watch values are
    scalars. *)
Theorem second_poll_is_silent this net invocation fetched :
  learningMode invocation = false →
  fetch this net invocation = Ok fetched →
  NoDup (ids fetched) →
  (∀ e, e ∈ fetched →
        is_scalar (watch (lastModifiedColumn (triggerData invocation)) e) = true) →
  ∃ r,
    onNewOrUpdatedRecord this net invocation = Ok r
    ∧ onNewOrUpdatedRecord this net
        {| triggerData := triggerData invocation;
           inv_state := new_state r;
           learningMode := false |}
      = Ok {| events := []; new_state := new_state r |}.
Proof.
  intros Hlearn Hfetch Hnodup Hscalar.
  assert (Hfirst : ∃ evs, onNewOrUpdatedRecord this net invocation
                          = Ok {| events := evs;
                                  new_state := Some {| records := fetched |} |}).
  { rewrite (onNewOrUpdatedRecord_fetched _ _ _ _ Hfetch), Hlearn.
    destruct (inv_state invocation); eexists; reflexivity. }
  destruct Hfirst as [evs Hfirst]. eexists. split; [exact Hfirst|].
  rewrite (onNewOrUpdatedRecord_fetched _ _ _ fetched) by exact Hfetch.
  cbn [learningMode inv_state triggerData new_state records].
  rewrite filter_none; [reflexivity|].
  intros e He. apply not_true_is_false. intros Hev.
  apply is_event_changed in Hev as [Hnew | (s & Hs & Hne)].
  - apply Hnew. unfold ids. apply list_elem_of_fmap. eauto.
  - rewrite (stored_for_unique _ _ _ Hnodup He Hs) in Hne.
    rewrite strict_equal_refl in Hne by (apply Hscalar, He). discriminate.
Qed.

Lemma second_poll_is_silent_witness :
  ∃ r,
    onNewOrUpdatedRecord Samples.service (Samples.remote Samples.current)
      (Samples.invocation "tbl1" (Some {| records := [Samples.r1 "t1"] |}) false) = Ok r
    ∧ onNewOrUpdatedRecord Samples.service (Samples.remote Samples.current)
        {| triggerData :=
             triggerData
               (Samples.invocation "tbl1" (Some {| records := [Samples.r1 "t1"] |}) false);
           inv_state := new_state r;
           learningMode := false |}
      = Ok {| events := []; new_state := new_state r |}.
Proof.
  apply (second_poll_is_silent Samples.service (Samples.remote Samples.current)
           (Samples.invocation "tbl1" (Some {| records := [Samples.r1 "t1"] |}) false)
           Samples.current).
  - reflexivity.
  - reflexivity.
  - unfold ids. cbn. apply NoDup_cons. split; [|apply NoDup_singleton].
    intros Hdup%list_elem_of_singleton. discriminate.
  - intros e He. unfold Samples.current in He.
    apply elem_of_cons in He as [->|He]; [reflexivity|].
    apply list_elem_of_singleton in He as ->. reflexivity.
Defined.

(** X3. The creation-only trigger needs no such precondition: a second poll
    over the same fetch reports nothing, even with repeated ids. *)
Theorem second_poll_of_onNewRecord_is_silent this net invocation fetched :
  learningMode invocation = false →
  fetch_created this net invocation = Ok fetched →
  ∃ r,
    onNewRecord this net invocation = Ok r
    ∧ onNewRecord this net
        {| triggerData := triggerData invocation;
           inv_state := new_state r;
           learningMode := false |}
      = Ok {| events := []; new_state := new_state r |}.
Proof.
  intros Hlearn Hfetch.
  assert (Hfirst : ∃ evs, onNewRecord this net invocation
                          = Ok {| events := evs;
                                  new_state := Some {| records := fetched |} |}).
  { rewrite (onNewRecord_fetched _ _ _ _ Hfetch), Hlearn.
    destruct (inv_state invocation); eexists; reflexivity. }
  destruct Hfirst as [evs Hfirst]. eexists. split; [exact Hfirst|].
  rewrite (onNewRecord_incremental this net _ fetched fetched);
    [|reflexivity|reflexivity|exact Hfetch].
  rewrite filter_none; [reflexivity|].
  intros e He. apply bool_decide_eq_false. intros Hout. apply Hout.
  unfold ids. apply list_elem_of_fmap. eauto.
Qed.

Lemma second_poll_of_onNewRecord_is_silent_witness :
  ∃ r,
    onNewRecord Samples.service (Samples.remote [Samples.r2; Samples.r2])
      (Samples.invocation "tbl1" None false) = Ok r
    ∧ onNewRecord Samples.service (Samples.remote [Samples.r2; Samples.r2])
        {| triggerData := triggerData (Samples.invocation "tbl1" None false);
           inv_state := new_state r;
           learningMode := false |}
      = Ok {| events := []; new_state := new_state r |}.
Proof.
  apply (second_poll_of_onNewRecord_is_silent Samples.service
           (Samples.remote [Samples.r2; Samples.r2])
           (Samples.invocation "tbl1" None false) [Samples.r2; Samples.r2]);
    reflexivity.
Defined.

(** X4. A record whose watch field holds an array or an object is reported at
    every incremental poll, whatever the snapshot holds for it: such a
    value is never [===] to a stored one. *)
Theorem structured_watch_value_always_fires this net invocation snapshot fetched e :
  learningMode invocation = false →
  inv_state invocation = Some {| records := snapshot |} →
  fetch this net invocation = Ok fetched →
  e ∈ fetched →
  is_scalar (watch (lastModifiedColumn (triggerData invocation)) e) = false →
  ∃ r, onNewOrUpdatedRecord this net invocation = Ok r ∧ Some e ∈ events r.
Proof.
  intros Hlearn Hstate Hfetch Hin Hobj. eexists. split.
  - rewrite (onNewOrUpdatedRecord_fetched _ _ _ _ Hfetch), Hlearn, Hstate. reflexivity.
  - cbn [events]. apply list_elem_of_fmap. exists e. split; [reflexivity|].
    apply list_elem_of_In, filter_In. split; [apply list_elem_of_In, Hin|].
    apply orb_true_iff. right. apply negb_true_iff.
    destruct (watch _ e); cbn in Hobj; try discriminate; reflexivity.
Qed.

(** X5. When the records request is rejected, [onNewOrUpdatedRecord] throws in
    every mode and returns no state: the rejection itself when it has no
    Airtable error body, a [ResponseError] with the body's message, the
    HTTP status and the error type when it has one. *)
Theorem rejected_fetch_propagates this net invocation f :
  list_records net (getAccessTokenHeader this VUndefined)
    (baseId (triggerData invocation)) (tableIdOrName (triggerData invocation))
    (Some (lastModifiedColumn (triggerData invocation), "desc")) = Rejected f →
  ∃ e,
    onNewOrUpdatedRecord this net invocation = Throw e
    ∧ (f_body_error f = None → e = RequestError f)
    ∧ (∀ message type,
         f_body_error f = Some (ErrObject (Some message) type) → message ≠ "" →
         e = ResponseError ("[AirtableError]: " +:+ message) (f_status f) type)
    ∧ (∀ text,
         f_body_error f = Some (ErrText text) → text ≠ "" →
         e = ResponseError ("[AirtableError]: " +:+ text) (f_status f) None).
Proof.
  intros Hrej. unfold onNewOrUpdatedRecord, getLatestRecords. rewrite Hrej.
  unfold apiRequest.
  destruct (f_body_error f) as [[text|message type]|] eqn:Hbody.
  - destruct (String.eqb_spec text "") as [->|Hne]; eexists; (split; [reflexivity|]);
      split_and!; try discriminate.
    + intros text' [= <-] Hne. congruence.
    + intros text' [= <-] _. reflexivity.
  - eexists. split; [reflexivity|]. split_and!; try discriminate.
    intros m t [= -> ->] Hne%String.eqb_neq. rewrite Hne. reflexivity.
  - eexists. split; [reflexivity|]. split_and!; try discriminate. reflexivity.
Qed.

Lemma structured_watch_value_always_fires_witness :
  ∃ r,
    onNewOrUpdatedRecord Samples.service (Samples.remote [More.tagged])
      (Samples.invocation "tbl1" (Some {| records := [More.tagged] |}) false) = Ok r
    ∧ Some More.tagged ∈ events r.
Proof.
  apply (structured_watch_value_always_fires Samples.service
           (Samples.remote [More.tagged])
           (Samples.invocation "tbl1" (Some {| records := [More.tagged] |}) false)
           [More.tagged] [More.tagged] More.tagged).
  - reflexivity.
  - reflexivity.
  - reflexivity.
  - apply list_elem_of_singleton. reflexivity.
  - reflexivity.
Defined.

Lemma rejected_fetch_propagates_witness :
  ∃ e,
    onNewOrUpdatedRecord Samples.service (More.failing More.throttled)
      (Samples.invocation "tbl1" None false) = Throw e
    ∧ e = ResponseError "[AirtableError]: Rate limit exceeded" (Some 429%Z)
            (Some "RATE_LIMIT").
Proof.
  destruct (rejected_fetch_propagates Samples.service (More.failing More.throttled)
              (Samples.invocation "tbl1" None false) More.throttled eq_refl)
    as (e & Hthrow & _ & Hobject & _).
  exists e. split; [exact Hthrow|].
  apply (Hobject "Rate limit exceeded" (Some "RATE_LIMIT")); [reflexivity|discriminate].
Defined.

(** X6. Whatever [onNewRecord] reports, [onNewOrUpdatedRecord] reports too:
    over the same snapshot and the same fetched list, the events of the
    first are a sublist of the events of the second. *)
Theorem new_records_are_new_or_updated this net invocation snapshot fetched :
  learningMode invocation = false →
  inv_state invocation = Some {| records := snapshot |} →
  fetch this net invocation = Ok fetched →
  fetch_created this net invocation = Ok fetched →
  ∃ created changed,
    onNewRecord this net invocation = Ok created
    ∧ onNewOrUpdatedRecord this net invocation = Ok changed
    ∧ events created `sublist_of` events changed
    ∧ new_state created = new_state changed.
Proof.
  intros Hlearn Hstate Hfetch Hcreated.
  do 2 eexists. split_and!.
  - apply (onNewRecord_incremental _ _ _ snapshot fetched); assumption.
  - rewrite (onNewOrUpdatedRecord_fetched _ _ _ _ Hfetch), Hlearn, Hstate. reflexivity.
  - cbn [events records]. apply fmap_sublist, filter_sublist_of.
    intros e _ Hnew%bool_decide_eq_true. apply is_event_changed. left. exact Hnew.
  - reflexivity.
Qed.

Lemma new_records_are_new_or_updated_witness :
  ∃ created changed,
    onNewRecord Samples.service (Samples.remote Samples.current)
      (Samples.invocation "tbl1" (Some {| records := [Samples.r1 "t1"] |}) false)
    = Ok created
    ∧ onNewOrUpdatedRecord Samples.service (Samples.remote Samples.current)
        (Samples.invocation "tbl1" (Some {| records := [Samples.r1 "t1"] |}) false)
      = Ok changed
    ∧ events created `sublist_of` events changed
    ∧ new_state created = new_state changed.
Proof.
  apply (new_records_are_new_or_updated Samples.service (Samples.remote Samples.current)
           (Samples.invocation "tbl1" (Some {| records := [Samples.r1 "t1"] |}) false)
           [Samples.r1 "t1"] Samples.current); reflexivity.
Defined.

(** *** The created-time column *)

Lemma find_first {A} (p : A → bool) (before after : list A) (x : A) :
  (∀ y, y ∈ before → p y = false) → p x = true →
  List.find p (before ++ x :: after) = Some x.
Proof.
  intros Hbefore Hx. induction before as [|y before IH]; cbn.
  - rewrite Hx. reflexivity.
  - rewrite (Hbefore y) by left. apply IH. intros z Hz. apply Hbefore. right. exact Hz.
Qed.

(** X7. [onNewRecord] needs a [createdTime] field in the table with the given
    id (the first such table): without one it throws an [Error], in every
    mode, before any record is fetched; and a column name it sorts by is
    the name of a [createdTime] field of that table. *)
Theorem created_column_is_required this net invocation before table after :
  meta_tables net (getAccessTokenHeader this VUndefined)
    (baseId (triggerData invocation)) = Resolved (before ++ table :: after) →
  tbl_id table = tableIdOrName (triggerData invocation) →
  (∀ t, t ∈ before → tbl_id t ≠ tableIdOrName (triggerData invocation)) →
  ((∀ f, f ∈ tbl_fields table → fld_type f ≠ "createdTime") →
   onNewRecord this net invocation
   = Throw (Error ("There is no a column with type " +:+ quoted "createdTime"
                   +:+ " in the " +:+ quoted (tableIdOrName (triggerData invocation))
                   +:+ " table")))
  ∧ ∀ column,
      getCreatedColumnName this net (baseId (triggerData invocation))
        (tableIdOrName (triggerData invocation)) = Ok column →
      ∃ f, f ∈ tbl_fields table ∧ fld_type f = "createdTime" ∧ fld_name f = column.
Proof.
  intros Hnet Hid Hbefore.
  assert (Hfind : List.find (λ t, String.eqb (tbl_id t)
                                    (tableIdOrName (triggerData invocation)))
                    (before ++ table :: after) = Some table).
  { apply find_first.
    - intros t Ht. apply String.eqb_neq, Hbefore, Ht.
    - apply String.eqb_eq, Hid. }
  split.
  - intros Hnone. unfold onNewRecord, getCreatedColumnName. rewrite Hnet. cbn.
    rewrite Hfind.
    destruct (List.find _ (tbl_fields table)) as [f|] eqn:Hcol; [|reflexivity].
    apply find_some in Hcol as [Hin Htype]. apply String.eqb_eq in Htype.
    exfalso. apply (Hnone f); [apply list_elem_of_In, Hin|exact Htype].
  - intros column. unfold getCreatedColumnName. rewrite Hnet. cbn. rewrite Hfind.
    destruct (List.find _ (tbl_fields table)) as [f|] eqn:Hcol; [|discriminate].
    intros [= <-]. apply find_some in Hcol as [Hin Htype].
    exists f. split_and!; [apply list_elem_of_In, Hin|apply String.eqb_eq, Htype|reflexivity].
Qed.

Lemma created_column_is_required_witness :
  onNewRecord Samples.service
    (Samples.remote_with [Samples.tasks; More.notes] Samples.current
       (Rejected Samples.down) (Rejected Samples.down))
    (Samples.invocation "tbl2" None true)
  = Throw (Error ("There is no a column with type " +:+ quoted "createdTime"
                  +:+ " in the " +:+ quoted "tbl2" +:+ " table")).
Proof.
  apply (created_column_is_required Samples.service
           (Samples.remote_with [Samples.tasks; More.notes] Samples.current
              (Rejected Samples.down) (Rejected Samples.down))
           (Samples.invocation "tbl2" None true) [Samples.tasks] More.notes []).
  - reflexivity.
  - reflexivity.
  - intros t ->%list_elem_of_singleton. discriminate.
  - intros f ->%list_elem_of_singleton. discriminate.
Defined.

(** X1. The creation-only trigger in incremental mode: the events are the
    fetched records whose id is not an id of the snapshot, in the order of
    the fetch, whatever their fields; the state is the fetched list. *)
Theorem creation_only_detection this net invocation snapshot fetched :
  learningMode invocation = false →
  inv_state invocation = Some {| records := snapshot |} →
  fetch_created this net invocation = Ok fetched →
  ∃ is_new : AirtableRecord → bool,
    (∀ e, is_new e = true ↔ ∀ s, s ∈ snapshot → rec_id s ≠ rec_id e)
    ∧ onNewRecord this net invocation
      = Ok {| events := Some <$> List.filter is_new fetched;
              new_state := Some {| records := fetched |} |}.
Proof.
  intros Hlearn Hstate Hfetch.
  exists (λ e, bool_decide (rec_id e ∉ ids snapshot)). split.
  - intros e. rewrite bool_decide_eq_true. unfold ids. split.
    + intros Hout s Hs Heq. apply Hout. rewrite <- Heq.
      apply list_elem_of_fmap. eauto.
    + intros Hfresh (s & Heq & Hs)%list_elem_of_fmap. apply (Hfresh s Hs). congruence.
  - apply onNewRecord_incremental; assumption.
Qed.

Lemma creation_only_detection_witness :
  ∃ is_new : AirtableRecord → bool,
    (∀ e, is_new e = true ↔ ∀ s, s ∈ [Samples.r1 "t1"] → rec_id s ≠ rec_id e)
    ∧ onNewRecord Samples.service (Samples.remote Samples.current)
        (Samples.invocation "tbl1" (Some {| records := [Samples.r1 "t1"] |}) false)
      = Ok {| events := Some <$> List.filter is_new Samples.current;
              new_state := Some {| records := Samples.current |} |}.
Proof.
  apply (creation_only_detection Samples.service (Samples.remote Samples.current)
           (Samples.invocation "tbl1" (Some {| records := [Samples.r1 "t1"] |}) false)
           [Samples.r1 "t1"] Samples.current); reflexivity.
Defined.

(** *** Dictionaries *)

Lemma filtered_subset {A} `{Utils.Props A} search (page : list A) fields x :
  x ∈ filtered search page fields → x ∈ page.
Proof.
  unfold filtered, Utils.searchFilter.
  destruct search as [text|]; [|tauto].
  destruct (String.eqb text ""); [tauto|].
  intros Hin%list_elem_of_In%filter_In. apply list_elem_of_In, Hin.
Qed.

(** X8. [getLastModifiedColumnsDictionary] does not fail on a table it cannot
    find: it returns no items. And every item it returns stands for a
    field of type [lastModifiedTime] of a table whose id or name is the
    one asked for. *)
Theorem last_modified_columns_only this net payload base name tables :
  meta_tables net (getAccessTokenHeader this VUndefined) base = Resolved tables →
  ∃ r,
    getLastModifiedColumnsDictionary this net payload base name = Ok r
    ∧ cursor r = None
    ∧ (∀ item, item ∈ items r →
         ∃ t f, t ∈ tables ∧ (tbl_id t = name ∨ tbl_name t = name)
                ∧ f ∈ tbl_fields t ∧ fld_type f = "lastModifiedTime"
                ∧ item = field_item f)
    ∧ ((∀ t, t ∈ tables → tbl_id t ≠ name ∧ tbl_name t ≠ name) → items r = []).
Proof.
  intros Hnet. unfold getLastModifiedColumnsDictionary, getTableSchema, getAllTablesSchema.
  rewrite Hnet. cbn. eexists. split; [reflexivity|]. cbn [cursor items].
  split; [reflexivity|].
  destruct (List.find _ tables) as [t|] eqn:Hfind; cbn.
  - apply find_some in Hfind as [Hin Hmatch].
    apply orb_true_iff in Hmatch.
    rewrite !String.eqb_eq in Hmatch. apply list_elem_of_In in Hin. split.
    + intros item (f & -> & Hf)%list_elem_of_fmap.
      apply filtered_subset, list_elem_of_In, filter_In in Hf as [Hf Htype].
      exists t, f. split_and!; try assumption; try reflexivity.
      * apply list_elem_of_In, Hf.
      * apply String.eqb_eq, Htype.
    + intros Hnone. destruct (Hnone t Hin) as [Hid Hname]. tauto.
  - split.
    + intros item (f & _ & Hf)%list_elem_of_fmap.
      apply filtered_subset in Hf. inversion Hf.
    + intros _. unfold filtered, Utils.searchFilter.
      destruct (search payload) as [text|]; [|reflexivity].
      destruct (String.eqb text ""); reflexivity.
Qed.

Lemma last_modified_columns_only_witness :
  ∃ r,
    getLastModifiedColumnsDictionary Samples.service (Samples.remote [])
      {| search := None; payload_cursor := None |} "a" "No such table" = Ok r
    ∧ items r = [].
Proof.
  destruct (last_modified_columns_only Samples.service (Samples.remote [])
              {| search := None; payload_cursor := None |} "a" "No such table"
              [Samples.tasks] eq_refl) as (r & Hr & _ & _ & Hempty).
  exists r. split; [exact Hr|]. apply Hempty.
  intros t ->%list_elem_of_singleton. split; discriminate.
Defined.

(** *** Credentials *)

(** X9. The one way [executeCallback] throws: both calls resolve and the
    identity lookup resolves with [undefined] or [null], whose [email] is
    then read outside the [try] blocks.  The error is the [TypeError] of
    that read, which names [undefined] or [null] as the case may be. *)
Theorem executeCallback_throws_only_on_empty_identity this net callbackObject e :
  executeCallback this net callbackObject = Throw e
  ↔ ∃ tokens userInfo,
      oauth_token net (getSecretTokenHeader this)
        (Form.toString (executeCallback_params this callbackObject)) = Resolved tokens
      ∧ (∃ access_token,
           get_prop tokens "access_token" = Ok access_token
           ∧ meta_whoami net (getAccessTokenHeader this access_token) = Resolved userInfo)
      ∧ ((userInfo = VUndefined
          ∧ e = TypeError "Cannot read properties of undefined (reading 'email')")
         ∨ (userInfo = VNull
            ∧ e = TypeError "Cannot read properties of null (reading 'email')")).
Proof.
  unfold executeCallback, executeCallback_request.
  destruct (oauth_token net _ _) as [tokens|f] eqn:Htoken.
  - destruct (get_prop tokens "access_token") as [access_token|e'] eqn:Haccess; cbn.
    + destruct (meta_whoami net _) as [userInfo|f] eqn:Hwho; cbn.
      * assert (Hprops : ∀ key, ∃ v, get_prop tokens key = Ok v).
        { intros key. destruct tokens; try discriminate; cbn; eauto. }
        destruct (Hprops "expires_in") as [expires_in ->].
        destruct (Hprops "refresh_token") as [refresh_token ->]. cbn.
        split.
        -- intros Hthrow. exists tokens, userInfo. split; [reflexivity|].
           split; [exists access_token; split; [exact Haccess|exact Hwho]|].
           destruct userInfo; cbn in Hthrow; try discriminate;
             injection Hthrow as <-; [left|right]; split; reflexivity.
        -- intros (tokens' & userInfo' & [= <-] & (a & Ha & Hwho') & Hnull).
           rewrite Haccess in Ha. injection Ha as <-.
           rewrite Hwho in Hwho'. injection Hwho' as <-.
           destruct Hnull as [[-> ->] | [-> ->]]; reflexivity.
      * split; [discriminate|].
        intros (tokens' & userInfo' & [= <-] & (a & Ha & Hwho') & _).
        rewrite Haccess in Ha. injection Ha as <-.
        rewrite Hwho in Hwho'. discriminate.
    + split; [discriminate|].
      intros (tokens' & userInfo' & [= <-] & (a & Ha & _) & _).
      rewrite Haccess in Ha. discriminate.
  - split; [discriminate|]. intros (tokens & userInfo & Hres & _). discriminate.
Qed.

Lemma executeCallback_throws_only_on_empty_identity_witness :
  executeCallback Samples.service
    (Samples.remote_with [] [] (Resolved (VObj Samples.tokens)) (Resolved VNull))
    Samples.callback
  = Throw (TypeError "Cannot read properties of null (reading 'email')").
Proof.
  apply (executeCallback_throws_only_on_empty_identity Samples.service
           (Samples.remote_with [] [] (Resolved (VObj Samples.tokens)) (Resolved VNull))
           Samples.callback).
  exists (VObj Samples.tokens), VNull. split; [reflexivity|].
  split; [exists (VStr "at"); split; reflexivity|].
  right. split; reflexivity.
Defined.



(* ===================================================================== *)
(** ** Further properties of [getChatsDictionary]                         *)
(* ===================================================================== *)

Lemma chatsSet_has_spec chatsSet id :
  Telegram.chatsSet_has chatsSet id = true ↔ id ∈ chatsSet.*1.
Proof.
  unfold Telegram.chatsSet_has. rewrite existsb_exists, list_elem_of_fmap. split.
  - intros ([k item] & Hin & Heq). apply Z.eqb_eq in Heq. cbn in Heq. subst k.
    exists (id, item). split; [reflexivity|apply list_elem_of_In, Hin].
  - intros ([k item] & -> & Hin). exists (k, item).
    split; [apply list_elem_of_In, Hin|apply Z.eqb_refl].
Qed.

Ltac listed_entry chat Hfresh :=
  exists chat; eexists;
  split; [reflexivity|]; split; [exact Hfresh|]; split; [|reflexivity]; reflexivity.

(** A visit leaves the map as it is or appends an entry for the chat of
    the update, which was not in the map. *)
Lemma visit_outcome search chatsSet update search' chatsSet' :
  Telegram.visit (search, chatsSet) update = Ok (search', chatsSet') →
  chatsSet' = chatsSet
  ∨ ∃ chat item,
      Telegram.message_chat update = Some chat
      ∧ (Telegram.chat_id chat ∉ chatsSet.*1)
      ∧ Telegram.value_ item = pretty (Telegram.chat_id chat)
      ∧ chatsSet' = chatsSet ++ [(Telegram.chat_id chat, item)].
Proof.
  unfold Telegram.visit.
  destruct (Telegram.message_chat update) as [chat|]; [|intros [= <- <-]; left; reflexivity].
  destruct (Telegram.chatsSet_has chatsSet (Telegram.chat_id chat)) eqn:Hhas;
    [intros [= <- <-]; left; reflexivity|].
  assert (Hfresh : Telegram.chat_id chat ∉ (chatsSet.*1)).
  { intros Hin%chatsSet_has_spec. congruence. }
  destruct (String.eqb search "").
  - intros [= <- <-]. right. listed_entry chat Hfresh.
  - destruct (String.eqb (Telegram.chat_type chat) "private").
    + destruct (Telegram.searchInText (Telegram.username chat) _) as [[|]|]; cbn;
        try discriminate.
      * intros [= <- <-]. right. listed_entry chat Hfresh.
      * destruct (Utils.includes _ _); intros [= <- <-].
        -- right. listed_entry chat Hfresh.
        -- left. reflexivity.
    + destruct (Telegram.searchInText (Telegram.title chat) _) as [[|]|]; cbn;
        try discriminate; intros [= <- <-].
      * right. listed_entry chat Hfresh.
      * left. reflexivity.
Qed.

Lemma chats_snoc updates update :
  More.chats (updates ++ [update])
  = More.chats updates ++ option_list (Telegram.message_chat update).
Proof.
  unfold More.chats. rewrite omap_app. cbn.
  destruct (Telegram.message_chat update); reflexivity.
Qed.

Lemma forEach_visit_listed updates :
  ∀ seen search chatsSet search' chatsSet',
    More.chats_listed seen chatsSet →
    Telegram.forEach Telegram.visit (search, chatsSet) updates = Ok (search', chatsSet') →
    More.chats_listed (seen ++ More.chats updates) chatsSet'.
Proof.
  induction updates as [|update updates IH];
    intros seen search chatsSet search' chatsSet' Hlisted.
  - intros [= <- <-]. unfold More.chats. cbn. rewrite app_nil_r. exact Hlisted.
  - cbn [Telegram.forEach].
    destruct (Telegram.visit (search, chatsSet) update) as [[search1 chatsSet1]|e] eqn:Hvisit;
      intros Hrest; [|discriminate Hrest].
    change (Telegram.forEach Telegram.visit (search1, chatsSet1) updates
            = Ok (search', chatsSet')) in Hrest.
    replace (seen ++ More.chats (update :: updates))
      with ((seen ++ option_list (Telegram.message_chat update)) ++ More.chats updates)
      by (unfold More.chats; cbn; destruct (Telegram.message_chat update);
          rewrite <- app_assoc; reflexivity).
    apply (IH _ search1 chatsSet1 search' chatsSet'); [|exact Hrest].
    destruct Hlisted as [Hnodup Hitems].
    apply visit_outcome in Hvisit
      as [-> | (chat & item & Hchat & Hfresh & Hvalue & ->)].
    + split; [exact Hnodup|]. intros id item Hin.
      destruct (Hitems id item Hin) as (Hvalue & c & Hc & Hid).
      split; [exact Hvalue|]. exists c. split; [|exact Hid].
      apply elem_of_app. left. exact Hc.
    + rewrite Hchat. cbn. split.
      * rewrite fmap_app. apply NoDup_app. split_and!.
        -- exact Hnodup.
        -- intros id Hin ->%list_elem_of_singleton. apply Hfresh, Hin.
        -- apply NoDup_singleton.
      * intros id it [Hin | Hin%list_elem_of_singleton]%elem_of_app.
        -- destruct (Hitems id it Hin) as (Hv & c & Hc & Hid).
           split; [exact Hv|]. exists c. split; [|exact Hid].
           apply elem_of_app. left. exact Hc.
        -- injection Hin as -> ->. split; [exact Hvalue|].
           exists chat. split; [|reflexivity].
           apply elem_of_app. right. apply list_elem_of_singleton. reflexivity.
Qed.

Lemma listed_values chatsSet seen :
  More.chats_listed seen chatsSet →
  Telegram.value_ <$> chatsSet.*2 = pretty <$> chatsSet.*1.
Proof.
  intros [_ Hitems]. induction chatsSet as [|[id item] chatsSet IH]; [reflexivity|].
  cbn. f_equal.
  - apply (Hitems id item). left.
  - apply IH. intros id' item' Hin. apply Hitems. right. exact Hin.
Qed.

(** X13. The items of [getChatsDictionary] stand for distinct chats: no two
    items carry the same value, and the value of each item is the decimal
    id of a chat of one of the updates received. *)
Theorem getChatsDictionary_lists_each_chat_once net payload r :
  Telegram.getChatsDictionary net payload = Ok r →
  NoDup (Telegram.value_ <$> Telegram.items r)
  ∧ ∃ updates,
      Telegram.getUpdates net (Telegram.cursor_or_0 payload) = Telegram.Resolved updates
      ∧ ∀ item, item ∈ Telegram.items r →
          ∃ chat, chat ∈ More.chats updates
                  ∧ Telegram.value_ item = pretty (Telegram.chat_id chat).
Proof.
  unfold Telegram.getChatsDictionary.
  destruct (Telegram.getUpdates net _) as [updates|rej] eqn:Hnet; cbn;
    [|destruct (Telegram.body rej) as [[? ?]|]; discriminate].
  destruct (Telegram.forEach _ _ updates) as [[search chatsSet]|e] eqn:Hloop; cbn;
    [|discriminate].
  intros [= <-]. cbn [Telegram.items].
  assert (Hlisted : More.chats_listed ([] ++ More.chats updates) chatsSet).
  { eapply forEach_visit_listed; [|exact Hloop].
    split; [constructor|]. intros id item Hin. inversion Hin. }
  cbn in Hlisted. split.
  - rewrite (listed_values _ _ Hlisted). apply (NoDup_fmap_2 _), Hlisted.
  - exists updates. split; [reflexivity|].
    intros item ([id item'] & -> & Hin)%list_elem_of_fmap.
    destruct Hlisted as [_ Hitems].
    destruct (Hitems id item' Hin) as (Hvalue & chat & Hchat & <-).
    exists chat. split; [exact Hchat|exact Hvalue].
Qed.

Lemma getChatsDictionary_lists_each_chat_once_witness :
  NoDup (Telegram.value_ <$> [ {| Telegram.value_ := "7";
                                  Telegram.label := "Alice undefined (private)";
                                  Telegram.note := "ID: 7, @undefined" |};
                               {| Telegram.value_ := "-100";
                                  Telegram.label := "Team (group)";
                                  Telegram.note := "ID: -100" |} ])
  ∧ ∃ updates,
      Telegram.getUpdates
        (More.bot [More.from More.alice; More.from More.team; More.from More.alice])
        (Telegram.cursor_or_0 None) = Telegram.Resolved updates
      ∧ ∀ item,
          item ∈ [ {| Telegram.value_ := "7";
                      Telegram.label := "Alice undefined (private)";
                      Telegram.note := "ID: 7, @undefined" |};
                   {| Telegram.value_ := "-100";
                      Telegram.label := "Team (group)";
                      Telegram.note := "ID: -100" |} ] →
          ∃ chat, chat ∈ More.chats updates
                  ∧ Telegram.value_ item = pretty (Telegram.chat_id chat).
Proof.
  apply (getChatsDictionary_lists_each_chat_once
           (More.bot [More.from More.alice; More.from More.team; More.from More.alice])
           None
           {| Telegram.next_cursor := Some (Telegram.CNum 1);
              Telegram.items :=
                [ {| Telegram.value_ := "7";
                     Telegram.label := "Alice undefined (private)";
                     Telegram.note := "ID: 7, @undefined" |};
                  {| Telegram.value_ := "-100";
                     Telegram.label := "Team (group)";
                     Telegram.note := "ID: -100" |} ] |}).
  reflexivity.
Defined.

Lemma visit_blank chatsSet update :
  ∃ chatsSet',
    Telegram.visit ("", chatsSet) update = Ok ("", chatsSet')
    ∧ (∀ id, id ∈ chatsSet.*1 → id ∈ chatsSet'.*1)
    ∧ ∀ chat, Telegram.message_chat update = Some chat →
        Telegram.chat_id chat ∈ chatsSet'.*1.
Proof.
  unfold Telegram.visit.
  destruct (Telegram.message_chat update) as [chat|].
  - destruct (Telegram.chatsSet_has chatsSet (Telegram.chat_id chat)) eqn:Hhas.
    + exists chatsSet. split_and!; [reflexivity|tauto|].
      intros c [= <-]. apply chatsSet_has_spec, Hhas.
    + cbn [String.eqb]. eexists. split_and!; [reflexivity| |].
      * intros id Hid. rewrite fmap_app. apply elem_of_app. left. exact Hid.
      * intros c [= <-]. rewrite fmap_app. apply elem_of_app. right.
        apply list_elem_of_singleton. reflexivity.
  - exists chatsSet. split_and!; [reflexivity|tauto|discriminate].
Qed.

Lemma forEach_visit_blank updates :
  ∀ chatsSet,
    ∃ chatsSet',
      Telegram.forEach Telegram.visit ("", chatsSet) updates = Ok ("", chatsSet')
      ∧ (∀ id, id ∈ chatsSet.*1 → id ∈ chatsSet'.*1)
      ∧ ∀ chat, chat ∈ More.chats updates → Telegram.chat_id chat ∈ chatsSet'.*1.
Proof.
  induction updates as [|update updates IH]; intros chatsSet.
  - exists chatsSet. split_and!; [reflexivity|tauto|].
    intros chat Hchat. inversion Hchat.
  - destruct (visit_blank chatsSet update) as (chatsSet1 & Hvisit & Hmono1 & Hchat1).
    destruct (IH chatsSet1) as (chatsSet' & Hloop & Hmono & Hall).
    exists chatsSet'. split_and!.
    + cbn [Telegram.forEach]. rewrite Hvisit. exact Hloop.
    + intros id Hid. apply Hmono, Hmono1, Hid.
    + unfold More.chats in *. cbn [omap list_omap].
      destruct (Telegram.message_chat update) as [chat|]; [|exact Hall].
      intros c [->|Hc]%elem_of_cons; [|apply Hall, Hc].
      apply Hmono, Hchat1. reflexivity.
Qed.

(** X14. Without a search string ([search] missing, empty or blank) the
    listing does not fail once the updates are received, and no chat is
    left out: each chat of the updates has an item, whose value is its
    decimal id. *)
Theorem getChatsDictionary_without_search_lists_every_chat net payload updates :
  Telegram.getUpdates net (Telegram.cursor_or_0 payload) = Telegram.Resolved updates →
  More.blank (payload ≫= Telegram.search) →
  ∃ r,
    Telegram.getChatsDictionary net payload = Ok r
    ∧ ∀ chat, chat ∈ More.chats updates →
        pretty (Telegram.chat_id chat) ∈ Telegram.value_ <$> Telegram.items r.
Proof.
  intros Hnet Hblank. unfold Telegram.getChatsDictionary.
  rewrite Hnet. unfold More.blank in Hblank. rewrite Hblank.
  destruct (forEach_visit_blank updates []) as (chatsSet & Hloop & _ & Hall).
  cbn. rewrite Hloop. cbn. eexists. split; [reflexivity|]. cbn [Telegram.items].
  assert (Hlisted : More.chats_listed ([] ++ More.chats updates) chatsSet).
  { eapply forEach_visit_listed; [|exact Hloop].
    split; [constructor|]. intros id item Hin. inversion Hin. }
  intros chat Hchat.
  change (snd <$> chatsSet) with (chatsSet.*2).
  rewrite (listed_values _ _ Hlisted).
  apply list_elem_of_fmap_2, Hall, Hchat.
Qed.

Lemma getChatsDictionary_without_search_lists_every_chat_witness :
  ∃ r,
    Telegram.getChatsDictionary
      (More.bot [More.from More.alice; More.from More.team])
      (Some {| Telegram.search := Some "  "; Telegram.cursor := None |}) = Ok r
    ∧ ∀ chat, chat ∈ More.chats [More.from More.alice; More.from More.team] →
        pretty (Telegram.chat_id chat) ∈ Telegram.value_ <$> Telegram.items r.
Proof.
  apply (getChatsDictionary_without_search_lists_every_chat
           (More.bot [More.from More.alice; More.from More.team])
           (Some {| Telegram.search := Some "  "; Telegram.cursor := None |})
           [More.from More.alice; More.from More.team]); reflexivity.
Defined.

Lemma visit_search_throws search update chat :
  search ≠ "" →
  Telegram.message_chat update = Some chat →
  (Telegram.chat_type chat = "private" ∧ Telegram.username chat = None)
  ∨ (Telegram.chat_type chat ≠ "private" ∧ Telegram.title chat = None) →
  Telegram.visit (search, []) update
  = Throw (TypeError "Cannot read properties of undefined (reading 'toLowerCase')").
Proof.
  intros Hsearch%String.eqb_neq Hchat Hnames. unfold Telegram.visit.
  rewrite Hchat. cbn [Telegram.chatsSet_has existsb]. rewrite Hsearch.
  destruct Hnames as [[Htype Hname] | [Htype Hname]].
  - rewrite Htype, Hname. reflexivity.
  - apply String.eqb_neq in Htype. rewrite Htype, Hname. reflexivity.
Qed.

(** X15. A search needs the names it looks at: when the first update is from a
    private chat without a [username], or from another chat without a
    [title], a call with a search string that is not white space alone
    throws a [TypeError] and lists nothing. *)
Theorem getChatsDictionary_search_needs_names net payload update rest chat :
  Telegram.getUpdates net (Telegram.cursor_or_0 payload)
  = Telegram.Resolved (update :: rest) →
  Telegram.message_chat update = Some chat →
  ¬ More.blank (payload ≫= Telegram.search) →
  (Telegram.chat_type chat = "private" ∧ Telegram.username chat = None)
  ∨ (Telegram.chat_type chat ≠ "private" ∧ Telegram.title chat = None) →
  Telegram.getChatsDictionary net payload
  = Throw (TypeError "Cannot read properties of undefined (reading 'toLowerCase')").
Proof.
  intros Hnet Hchat Hsearch Hnames. unfold Telegram.getChatsDictionary.
  rewrite Hnet. cbn [Telegram.apiRequest mbind result_bind Js.bind Telegram.forEach].
  rewrite (visit_search_throws _ update chat Hsearch Hchat Hnames). reflexivity.
Qed.

Lemma getChatsDictionary_search_needs_names_witness :
  Telegram.getChatsDictionary (More.bot [More.from More.alice; More.from More.team])
    (Some {| Telegram.search := Some "ali"; Telegram.cursor := None |})
  = Throw (TypeError "Cannot read properties of undefined (reading 'toLowerCase')").
Proof.
  apply (getChatsDictionary_search_needs_names
           (More.bot [More.from More.alice; More.from More.team])
           (Some {| Telegram.search := Some "ali"; Telegram.cursor := None |})
           (More.from More.alice) [More.from More.team] More.alice).
  - reflexivity.
  - reflexivity.
  - discriminate.
  - left. split; reflexivity.
Defined.

(** White space is more than the ASCII one: a search of no-break and
    ideographic spaces is no search, and every chat is listed; around a
    word they are trimmed off, and the search is made. *)
Example trim_strips_wide_spaces :
  Telegram.trim (More.nbsp +:+ " ali" +:+ More.ideographic_space +:+ More.nbsp) = "ali"
  ∧ More.blank (Some (More.nbsp +:+ More.ideographic_space)).
Proof. split; reflexivity. Qed.

Example getChatsDictionary_wide_spaces :
  Telegram.getChatsDictionary (More.bot [More.from More.alice])
    (Some {| Telegram.search := Some More.nbsp; Telegram.cursor := None |})
  = Ok {| Telegram.next_cursor := Some (Telegram.CNum 1);
          Telegram.items :=
            [ {| Telegram.value_ := "7"; Telegram.label := "Alice undefined (private)";
                 Telegram.note := "ID: 7, @undefined" |} ] |}
  ∧ Telegram.getChatsDictionary (More.bot [More.from More.alice])
      (Some {| Telegram.search := Some (More.nbsp +:+ "ali"); Telegram.cursor := None |})
    = Throw (TypeError "Cannot read properties of undefined (reading 'toLowerCase')").
Proof. split; reflexivity. Qed.

(* ===================================================================== *)
(** ** The Telegram requests                                              *)
(* ===================================================================== *)

(** X16. [cleanupObject] removes exactly the keys that hold [undefined] or
    [null]: every other key keeps its value, no key is added, and cleaning
    a cleaned object changes nothing. *)
Theorem cleanupObject_removes_empty_values (data : gmap string value) :
  ∃ cleaned,
    Bot.cleanupObject (Some data) = Some cleaned
    ∧ (∀ key,
         cleaned !! key
         = match data !! key with
           | Some v => if Bot.is_nullish v then None else Some v
           | None => None
           end)
    ∧ Bot.cleanupObject (Some cleaned) = Some cleaned.
Proof.
  eexists. split; [reflexivity|]. split.
  - intros key. rewrite map_lookup_filter.
    destruct (data !! key) as [v|]; [|reflexivity]. cbn.
    destruct (Bot.is_nullish v) eqn:Hv.
    + rewrite option_guard_False; [reflexivity|]. cbn. congruence.
    + rewrite option_guard_True; reflexivity.
  - cbn. f_equal. apply map_eq. intros key. rewrite !map_lookup_filter.
    destruct (data !! key) as [v|]; [|reflexivity]. cbn.
    destruct (Bot.is_nullish v) eqn:Hv.
    + rewrite option_guard_False; [reflexivity|]. cbn. congruence.
    + rewrite option_guard_True by reflexivity. cbn.
      rewrite option_guard_True; [reflexivity|]. exact Hv.
Qed.

Lemma set_if_defined_lookup k x data key v :
  Bot.set_if_defined k x data !! key = Some v →
  (key = k ∧ v = x ∧ x ≠ VUndefined) ∨ data !! key = Some v.
Proof.
  unfold Bot.set_if_defined.
  destruct x; try (intros H; right; exact H);
    (destruct (decide (k = key)) as [->|Hne];
     [rewrite lookup_insert_eq; intros [= <-]; left; split_and!; [reflexivity..|discriminate]
     |rewrite lookup_insert_ne by exact Hne; intros H; right; exact H]).
Qed.

Lemma set_if_truthy_lookup k x data key v :
  Bot.set_if_truthy k x data !! key = Some v →
  (key = k ∧ v = x ∧ truthy x = true) ∨ data !! key = Some v.
Proof.
  unfold Bot.set_if_truthy. destruct (truthy x) eqn:Hx; [|intros H; right; exact H].
  destruct (decide (k = key)) as [->|Hne].
  - rewrite lookup_insert_eq. intros [= <-]. left. split_and!; reflexivity || exact Hx.
  - rewrite lookup_insert_ne by exact Hne. intros H. right. exact H.
Qed.

(** X17. The request of [getUpdates]: a GET whose query holds no [undefined]
    and no [null], only the keys [offset], [limit] and [timeout]; an
    omitted [limit] is sent as 100 and an omitted [timeout] as 0, while a
    [null] one is not sent; [offset] is sent when it is given. *)
Theorem getUpdates_request botToken offset limit timeout :
  ∃ query,
    (∀ api,
       Bot.getUpdates botToken api offset limit timeout
       = Telegram.apiRequest
           (Bot.send api {| Bot.req_method := "get";
                            Bot.req_url := Bot.endpoint botToken "getUpdates";
                            Bot.req_query := Some query;
                            Bot.req_body := None |}))
    ∧ (∀ key v, query !! key = Some v →
         Bot.is_nullish v = false ∧ key ∈ ["offset"; "limit"; "timeout"])
    ∧ query !! "offset" = (if Bot.is_nullish offset then None else Some offset)
    ∧ query !! "limit"
      = match limit with
        | VUndefined => Some (VNum 100)
        | _ => if Bot.is_nullish limit then None else Some limit
        end
    ∧ query !! "timeout"
      = match timeout with
        | VUndefined => Some (VNum 0)
        | _ => if Bot.is_nullish timeout then None else Some timeout
        end.
Proof.
  eexists. split; [intros api; reflexivity|]. split.
  - intros key v [Hin Hv]%map_lookup_filter_Some. split; [exact Hv|].
    unfold Bot.getUpdates_params in Hin.
    apply set_if_defined_lookup in Hin as [(-> & _) | Hin]; [set_solver|].
    apply set_if_defined_lookup in Hin as [(-> & _) | Hin]; [set_solver|].
    apply set_if_defined_lookup in Hin as [(-> & _) | Hin]; [set_solver|].
    rewrite lookup_empty in Hin. discriminate.
  - split_and!.
    + rewrite map_lookup_filter. unfold Bot.getUpdates_params.
      destruct limit, timeout, offset; reflexivity.
    + rewrite map_lookup_filter. unfold Bot.getUpdates_params.
      destruct limit, timeout, offset; reflexivity.
    + rewrite map_lookup_filter. unfold Bot.getUpdates_params.
      destruct limit, timeout, offset; reflexivity.
Qed.

(** X18. [sendMessage] posts [chat_id] and [text] as given and, of the four
    options, exactly the truthy ones, each under its own key with the
    value given: a [false] flag or a reply id of 0 is left out, and no
    other key is sent. [editMessageText] posts [chat_id], [message_id] and
    [text], [parse_mode] when it is truthy, and differs on
    [disableWebPagePreview], which it sends whenever it is defined, [false]
    included. *)
Theorem sendMessage_sends_only_truthy_options botToken
    chatId text parseMode disableWebPagePreview disableNotification replyToMessageId :
  (∃ data,
     (∀ api,
        Bot.sendMessage botToken api chatId text parseMode disableWebPagePreview
          disableNotification replyToMessageId
        = Telegram.apiRequest
            (Bot.send api {| Bot.req_method := "post";
                             Bot.req_url := Bot.endpoint botToken "sendMessage";
                             Bot.req_query := None;
                             Bot.req_body := Some data |}))
     ∧ data !! "chat_id" = Some chatId
     ∧ data !! "text" = Some text
     ∧ data !! "parse_mode" = (if truthy parseMode then Some parseMode else None)
     ∧ data !! "disable_web_page_preview"
       = (if truthy disableWebPagePreview then Some disableWebPagePreview else None)
     ∧ data !! "disable_notification"
       = (if truthy disableNotification then Some disableNotification else None)
     ∧ data !! "reply_to_message_id"
       = (if truthy replyToMessageId then Some replyToMessageId else None)
     ∧ (∀ key v, data !! key = Some v →
          key = "chat_id" ∨ key = "text"
          ∨ (truthy v = true
             ∧ ((key = "parse_mode" ∧ v = parseMode)
                ∨ (key = "disable_web_page_preview" ∧ v = disableWebPagePreview)
                ∨ (key = "disable_notification" ∧ v = disableNotification)
                ∨ (key = "reply_to_message_id" ∧ v = replyToMessageId)))))
  ∧ ∀ messageId,
      ∃ editData,
        (∀ api,
           Bot.editMessageText botToken api chatId messageId text parseMode
             disableWebPagePreview
           = Telegram.apiRequest
               (Bot.send api {| Bot.req_method := "post";
                                Bot.req_url := Bot.endpoint botToken "editMessageText";
                                Bot.req_query := None;
                                Bot.req_body := Some editData |}))
        ∧ editData !! "chat_id" = Some chatId
        ∧ editData !! "message_id" = Some messageId
        ∧ editData !! "text" = Some text
        ∧ editData !! "parse_mode" = (if truthy parseMode then Some parseMode else None)
        ∧ editData !! "disable_web_page_preview"
          = match disableWebPagePreview with
            | VUndefined => None
            | _ => Some disableWebPagePreview
            end
        ∧ ∀ key, is_Some (editData !! key) →
            key ∈ ["chat_id"; "message_id"; "text"; "parse_mode";
                   "disable_web_page_preview"].
Proof.
  split.
  - eexists. split; [intros api; reflexivity|].
    unfold Bot.sendMessage_data. split_and!.
    + unfold Bot.set_if_truthy.
      destruct (truthy replyToMessageId), (truthy disableNotification),
        (truthy disableWebPagePreview), (truthy parseMode); reflexivity.
    + unfold Bot.set_if_truthy.
      destruct (truthy replyToMessageId), (truthy disableNotification),
        (truthy disableWebPagePreview), (truthy parseMode); reflexivity.
    + unfold Bot.set_if_truthy.
      destruct (truthy replyToMessageId), (truthy disableNotification),
        (truthy disableWebPagePreview), (truthy parseMode); reflexivity.
    + unfold Bot.set_if_truthy.
      destruct (truthy replyToMessageId), (truthy disableNotification),
        (truthy disableWebPagePreview), (truthy parseMode); reflexivity.
    + unfold Bot.set_if_truthy.
      destruct (truthy replyToMessageId), (truthy disableNotification),
        (truthy disableWebPagePreview), (truthy parseMode); reflexivity.
    + unfold Bot.set_if_truthy.
      destruct (truthy replyToMessageId), (truthy disableNotification),
        (truthy disableWebPagePreview), (truthy parseMode); reflexivity.
    + intros key v Hin.
      apply set_if_truthy_lookup in Hin as [(-> & -> & Ht) | Hin]; [tauto|].
      apply set_if_truthy_lookup in Hin as [(-> & -> & Ht) | Hin]; [tauto|].
      apply set_if_truthy_lookup in Hin as [(-> & -> & Ht) | Hin]; [tauto|].
      apply set_if_truthy_lookup in Hin as [(-> & -> & Ht) | Hin]; [tauto|].
      apply lookup_insert_Some in Hin as [[<- _] | [_ Hin]]; [tauto|].
      apply lookup_insert_Some in Hin as [[<- _] | [_ Hin]]; [tauto|].
      rewrite lookup_empty in Hin. discriminate.
  - intros messageId. eexists. split; [intros api; reflexivity|].
    unfold Bot.editMessageText_data. split_and!.
    + unfold Bot.set_if_truthy.
      destruct disableWebPagePreview, (truthy parseMode); reflexivity.
    + unfold Bot.set_if_truthy.
      destruct disableWebPagePreview, (truthy parseMode); reflexivity.
    + unfold Bot.set_if_truthy.
      destruct disableWebPagePreview, (truthy parseMode); reflexivity.
    + unfold Bot.set_if_truthy.
      destruct disableWebPagePreview, (truthy parseMode); reflexivity.
    + unfold Bot.set_if_truthy.
      destruct disableWebPagePreview, (truthy parseMode); reflexivity.
    + intros key [v Hin].
      apply set_if_defined_lookup in Hin as [(-> & _) | Hin];
        [apply list_elem_of_In; cbn; tauto|].
      apply set_if_truthy_lookup in Hin as [(-> & _) | Hin];
        [apply list_elem_of_In; cbn; tauto|].
      apply lookup_insert_Some in Hin as [[<- _] | [_ Hin]];
        [apply list_elem_of_In; cbn; tauto|].
      apply lookup_insert_Some in Hin as [[<- _] | [_ Hin]];
        [apply list_elem_of_In; cbn; tauto|].
      apply lookup_insert_Some in Hin as [[<- _] | [_ Hin]];
        [apply list_elem_of_In; cbn; tauto|].
      rewrite lookup_empty in Hin. discriminate.
Qed.

Lemma getUpdates_request_witness :
  ∃ query,
    (∀ api,
       Bot.getUpdates "123:abc" api VUndefined VNull VUndefined
       = Telegram.apiRequest
           (Bot.send api {| Bot.req_method := "get";
                            Bot.req_url := "https://api.telegram.org/bot123:abc/getUpdates";
                            Bot.req_query := Some query;
                            Bot.req_body := None |}))
    ∧ query !! "offset" = None
    ∧ query !! "limit" = None
    ∧ query !! "timeout" = Some (VNum 0)
    ∧ ∀ v, query !! "timeout" = Some v → Bot.is_nullish v = false.
Proof.
  destruct (getUpdates_request "123:abc" VUndefined VNull VUndefined)
    as (query & Hsend & Hclean & Hoffset & Hlimit & Htimeout).
  exists query. split_and!; try assumption.
  intros v Hv. apply (Hclean "timeout" v Hv).
Defined.

Lemma sendMessage_sends_only_truthy_options_witness :
  (∃ data,
     (∀ api,
        Bot.sendMessage "123:abc" api (VStr "7") (VStr "hi") VUndefined (VBool false)
          (VBool true) (VNum 0)
        = Telegram.apiRequest
            (Bot.send api {| Bot.req_method := "post";
                             Bot.req_url := "https://api.telegram.org/bot123:abc/sendMessage";
                             Bot.req_query := None;
                             Bot.req_body := Some data |}))
     ∧ data !! "chat_id" = Some (VStr "7")
     ∧ data !! "text" = Some (VStr "hi")
     ∧ data !! "parse_mode" = None
     ∧ data !! "disable_web_page_preview" = None
     ∧ data !! "disable_notification" = Some (VBool true)
     ∧ data !! "reply_to_message_id" = None)
  ∧ ∃ editData,
      (∀ api,
         Bot.editMessageText "123:abc" api (VStr "7") (VNum 5) (VStr "hi") VUndefined
           (VBool false)
         = Telegram.apiRequest
             (Bot.send api {| Bot.req_method := "post";
                              Bot.req_url :=
                                "https://api.telegram.org/bot123:abc/editMessageText";
                              Bot.req_query := None;
                              Bot.req_body := Some editData |}))
      ∧ editData !! "message_id" = Some (VNum 5)
      ∧ editData !! "disable_web_page_preview" = Some (VBool false).
Proof.
  destruct (sendMessage_sends_only_truthy_options "123:abc" (VStr "7") (VStr "hi")
              VUndefined (VBool false) (VBool true) (VNum 0))
    as [(data & Hsend & Hchat & Htext & Hparse & Hpreview & Hsilent & Hreply & _) Hedit].
  split.
  - exists data. split_and!; assumption.
  - destruct (Hedit (VNum 5))
      as (editData & Hsend' & _ & Hmessage & _ & _ & Hpreview' & _).
    exists editData. split_and!; assumption.
Defined.

(* ===================================================================== *)
(** ** The message trigger                                                *)
(* ===================================================================== *)

Lemma pretty_N_go_nonempty x s : s ≠ "" → pretty_N_go x s ≠ "".
Proof.
  revert s. induction (N.lt_wf_0 x) as [x _ IH]; intros s Hs.
  destruct (decide (x = 0)%N) as [->|Hx].
  - rewrite pretty_N_go_0. exact Hs.
  - rewrite pretty_N_go_step by lia. apply IH.
    + apply N.div_lt; lia.
    + discriminate.
Qed.

Lemma pretty_Z_nonempty (z : Z) : pretty z ≠ "".
Proof.
  assert (Hpos : ∀ p : positive, pretty p ≠ "").
  { intros p. unfold pretty, pretty_positive, pretty, pretty_N.
    rewrite decide_False by discriminate.
    rewrite pretty_N_go_step by lia. apply pretty_N_go_nonempty. discriminate. }
  destruct z as [|p|p]; unfold pretty, pretty_Z; [discriminate|apply Hpos|discriminate].
Qed.

Lemma activates_spec incoming trigger :
  Bot.activates incoming trigger = true
  ↔ Bot.data_chatId trigger = None ∨ Bot.data_chatId trigger = Some ""
    ∨ Bot.data_chatId trigger = Some (pretty incoming).
Proof.
  unfold Bot.activates, Actions.given.
  destruct (Bot.data_chatId trigger) as [chatId|]; [|tauto]. cbn.
  destruct (String.eqb_spec chatId "") as [->|Hne]; cbn.
  - tauto.
  - rewrite String.eqb_eq. split.
    + intros ->. tauto.
    + intros [? | [[= ->] | [= ->]]]; [discriminate|congruence|reflexivity].
Qed.

(** X19. The trigger filter of [onMessage]: of the registered triggers, in
    their order, the ids of those that name no chat ([chatId] missing or
    empty) and of those whose [chatId] is the decimal id of the chat the
    message came from. *)
Theorem onMessage_selects_triggers (registered : list Bot.Trigger) (incoming : Z) :
  ∃ selected,
    Bot.onMessage Bot.FILTER_TRIGGER
      (Bot.Invocation {| Bot.triggers := registered;
                         Bot.eventData_message_chat_id := incoming |})
    = Ok (Bot.Ids (Bot.trigger_id <$> selected))
    ∧ selected `sublist_of` registered
    ∧ ∀ t, t ∈ selected
           ↔ t ∈ registered
             ∧ (Bot.data_chatId t = None ∨ Bot.data_chatId t = Some ""
                ∨ Bot.data_chatId t = Some (pretty incoming)).
Proof.
  exists (List.filter (Bot.activates incoming) registered). split_and!.
  - reflexivity.
  - induction registered as [|t registered IH]; [constructor|].
    cbn. destruct (Bot.activates incoming t);
      [apply sublist_skip|apply sublist_cons]; exact IH.
  - intros t. rewrite list_elem_of_In, filter_In, <- list_elem_of_In, activates_spec.
    reflexivity.
Qed.

(** X20. The dictionary and the trigger agree on chat ids: a trigger set up
    with the value of an item of [getChatsDictionary] is activated by the
    messages of the chat the item stands for, and by no message of a chat
    with another id. *)
Theorem dictionary_value_selects_its_chat net payload r item :
  Telegram.getChatsDictionary net payload = Ok r →
  item ∈ Telegram.items r →
  ∃ chat_id : Z,
    Telegram.value_ item = pretty chat_id
    ∧ ∀ trigger incoming,
        Bot.data_chatId trigger = Some (Telegram.value_ item) →
        Bot.onMessage Bot.FILTER_TRIGGER
          (Bot.Invocation {| Bot.triggers := [trigger];
                             Bot.eventData_message_chat_id := incoming |})
        = Ok (Bot.Ids (if decide (incoming = chat_id)
                       then [Bot.trigger_id trigger] else [])).
Proof.
  intros Hcall Hitem.
  unfold Telegram.getChatsDictionary in Hcall.
  destruct (Telegram.apiRequest _) as [updates|e]; [|discriminate]. cbn in Hcall.
  destruct (Telegram.forEach _ _ updates) as [[search chatsSet]|e] eqn:Hloop;
    [|discriminate].
  cbn in Hcall. injection Hcall as <-. cbn [Telegram.items] in Hitem.
  assert (Hlisted : More.chats_listed ([] ++ More.chats updates) chatsSet).
  { eapply forEach_visit_listed; [|exact Hloop].
    split; [constructor|]. intros id it Hin. inversion Hin. }
  apply list_elem_of_fmap in Hitem as ([id item'] & -> & Hin).
  destruct Hlisted as [_ Hitems]. destruct (Hitems id item' Hin) as [Hvalue _].
  exists id. split; [exact Hvalue|].
  intros trigger incoming Hchat. cbn. unfold Bot.activates, Actions.given.
  rewrite Hchat. cbn [snd] in Hvalue |- *. rewrite Hvalue. cbn.
  destruct (String.eqb_spec (pretty id) "") as [Hempty|_];
    [exfalso; exact (pretty_Z_nonempty id Hempty)|].
  cbn. destruct (decide (incoming = id)) as [->|Hne].
  - rewrite String.eqb_refl. reflexivity.
  - destruct (String.eqb_spec (pretty id) (pretty incoming)) as [Heq|_]; [|reflexivity].
    apply (inj pretty) in Heq. congruence.
Qed.

Lemma onMessage_selects_triggers_witness :
  ∃ selected,
    Bot.onMessage Bot.FILTER_TRIGGER
      (Bot.Invocation
         {| Bot.triggers :=
              [ {| Bot.trigger_id := "t1"; Bot.data_chatId := None |};
                {| Bot.trigger_id := "t2"; Bot.data_chatId := Some "8" |};
                {| Bot.trigger_id := "t3"; Bot.data_chatId := Some "7" |} ];
            Bot.eventData_message_chat_id := 7 |})
    = Ok (Bot.Ids (Bot.trigger_id <$> selected))
    ∧ {| Bot.trigger_id := "t3"; Bot.data_chatId := Some "7" |} ∈ selected.
Proof.
  destruct (onMessage_selects_triggers
              [ {| Bot.trigger_id := "t1"; Bot.data_chatId := None |};
                {| Bot.trigger_id := "t2"; Bot.data_chatId := Some "8" |};
                {| Bot.trigger_id := "t3"; Bot.data_chatId := Some "7" |} ] 7)
    as (selected & Hcall & _ & Hselected).
  exists selected. split; [exact Hcall|].
  apply Hselected. split.
  - do 2 right. left.
  - do 2 right. reflexivity.
Defined.

Lemma dictionary_value_selects_its_chat_witness :
  ∃ chat_id : Z,
    "7" = pretty chat_id
    ∧ ∀ trigger incoming,
        Bot.data_chatId trigger = Some "7" →
        Bot.onMessage Bot.FILTER_TRIGGER
          (Bot.Invocation {| Bot.triggers := [trigger];
                             Bot.eventData_message_chat_id := incoming |})
        = Ok (Bot.Ids (if decide (incoming = chat_id)
                       then [Bot.trigger_id trigger] else [])).
Proof.
  apply (dictionary_value_selects_its_chat
           (More.bot [More.from More.alice]) None
           {| Telegram.next_cursor := Some (Telegram.CNum 1);
              Telegram.items := [ {| Telegram.value_ := "7";
                                     Telegram.label := "Alice undefined (private)";
                                     Telegram.note := "ID: 7, @undefined" |} ] |}
           {| Telegram.value_ := "7";
              Telegram.label := "Alice undefined (private)";
              Telegram.note := "ID: 7, @undefined" |}).
  - reflexivity.
  - apply list_elem_of_singleton. reflexivity.
Defined.

(* ===================================================================== *)
(** ** The Airtable actions                                               *)
(* ===================================================================== *)

Lemma unreserved_byte c :
  Form.unreserved c = true →
  Ascii.eqb c "+" = false ∧ Ascii.eqb c "%" = false
  ∧ Ascii.eqb c "&" = false ∧ Ascii.eqb c "=" = false.
Proof. each_byte c; intros H; try discriminate H; split_and!; reflexivity. Qed.

Lemma plain_string s :
  More.plain s = true →
  Form.decode s = s ∧ Form.occurs "&" s = false ∧ Form.occurs "=" s = false.
Proof.
  induction s as [|c s IH]; [intros _; split_and!; reflexivity|].
  cbn [More.plain]. intros [Hc Hs]%andb_true_iff.
  destruct (unreserved_byte c Hc) as (Hplus & Hpct & Hamp & Heq).
  destruct (IH Hs) as (IHd & IHa & IHe).
  cbn [Form.decode Form.occurs]. rewrite Hplus, Hpct, Hamp, Heq, IHd, IHa, IHe.
  split_and!; reflexivity.
Qed.

(** X21. [deleteRecords] checks its ids before any request: an argument that
    is not an array (a single id, say) and an empty array both throw
    ["No record IDs provided for deletion."]. With ids made of
    alphanumerics and [* - . _], as Airtable's are, the query string of
    the DELETE reads back as one [records[]] parameter per id, in order. *)
Theorem deleteRecords_checks_and_lists_ids this api base table :
  (∀ v, Actions.deleteRecords this api base table (Actions.NotArray v)
        = Throw (Error "No record IDs provided for deletion."))
  ∧ Actions.deleteRecords this api base table (Actions.IdArray [])
    = Throw (Error "No record IDs provided for deletion.")
  ∧ ∀ ids,
      ids ≠ [] →
      Forall (λ id, More.plain id = true) ids →
      Form.parse (Actions.deleteRecords_queryString ids)
      = (λ id, ("records[]", id)) <$> ids
      ∧ Actions.deleteRecords this api base table (Actions.IdArray ids)
        = (result ← apiRequest
                       (Actions.delete_url api (getAccessTokenHeader this VUndefined)
                          (API_BASE_URL +:+ "/" +:+ base +:+ "/" +:+ table +:+ "?"
                           +:+ Actions.deleteRecords_queryString ids));
           get_prop result "records").
Proof.
  split_and!; [reflexivity..|].
  intros ids Hne Hplain. split.
  - unfold Form.parse, Actions.deleteRecords_queryString.
    rewrite split_on_join.
    + clear Hne. induction Hplain as [|id ids Hid _ IH]; [reflexivity|].
      destruct (plain_string id Hid) as (Hdec & _ & _).
      rewrite !fmap_cons. cbn [List.filter].
      replace (negb (String.eqb ("records[]=" +:+ id) "")) with true by reflexivity.
      rewrite fmap_cons, IH. f_equal.
      change ("records[]=" +:+ id) with ("records[]" +:+ "=" +:+ id).
      rewrite break_pair_app by reflexivity. rewrite Hdec. reflexivity.
    + destruct ids; [congruence|discriminate].
    + apply Forall_fmap. eapply Forall_impl; [exact Hplain|].
      intros id Hid. cbn. destruct (plain_string id Hid) as (_ & Hamp & _).
      rewrite occurs_app, Hamp. reflexivity.
  - unfold Actions.deleteRecords. destruct ids; [congruence|reflexivity].
Qed.

Lemma deleteRecords_checks_and_lists_ids_witness :
  Actions.deleteRecords Samples.service (More.api [] VNull) "a" "tbl1"
    (Actions.NotArray (VStr "rec1"))
  = Throw (Error "No record IDs provided for deletion.")
  ∧ Form.parse (Actions.deleteRecords_queryString ["rec1"; "rec2"])
    = [ ("records[]", "rec1"); ("records[]", "rec2") ].
Proof.
  destruct (deleteRecords_checks_and_lists_ids Samples.service (More.api [] VNull)
              "a" "tbl1") as (Hnot & _ & Hids).
  split; [apply Hnot|].
  apply (Hids ["rec1"; "rec2"]); [discriminate|].
  repeat constructor.
Defined.

(** X22. [updateTable] sends only what is to change and hides the fields of
    the reply: the body holds [name] and [description] only when the new
    value is a non-empty string, and the object returned is the reply
    without its [fields] key, every other key untouched. *)
Theorem updateTable_sends_changes_and_drops_fields this api base table
    newName newDescription (reply : gmap string value) :
  Actions.patch_table api (getAccessTokenHeader this VUndefined) base table
    (Actions.updateTable_body newName newDescription) = Resolved (VObj reply) →
  (∀ key v,
     Actions.updateTable_body newName newDescription !! key = Some v →
     ∃ text, v = VStr text ∧ text ≠ ""
             ∧ ((key = "name" ∧ newName = Some text)
                ∨ (key = "description" ∧ newDescription = Some text)))
  ∧ ∃ returned,
      Actions.updateTable this api base table newName newDescription
      = Ok (VObj returned)
      ∧ returned !! "fields" = None
      ∧ ∀ key, key ≠ "fields" → returned !! key = reply !! key.
Proof.
  intros Hreply. split.
  - intros key v. unfold Actions.updateTable_body, Actions.given.
    destruct newName as [name|], newDescription as [description|]; cbn;
      repeat match goal with
             | |- context [ String.eqb ?s "" ] =>
                 destruct (String.eqb_spec s "") as [->|?]; cbn
             end;
      rewrite ?lookup_insert_Some, ?lookup_empty; intros H;
      repeat match goal with
             | H : _ ∨ _ |- _ => destruct H
             | H : _ ∧ _ |- _ => destruct H
             end;
      try discriminate; subst; eexists; split_and!; eauto.
  - exists (delete "fields" reply). unfold Actions.updateTable.
    rewrite Hreply. split_and!.
    + reflexivity.
    + apply lookup_delete_eq.
    + intros key Hkey. apply lookup_delete_ne. congruence.
Qed.

Lemma updateTable_sends_changes_and_drops_fields_witness :
  ∃ returned,
    Actions.updateTable Samples.service
      (More.api [] (VObj (list_to_map [ ("id", VStr "tbl1"); ("name", VStr "Jobs");
                                        ("fields", VArr []) ])))
      "a" "tbl1" (Some "Jobs") (Some "")
    = Ok (VObj returned)
    ∧ returned !! "fields" = None
    ∧ returned !! "name" = Some (VStr "Jobs").
Proof.
  destruct (updateTable_sends_changes_and_drops_fields Samples.service
              (More.api [] (VObj (list_to_map [ ("id", VStr "tbl1");
                                                ("name", VStr "Jobs");
                                                ("fields", VArr []) ])))
              "a" "tbl1" (Some "Jobs") (Some "")
              (list_to_map [ ("id", VStr "tbl1"); ("name", VStr "Jobs");
                             ("fields", VArr []) ])
              eq_refl) as (_ & returned & Hcall & Hfields & Hkeys).
  exists returned. split_and!; [exact Hcall|exact Hfields|].
  rewrite (Hkeys "name") by discriminate. reflexivity.
Defined.

(** X23. [createOrUpdateRecord] updates only on exactly one match. Without a
    lookup field it throws before any request; so it does when
    [fields[lookupField]] is [undefined]: the key is there with that
    value, or it is neither among the fields nor a name every object
    inherits. Otherwise, whether the value is the fields' own or an
    inherited member such as [constructor], it lists up to two records:
    when the answer is one record, that record is updated and [isNew] is
    false; when it is none or several, a record is created and [isNew] is
    true. With an own value and no secondary field the listing asks for
    [<lookupField> = <the value as JSON>]; with an own secondary value too
    it asks for the [AND] of both comparisons. *)
Theorem createOrUpdateRecord_updates_on_a_single_match this api JSON_stringify
    base table lookupField secondaryLookupField (fields : gmap string value) :
  let upsert matches :=
    match matches with
    | [found] =>
        result ← Actions.updateRecord this api base table (rec_id found) fields;
        mret {| Actions.upserted := result; Actions.isNew := false |}
    | _ =>
        result ← Actions.createRecord this api base table fields;
        mret {| Actions.upserted := result; Actions.isNew := true |}
    end in
  (lookupField = "" →
   Actions.createOrUpdateRecord this api JSON_stringify base table lookupField
     secondaryLookupField fields
   = Throw (Error "Lookup field is required"))
  ∧ (lookupField ≠ "" →
     fields !! lookupField = Some VUndefined
     ∨ (fields !! lookupField = None ∧ lookupField ∉ Actions.Object_prototype) →
     Actions.createOrUpdateRecord this api JSON_stringify base table lookupField
       secondaryLookupField fields
     = Throw (Error ("Fields object must contain value by the lookupField="
                     +:+ quoted lookupField)))
  ∧ (∀ matches,
       lookupField ≠ "" →
       (∃ v, fields !! lookupField = Some v ∧ v ≠ VUndefined)
       ∨ (fields !! lookupField = None ∧ lookupField ∈ Actions.Object_prototype) →
       (∀ query,
          Actions.maxRecords query = Some 2%Z →
          Actions.get_records api (getAccessTokenHeader this VUndefined) base table query
          = Resolved (Some {| body_records := Some matches; records_offset := None |})) →
       Actions.createOrUpdateRecord this api JSON_stringify base table lookupField
         secondaryLookupField fields
       = upsert matches)
  ∧ (∀ v matches,
       lookupField ≠ "" → fields !! lookupField = Some v → v ≠ VUndefined →
       Actions.given secondaryLookupField = false →
       Actions.get_records api (getAccessTokenHeader this VUndefined) base table
         {| Actions.pageSize := None;
            Actions.maxRecords := Some 2%Z;
            Actions.filterByFormula := Some (lookupField +:+ " = " +:+ JSON_stringify v) |}
       = Resolved (Some {| body_records := Some matches; records_offset := None |}) →
       Actions.createOrUpdateRecord this api JSON_stringify base table lookupField
         secondaryLookupField fields
       = upsert matches)
  ∧ (∀ v second w matches,
       lookupField ≠ "" → fields !! lookupField = Some v → v ≠ VUndefined →
       secondaryLookupField = Some second → second ≠ "" →
       fields !! second = Some w → w ≠ VUndefined →
       Actions.get_records api (getAccessTokenHeader this VUndefined) base table
         {| Actions.pageSize := None;
            Actions.maxRecords := Some 2%Z;
            Actions.filterByFormula :=
              Some ("AND({" +:+ lookupField +:+ "} = " +:+ JSON_stringify v +:+ ", {"
                    +:+ second +:+ "} = " +:+ JSON_stringify w +:+ ")") |}
       = Resolved (Some {| body_records := Some matches; records_offset := None |}) →
       Actions.createOrUpdateRecord this api JSON_stringify base table lookupField
         secondaryLookupField fields
       = upsert matches).
Proof.
  intros upsert. unfold Actions.createOrUpdateRecord. split_and!.
  - intros ->. reflexivity.
  - intros Hne%String.eqb_neq Hundef. rewrite Hne. unfold Actions.read.
    destruct Hundef as [-> | [-> Hproto]]; [reflexivity|].
    rewrite bool_decide_eq_false_2 by exact Hproto. reflexivity.
  - intros matches Hne%String.eqb_neq Hdef Hlookup. rewrite Hne.
    assert (Hread : Actions.is_undefined (Actions.read fields lookupField) = false).
    { unfold Actions.read. destruct Hdef as [(v & -> & Hv) | [-> Hproto]].
      - destruct v; try reflexivity. congruence.
      - rewrite bool_decide_eq_true_2 by exact Hproto. reflexivity. }
    rewrite Hread. unfold Actions.findRecords. rewrite Hlookup by reflexivity.
    destruct matches as [|found [|]]; reflexivity.
  - intros v matches Hne%String.eqb_neq Hv Hdef Hnone Hlookup. rewrite Hne, Hnone.
    unfold Actions.read at 1 2. rewrite Hv.
    assert (Hread : Actions.is_undefined (Actions.Own v) = false).
    { destruct v; try reflexivity. congruence. }
    rewrite Hread.
    assert (Hjson : Actions.stringified JSON_stringify (Actions.Own v) = JSON_stringify v).
    { destruct v; try reflexivity. congruence. }
    rewrite Hjson. unfold Actions.findRecords, Actions.findRecords_query.
    assert (Hgiven : Actions.given (Some (lookupField +:+ " = " +:+ JSON_stringify v))
                     = true).
    { unfold Actions.given. apply negb_true_iff, String.eqb_neq.
      destruct lookupField; [discriminate|discriminate]. }
    rewrite Hgiven. cbn [Z.eqb]. rewrite Hlookup.
    destruct matches as [|found [|]]; reflexivity.
  - intros v second w matches Hne%String.eqb_neq Hv Hdef -> Hsecond Hw Hwdef Hlookup.
    rewrite Hne.
    assert (Hgiven2 : Actions.given (Some second) = true).
    { unfold Actions.given. apply negb_true_iff, String.eqb_neq, Hsecond. }
    rewrite Hgiven2. change (template (Some second)) with second.
    unfold Actions.read. rewrite Hv, Hw.
    assert (Hread : Actions.is_undefined (Actions.Own v) = false).
    { destruct v; try reflexivity. congruence. }
    rewrite Hread.
    assert (Hjson : ∀ x, x ≠ VUndefined →
              Actions.stringified JSON_stringify (Actions.Own x) = JSON_stringify x).
    { intros x Hx. destruct x; try reflexivity. congruence. }
    rewrite !Hjson by assumption.
    unfold Actions.findRecords, Actions.findRecords_query.
    assert (Hgiven : ∀ rest, Actions.given (Some ("AND({" +:+ rest)) = true).
    { intros rest. reflexivity. }
    rewrite Hgiven. cbn [Z.eqb]. rewrite Hlookup.
    destruct matches as [|found [|]]; reflexivity.
Qed.

Lemma createOrUpdateRecord_updates_on_a_single_match_witness :
  Actions.createOrUpdateRecord Samples.service
    (More.api [Samples.r2; Samples.r2] VNull) (λ _, "x") "a" "tbl1" "modified" None
    {[ "modified" := VStr "t3" ]}
  = Ok {| Actions.upserted :=
            {| rec_id := "recNew"; rec_createdTime := "t9";
               rec_fields := {[ "modified" := VStr "t3" ]} |};
          Actions.isNew := true |}
  ∧ Actions.createOrUpdateRecord Samples.service
      (More.api [Samples.r2] VNull) (λ _, "x") "a" "tbl1" "constructor" None
      {[ "modified" := VStr "t3" ]}
    = Ok {| Actions.upserted :=
              {| rec_id := "r2"; rec_createdTime := "t0";
                 rec_fields := {[ "modified" := VStr "t3" ]} |};
            Actions.isNew := false |}
  ∧ Actions.createOrUpdateRecord Samples.service
      (More.api [Samples.r2] VNull) (λ _, "x") "a" "tbl1" "created" None
      {[ "modified" := VStr "t3" ]}
    = Throw (Error ("Fields object must contain value by the lookupField="
                    +:+ quoted "created")).
Proof.
  split_and!.
  - destruct (createOrUpdateRecord_updates_on_a_single_match Samples.service
                (More.api [Samples.r2; Samples.r2] VNull) (λ _, "x") "a" "tbl1"
                "modified" None {[ "modified" := VStr "t3" ]})
      as (_ & _ & _ & Hformula & _).
    rewrite (Hformula (VStr "t3") [Samples.r2; Samples.r2]);
      [reflexivity|discriminate|reflexivity|discriminate|reflexivity|reflexivity].
  - destruct (createOrUpdateRecord_updates_on_a_single_match Samples.service
                (More.api [Samples.r2] VNull) (λ _, "x") "a" "tbl1"
                "constructor" None {[ "modified" := VStr "t3" ]})
      as (_ & _ & Hmatches & _).
    rewrite (Hmatches [Samples.r2]); [reflexivity|discriminate| |].
    + right. split; [reflexivity|]. apply list_elem_of_In. left. reflexivity.
    + intros query _. reflexivity.
  - destruct (createOrUpdateRecord_updates_on_a_single_match Samples.service
                (More.api [Samples.r2] VNull) (λ _, "x") "a" "tbl1"
                "created" None {[ "modified" := VStr "t3" ]})
      as (_ & Hthrow & _).
    apply Hthrow; [discriminate|]. right. split; [reflexivity|].
    intros Hin. apply list_elem_of_In in Hin. cbn in Hin.
    repeat (destruct Hin as [Hin|Hin]; [discriminate Hin|]). exact Hin.
Defined.

Lemma fill_fields_spec (tableFields : list Field) :
  ∀ fields : gmap string value,
    (∀ key v, fields !! key = Some v →
              foldl Actions.fill_field fields tableFields !! key = Some v)
    ∧ (∀ f, f ∈ tableFields →
            Actions.has_property (foldl Actions.fill_field fields tableFields)
              (fld_name f) = true)
    ∧ (∀ key v, foldl Actions.fill_field fields tableFields !! key = Some v →
                fields !! key = Some v
                ∨ (v = VNull ∧ ∃ f, f ∈ tableFields ∧ fld_name f = key)).
Proof.
  induction tableFields as [|field tableFields IH]; intros fields.
  - cbn. split_and!; [tauto| |tauto]. intros f Hf. inversion Hf.
  - cbn [foldl]. destruct (IH (Actions.fill_field fields field)) as (Hkeep & Hall & Hnew).
    assert (Hstep : ∀ key v, fields !! key = Some v →
                             Actions.fill_field fields field !! key = Some v).
    { intros key v Hv. unfold Actions.fill_field.
      destruct (Actions.has_property fields (fld_name field)) eqn:Hhas; [exact Hv|].
      rewrite lookup_insert_ne; [exact Hv|]. intros <-.
      unfold Actions.has_property in Hhas. apply orb_false_iff in Hhas as [Hown _].
      apply bool_decide_eq_false in Hown. apply Hown. eauto. }
    assert (Hhere : Actions.has_property (Actions.fill_field fields field)
                      (fld_name field) = true).
    { unfold Actions.fill_field.
      destruct (Actions.has_property fields (fld_name field)) eqn:Hhas; [exact Hhas|].
      unfold Actions.has_property. rewrite lookup_insert_eq.
      rewrite bool_decide_eq_true_2 by eauto. reflexivity. }
    split_and!.
    + intros key v Hv. apply Hkeep, Hstep, Hv.
    + intros f [->|Hf]%elem_of_cons; [|apply Hall, Hf].
      unfold Actions.has_property in Hhere |- *.
      apply orb_true_iff in Hhere as [Hown|Hproto]; [|rewrite Hproto; apply orb_true_r].
      apply bool_decide_eq_true in Hown as [v Hv].
      rewrite (Hkeep _ _ Hv). rewrite bool_decide_eq_true_2 by eauto. reflexivity.
    + intros key v Hv. destruct (Hnew key v Hv) as [Hold | (-> & f & Hf & Hname)].
      * unfold Actions.fill_field in Hold.
        destruct (Actions.has_property fields (fld_name field)); [left; exact Hold|].
        apply lookup_insert_Some in Hold as [[<- <-] | [_ Hold]]; [|left; exact Hold].
        right. split; [reflexivity|]. exists field. split; [left|reflexivity].
      * right. split; [reflexivity|]. exists f. split; [right; exact Hf|exact Hname].
Qed.

(** X24. The sample loader completes the first record with the columns of the
    table: every field name of the schema that is not a property every
    object inherits becomes a key of the sample's fields, the values the
    record had are kept, and a key that was added holds [null]. A table
    without records gives the empty object, and no schema is asked for. *)
Theorem sample_has_every_column this net api base name record others offset table :
  Actions.get_records api (getAccessTokenHeader this VUndefined) base name
    {| Actions.pageSize := Some 1%Z; Actions.maxRecords := None;
       Actions.filterByFormula := None |}
  = Resolved (Some {| body_records := Some (record :: others);
                      records_offset := offset |}) →
  getTableSchema this net base name = Ok (Some table) →
  ∃ sample,
    Actions.onNewOrUpdatedRecord_SampleResultLoader this net api base name
    = Ok (Some sample)
    ∧ rec_id sample = rec_id record
    ∧ (∀ f, f ∈ tbl_fields table → fld_name f ∉ Actions.Object_prototype →
            is_Some (rec_fields sample !! fld_name f))
    ∧ (∀ key v, rec_fields record !! key = Some v → rec_fields sample !! key = Some v)
    ∧ (∀ key v, rec_fields sample !! key = Some v →
                rec_fields record !! key = Some v
                ∨ (v = VNull ∧ ∃ f, f ∈ tbl_fields table ∧ fld_name f = key)).
Proof.
  intros Hrecords Hschema. unfold Actions.onNewOrUpdatedRecord_SampleResultLoader.
  rewrite Hrecords. cbn. rewrite Hschema. cbn.
  destruct (fill_fields_spec (tbl_fields table) (rec_fields record))
    as (Hkeep & Hall & Hnew).
  eexists. split; [reflexivity|]. cbn [rec_id rec_fields].
  split_and!; [reflexivity| |exact Hkeep|exact Hnew].
  intros f Hf Hproto. specialize (Hall f Hf). unfold Actions.has_property in Hall.
  apply orb_true_iff in Hall as [Hown|Hin].
  - apply bool_decide_eq_true in Hown. exact Hown.
  - apply bool_decide_eq_true in Hin. contradiction.
Qed.

Lemma sample_has_every_column_witness :
  ∃ sample,
    Actions.onNewOrUpdatedRecord_SampleResultLoader Samples.service (Samples.remote [])
      (More.api [Samples.r2] VNull) "a" "Tasks"
    = Ok (Some sample)
    ∧ rec_fields sample !! "Created" = Some VNull
    ∧ rec_fields sample !! "modified" = Some (VStr "t3").
Proof.
  destruct (sample_has_every_column Samples.service (Samples.remote [])
              (More.api [Samples.r2] VNull) "a" "Tasks" Samples.r2 [] None Samples.tasks
              eq_refl eq_refl) as (sample & Hcall & _ & Hall & Hkeep & Hnew).
  exists sample. split_and!; [exact Hcall| |apply Hkeep; reflexivity].
  destruct (Hall {| fld_id := "fld1"; fld_name := "Created"; fld_type := "createdTime" |})
    as [v Hv].
  - left.
  - cbn. intros Hin. repeat (apply elem_of_cons in Hin as [Hin|Hin]; [discriminate|]).
    inversion Hin.
  - cbn in Hv. rewrite Hv. f_equal.
    destruct (Hnew _ _ Hv) as [Hold | [-> _]]; [discriminate|reflexivity].
Defined.

(** A table without records: the loader returns the empty object whatever
    the schema endpoint would answer. *)
Lemma sample_of_an_empty_table this net net' api base name offset :
  Actions.get_records api (getAccessTokenHeader this VUndefined) base name
    {| Actions.pageSize := Some 1%Z; Actions.maxRecords := None;
       Actions.filterByFormula := None |}
  = Resolved (Some {| body_records := Some []; records_offset := offset |}) →
  Actions.onNewOrUpdatedRecord_SampleResultLoader this net api base name = Ok None
  ∧ Actions.onNewOrUpdatedRecord_SampleResultLoader this net' api base name = Ok None.
Proof.
  intros Hrecords. unfold Actions.onNewOrUpdatedRecord_SampleResultLoader.
  rewrite Hrecords. split; reflexivity.
Qed.

(** *** The items of a dictionary *)

(** X12. [getBasesDictionary] hands on the remote's offset as its cursor,
    whatever the search, and invents nothing: each item stands for a base
    of the fetched page, with the base's id as value and in the note, and
    with a label that is never empty (the base's name, or ["[empty]"] for
    a base without one). *)
Theorem bases_items_describe_page_entries this net payload body :
  meta_bases net (getAccessTokenHeader this VUndefined) (payload_cursor payload)
  = Resolved body →
  ∃ r,
    getBasesDictionary this net payload = Ok r
    ∧ cursor r = bases_offset body
    ∧ ∀ item, item ∈ items r →
        label item ≠ ""
        ∧ ∃ b, b ∈ bases body
               ∧ value_ item = VStr (base_id b)
               ∧ note item = "ID: " +:+ base_id b
               ∧ label item = (if String.eqb (base_name b) "" then "[empty]"
                               else base_name b).
Proof.
  intros Hnet. rewrite (getBasesDictionary_resolved _ _ _ _ Hnet).
  eexists. split; [reflexivity|]. split; [reflexivity|]. cbn [items].
  intros item (b & -> & Hb%filtered_subset)%list_elem_of_fmap. split.
  - cbn. unfold label_of. destruct (String.eqb_spec (base_name b) ""); [discriminate|].
    assumption.
  - exists b. split_and!; [exact Hb|reflexivity..].
Qed.

Lemma bases_items_describe_page_entries_witness :
  ∃ r,
    getBasesDictionary Samples.service (Samples.remote [])
      {| search := Some "b"; payload_cursor := None |} = Ok r
    ∧ cursor r = None
    ∧ ∀ item, item ∈ items r → label item ≠ "".
Proof.
  destruct (bases_items_describe_page_entries Samples.service (Samples.remote [])
              {| search := Some "b"; payload_cursor := None |}
              {| bases := [ {| base_id := "a"; base_name := "Apples" |};
                            {| base_id := "b"; base_name := "Bananas" |} ];
                 bases_offset := None |} eq_refl) as (r & Hr & Hcursor & Hitems).
  exists r. split_and!; [exact Hr|exact Hcursor|].
  intros item Hitem. apply (Hitems item Hitem).
Defined.
